(** * The capture engine of the CameraCapture plugin

    A shallow embedding of [CaptureEngine]
    (CameraCapture/Source/Shared/Plugin.CaptureEngine.cpp) and the properties
    of its start/stop/shutdown protocol, its payload handler binding and its
    payload routing.

    The engine is a C++ object whose methods run under one critical section
    and whose start and stop sequences are coroutines finishing on a
    background thread.  Here the object is a record, each method is a
    function from engine to engine, each coroutine body runs in one piece,
    and everything the platform decides (whether a call succeeds, what a
    query answers) is an argument of the function that makes the call. *)

From Stdlib Require Import ZArith List Bool Lia.
From Stdlib Require String Ascii Floats.
Import ListNotations.
Open Scope Z_scope.

(** ** HRESULTs and the error macros *)

(* An HRESULT is a signed 32-bit integer; the negative ones are failures. *)
Definition hresult : Type := Z.

Definition S_OK : hresult := 0.
Definition E_ABORT : hresult := 0x80004004 - 0x100000000.
Definition E_FAIL : hresult := 0x80004005 - 0x100000000.
Definition MF_E_UNEXPECTED : hresult := 0xC00D36BB - 0x100000000.

Definition FAILED (hr : hresult) : bool := hr <? 0.
Definition SUCCEEDED (hr : hresult) : bool := 0 <=? hr.

(** ** Objects of the platform *)

(* Identity of a heap object (a COM or WinRT reference): two references are
   the same object exactly when the identities are equal. *)
Definition ObjId : Type := nat.

(* A reference to a [Media::PayloadHandler]. *)
Definition HandlerRef : Type := nat.

(* [winrt::event_token]: one 64-bit value, 0 when value-initialised. *)
Definition event_token : Type := Z.

Inductive guid : Type :=
| GUID_NULL
| MFMediaType_Audio
| MFMediaType_Video
| MFMediaType_Other (n : nat).

Definition guid_eqb (a b : guid) : bool :=
  match a, b with
  | GUID_NULL, GUID_NULL => true
  | MFMediaType_Audio, MFMediaType_Audio => true
  | MFMediaType_Video, MFMediaType_Video => true
  | MFMediaType_Other n, MFMediaType_Other m => Nat.eqb n m
  | _, _ => false
  end.

Inductive MediaStreamType : Type :=
| VideoPreview | VideoRecord | Audio | Photo.

Inductive MediaCaptureSharingMode : Type :=
| ExclusiveControl | SharedReadOnly.

Inductive VideoDeviceCharacteristic : Type :=
| AllStreamsIndependent
| PreviewRecordStreamsIdentical
| PreviewPhotoStreamsIdentical
| RecordPhotoStreamsIdentical
| AllStreamsIdentical.

Inductive AsyncStatus : Type :=
| Started | Completed | Canceled | Error.

(* The two coroutines an operation handle can stand for, with the arguments
   the coroutine frame captured. *)
Inductive Coroutine : Type :=
| CoStartPreview (width height : Z) (enableAudio enableMrc : bool)
| CoStopPreview.

Record IAsyncAction : Type := MkAsyncAction {
  body : Coroutine;
  Status : AsyncStatus;
  ErrorCode : hresult
}.

Record MediaCapture : Type := MkMediaCapture {
  capture_id : ObjId;
  (* MediaCaptureSettings().VideoDeviceCharacteristic() *)
  DeviceCharacteristic : VideoDeviceCharacteristic
}.

Record MediaCaptureInitializationSettings : Type := MkInitSettings {
  StreamingAudio : bool;
  SharingMode : MediaCaptureSharingMode;
  DirectxDeviceManager : option ObjId
}.

Record MediaEncodingProfile : Type := MkProfile {
  profile_Audio : bool;
  profile_Width : Z;
  profile_Height : Z
}.

Record Sink : Type := MkSink {
  sink_id : ObjId;
  sink_profile : MediaEncodingProfile;
  sink_PayloadHandler : option HandlerRef
}.

Record IMFSample : Type := MkSample {
  sample_id : ObjId;
  (* capacity of the buffer the sample holds *)
  MaxLength : Z;
  content : list Byte.byte
}.

Definition GetTotalLength (s : IMFSample) : Z := Z.of_nat (length (content s)).

(* A 4x4 float matrix.  Its entries are never inspected by the engine, which
   only moves matrices around, so a matrix is a tag; tag 0 is the all-zero
   matrix ZeroMemory leaves. *)
Inductive float4x4 : Type := Float4x4 (tag : nat).

Definition SpatialCoordinateSystem : Type := ObjId.

Record SharedTexture : Type := MkSharedTexture {
  texture_id : ObjId;
  frameTexture : option ObjId;
  frameTextureDesc_Width : Z;
  frameTextureDesc_Height : Z;
  frameTextureSRV : option ObjId;
  mediaSample : IMFSample;
  cameraToWorldTransform : float4x4;
  cameraProjectionMatrix : float4x4
}.

(** ** The payload handler's events *)

Inductive PayloadEvent : Type :=
| OnMediaProfile
| OnStreamDescription
| OnStreamMetadata
| OnStreamSample
| OnStreamPayload.

Definition PayloadEvent_eqb (a b : PayloadEvent) : bool :=
  match a, b with
  | OnMediaProfile, OnMediaProfile => true
  | OnStreamDescription, OnStreamDescription => true
  | OnStreamMetadata, OnStreamMetadata => true
  | OnStreamSample, OnStreamSample => true
  | OnStreamPayload, OnStreamPayload => true
  | _, _ => false
  end.

(* One registered delegate: on which handler, for which event, under which
   token. *)
Record Subscription : Type := MkSubscription {
  sub_handler : HandlerRef;
  sub_event : PayloadEvent;
  sub_token : event_token
}.

(** ** The callback channel *)

Inductive CaptureStateType : Type :=
| PreviewStarted | PreviewStopped | PreviewAudioFrame | PreviewVideoFrame.

Record CAPTURE_STATE : Type := MkCaptureState {
  stateType : CaptureStateType;
  width : Z;
  height : Z;
  texturePtr : option ObjId;
  worldMatrix : float4x4;
  projectionMatrix : float4x4
}.

Inductive CALLBACK_STATE : Type :=
| CallbackCapture (captureState : CAPTURE_STATE)
| CallbackFailed.

(* A notification as the sink received it, with what the sink could observe
   of the two operation handles at that moment (the sink is called
   synchronously, from inside the method that raises the notification). *)
Record Delivered : Type := MkDelivered {
  note : CALLBACK_STATE;
  start_outstanding : bool;
  stop_outstanding : bool
}.

(** ** Calls into the platform *)

Inductive ExternalCall : Type :=
| Call_InitializeAsync (hr : hresult)
| Call_SetMediaStreamPropertiesAsync (stream : MediaStreamType) (hr : hresult)
| Call_AddVideoEffectAsync (stream : MediaStreamType) (hr : hresult)
| Call_AddAudioEffectAsync (hr : hresult)
| Call_RemoveEffectAsync (effect : ObjId) (hr : hresult)
| Call_StartRecordToCustomSinkAsync (hr : hresult)
| Call_StartPreviewToCustomSinkAsync (hr : hresult)
| Call_GetPreviewFrameAsync (hr : hresult)
| Call_StopRecordAsync (hr : hresult)
| Call_StopPreviewAsync (hr : hresult)
| Call_Close (capture : ObjId)
| Call_ResumeOnCallingThread
| Call_MFCreateMemoryBuffer (size : Z) (hr : hresult)
| Call_SharedTexture_Create (w h : Z) (hr : hresult)
| Call_CopySample (major : guid) (hr : hresult)
| Call_UpdateTransforms (hr : hresult).

(** ** The engine *)

Record CaptureEngine : Type := MkCaptureEngine {
  m_isShutdown : bool;
  (* manual-reset events: true = signalled *)
  m_startPreviewEventHandle : bool;
  m_stopPreviewEventHandle : bool;
  m_mediaDevice : option ObjId;
  m_dxgiDeviceManager : option ObjId;
  m_resetToken : Z;
  m_streamType : MediaStreamType;
  m_startPreviewOp : option IAsyncAction;
  m_stopPreviewOp : option IAsyncAction;
  m_mediaCapture : option MediaCapture;
  m_initSettings : option MediaCaptureInitializationSettings;
  m_mrcAudioEffect : option ObjId;
  m_mrcVideoEffect : option ObjId;
  m_mrcPreviewEffect : option ObjId;
  m_mediaSink : option Sink;
  m_payloadHandler : option HandlerRef;
  m_profileEventToken : event_token;
  m_streamDescriptionEventToken : event_token;
  m_streamMetaDataEventToken : event_token;
  m_streamSampleEventToken : event_token;
  m_payloadEventToken : event_token;
  m_audioSample : option IMFSample;
  m_sharedVideoTexture : option SharedTexture;
  m_appCoordinateSystem : option SpatialCoordinateSystem;
  (* member of the Module base class: does the weak reference to the host's
     graphics device still lock? *)
  m_d3d11DeviceResources : bool;
  (* the delegates currently registered on payload handlers *)
  subscriptions : list Subscription;
  (* the token the next registration hands out *)
  next_token : event_token;
  (* the identity the next created object gets *)
  next_obj : ObjId;
  (* what the callback sink has received, oldest first *)
  sink_log : list Delivered;
  (* the platform calls made so far, oldest first *)
  calls : list ExternalCall
}.

(* All the fields of [s] at once, handed to [k]; the field updates below
   are written with it. *)
Definition fields {A : Type} (s : CaptureEngine)
    (k : bool -> bool -> bool -> option ObjId -> option ObjId -> Z ->
          MediaStreamType -> option IAsyncAction -> option IAsyncAction ->
          option MediaCapture -> option MediaCaptureInitializationSettings ->
          option ObjId -> option ObjId -> option ObjId -> option Sink ->
          option HandlerRef -> event_token -> event_token -> event_token ->
          event_token -> event_token -> option IMFSample ->
          option SharedTexture -> option SpatialCoordinateSystem -> bool ->
          list Subscription -> event_token -> ObjId -> list Delivered ->
          list ExternalCall -> A) : A :=
  k (m_isShutdown s) (m_startPreviewEventHandle s)
    (m_stopPreviewEventHandle s) (m_mediaDevice s) (m_dxgiDeviceManager s)
    (m_resetToken s) (m_streamType s) (m_startPreviewOp s) (m_stopPreviewOp s)
    (m_mediaCapture s) (m_initSettings s) (m_mrcAudioEffect s)
    (m_mrcVideoEffect s) (m_mrcPreviewEffect s) (m_mediaSink s)
    (m_payloadHandler s) (m_profileEventToken s)
    (m_streamDescriptionEventToken s) (m_streamMetaDataEventToken s)
    (m_streamSampleEventToken s) (m_payloadEventToken s) (m_audioSample s)
    (m_sharedVideoTexture s) (m_appCoordinateSystem s)
    (m_d3d11DeviceResources s) (subscriptions s) (next_token s) (next_obj s)
    (sink_log s) (calls s).

(* Field update: [s <| f := v |>] is [s] with field [f] replaced by [v]. *)
Class Setter {T : Type} (proj : CaptureEngine -> T) : Type :=
  set : T -> CaptureEngine -> CaptureEngine.
Arguments set {T} proj {Setter} v s.

Notation "s <| f := v |>" := (set f v s)
  (at level 1, left associativity, f at level 0, v at level 200).

#[export] Instance upd_m_isShutdown : Setter m_isShutdown := fun v s =>
  fields s (fun x0 x1 x2 x3 x4 x5 x6 x7 x8 x9 x10 x11 x12 x13 x14 x15 x16 x17
      x18 x19 x20 x21 x22 x23 x24 x25 x26 x27 x28 x29 =>
    MkCaptureEngine v x1 x2 x3 x4 x5 x6 x7 x8 x9 x10 x11 x12 x13 x14 x15 x16
      x17 x18 x19 x20 x21 x22 x23 x24 x25 x26 x27 x28 x29).
#[export] Instance upd_m_startPreviewEventHandle : Setter m_startPreviewEventHandle := fun v s =>
  fields s (fun x0 x1 x2 x3 x4 x5 x6 x7 x8 x9 x10 x11 x12 x13 x14 x15 x16 x17
      x18 x19 x20 x21 x22 x23 x24 x25 x26 x27 x28 x29 =>
    MkCaptureEngine x0 v x2 x3 x4 x5 x6 x7 x8 x9 x10 x11 x12 x13 x14 x15 x16
      x17 x18 x19 x20 x21 x22 x23 x24 x25 x26 x27 x28 x29).
#[export] Instance upd_m_stopPreviewEventHandle : Setter m_stopPreviewEventHandle := fun v s =>
  fields s (fun x0 x1 x2 x3 x4 x5 x6 x7 x8 x9 x10 x11 x12 x13 x14 x15 x16 x17
      x18 x19 x20 x21 x22 x23 x24 x25 x26 x27 x28 x29 =>
    MkCaptureEngine x0 x1 v x3 x4 x5 x6 x7 x8 x9 x10 x11 x12 x13 x14 x15 x16
      x17 x18 x19 x20 x21 x22 x23 x24 x25 x26 x27 x28 x29).
#[export] Instance upd_m_mediaDevice : Setter m_mediaDevice := fun v s =>
  fields s (fun x0 x1 x2 x3 x4 x5 x6 x7 x8 x9 x10 x11 x12 x13 x14 x15 x16 x17
      x18 x19 x20 x21 x22 x23 x24 x25 x26 x27 x28 x29 =>
    MkCaptureEngine x0 x1 x2 v x4 x5 x6 x7 x8 x9 x10 x11 x12 x13 x14 x15 x16
      x17 x18 x19 x20 x21 x22 x23 x24 x25 x26 x27 x28 x29).
#[export] Instance upd_m_dxgiDeviceManager : Setter m_dxgiDeviceManager := fun v s =>
  fields s (fun x0 x1 x2 x3 x4 x5 x6 x7 x8 x9 x10 x11 x12 x13 x14 x15 x16 x17
      x18 x19 x20 x21 x22 x23 x24 x25 x26 x27 x28 x29 =>
    MkCaptureEngine x0 x1 x2 x3 v x5 x6 x7 x8 x9 x10 x11 x12 x13 x14 x15 x16
      x17 x18 x19 x20 x21 x22 x23 x24 x25 x26 x27 x28 x29).
#[export] Instance upd_m_resetToken : Setter m_resetToken := fun v s =>
  fields s (fun x0 x1 x2 x3 x4 x5 x6 x7 x8 x9 x10 x11 x12 x13 x14 x15 x16 x17
      x18 x19 x20 x21 x22 x23 x24 x25 x26 x27 x28 x29 =>
    MkCaptureEngine x0 x1 x2 x3 x4 v x6 x7 x8 x9 x10 x11 x12 x13 x14 x15 x16
      x17 x18 x19 x20 x21 x22 x23 x24 x25 x26 x27 x28 x29).
#[export] Instance upd_m_streamType : Setter m_streamType := fun v s =>
  fields s (fun x0 x1 x2 x3 x4 x5 x6 x7 x8 x9 x10 x11 x12 x13 x14 x15 x16 x17
      x18 x19 x20 x21 x22 x23 x24 x25 x26 x27 x28 x29 =>
    MkCaptureEngine x0 x1 x2 x3 x4 x5 v x7 x8 x9 x10 x11 x12 x13 x14 x15 x16
      x17 x18 x19 x20 x21 x22 x23 x24 x25 x26 x27 x28 x29).
#[export] Instance upd_m_startPreviewOp : Setter m_startPreviewOp := fun v s =>
  fields s (fun x0 x1 x2 x3 x4 x5 x6 x7 x8 x9 x10 x11 x12 x13 x14 x15 x16 x17
      x18 x19 x20 x21 x22 x23 x24 x25 x26 x27 x28 x29 =>
    MkCaptureEngine x0 x1 x2 x3 x4 x5 x6 v x8 x9 x10 x11 x12 x13 x14 x15 x16
      x17 x18 x19 x20 x21 x22 x23 x24 x25 x26 x27 x28 x29).
#[export] Instance upd_m_stopPreviewOp : Setter m_stopPreviewOp := fun v s =>
  fields s (fun x0 x1 x2 x3 x4 x5 x6 x7 x8 x9 x10 x11 x12 x13 x14 x15 x16 x17
      x18 x19 x20 x21 x22 x23 x24 x25 x26 x27 x28 x29 =>
    MkCaptureEngine x0 x1 x2 x3 x4 x5 x6 x7 v x9 x10 x11 x12 x13 x14 x15 x16
      x17 x18 x19 x20 x21 x22 x23 x24 x25 x26 x27 x28 x29).
#[export] Instance upd_m_mediaCapture : Setter m_mediaCapture := fun v s =>
  fields s (fun x0 x1 x2 x3 x4 x5 x6 x7 x8 x9 x10 x11 x12 x13 x14 x15 x16 x17
      x18 x19 x20 x21 x22 x23 x24 x25 x26 x27 x28 x29 =>
    MkCaptureEngine x0 x1 x2 x3 x4 x5 x6 x7 x8 v x10 x11 x12 x13 x14 x15 x16
      x17 x18 x19 x20 x21 x22 x23 x24 x25 x26 x27 x28 x29).
#[export] Instance upd_m_initSettings : Setter m_initSettings := fun v s =>
  fields s (fun x0 x1 x2 x3 x4 x5 x6 x7 x8 x9 x10 x11 x12 x13 x14 x15 x16 x17
      x18 x19 x20 x21 x22 x23 x24 x25 x26 x27 x28 x29 =>
    MkCaptureEngine x0 x1 x2 x3 x4 x5 x6 x7 x8 x9 v x11 x12 x13 x14 x15 x16
      x17 x18 x19 x20 x21 x22 x23 x24 x25 x26 x27 x28 x29).
#[export] Instance upd_m_mrcAudioEffect : Setter m_mrcAudioEffect := fun v s =>
  fields s (fun x0 x1 x2 x3 x4 x5 x6 x7 x8 x9 x10 x11 x12 x13 x14 x15 x16 x17
      x18 x19 x20 x21 x22 x23 x24 x25 x26 x27 x28 x29 =>
    MkCaptureEngine x0 x1 x2 x3 x4 x5 x6 x7 x8 x9 x10 v x12 x13 x14 x15 x16
      x17 x18 x19 x20 x21 x22 x23 x24 x25 x26 x27 x28 x29).
#[export] Instance upd_m_mrcVideoEffect : Setter m_mrcVideoEffect := fun v s =>
  fields s (fun x0 x1 x2 x3 x4 x5 x6 x7 x8 x9 x10 x11 x12 x13 x14 x15 x16 x17
      x18 x19 x20 x21 x22 x23 x24 x25 x26 x27 x28 x29 =>
    MkCaptureEngine x0 x1 x2 x3 x4 x5 x6 x7 x8 x9 x10 x11 v x13 x14 x15 x16
      x17 x18 x19 x20 x21 x22 x23 x24 x25 x26 x27 x28 x29).
#[export] Instance upd_m_mrcPreviewEffect : Setter m_mrcPreviewEffect := fun v s =>
  fields s (fun x0 x1 x2 x3 x4 x5 x6 x7 x8 x9 x10 x11 x12 x13 x14 x15 x16 x17
      x18 x19 x20 x21 x22 x23 x24 x25 x26 x27 x28 x29 =>
    MkCaptureEngine x0 x1 x2 x3 x4 x5 x6 x7 x8 x9 x10 x11 x12 v x14 x15 x16
      x17 x18 x19 x20 x21 x22 x23 x24 x25 x26 x27 x28 x29).
#[export] Instance upd_m_mediaSink : Setter m_mediaSink := fun v s =>
  fields s (fun x0 x1 x2 x3 x4 x5 x6 x7 x8 x9 x10 x11 x12 x13 x14 x15 x16 x17
      x18 x19 x20 x21 x22 x23 x24 x25 x26 x27 x28 x29 =>
    MkCaptureEngine x0 x1 x2 x3 x4 x5 x6 x7 x8 x9 x10 x11 x12 x13 v x15 x16
      x17 x18 x19 x20 x21 x22 x23 x24 x25 x26 x27 x28 x29).
#[export] Instance upd_m_payloadHandler : Setter m_payloadHandler := fun v s =>
  fields s (fun x0 x1 x2 x3 x4 x5 x6 x7 x8 x9 x10 x11 x12 x13 x14 x15 x16 x17
      x18 x19 x20 x21 x22 x23 x24 x25 x26 x27 x28 x29 =>
    MkCaptureEngine x0 x1 x2 x3 x4 x5 x6 x7 x8 x9 x10 x11 x12 x13 x14 v x16
      x17 x18 x19 x20 x21 x22 x23 x24 x25 x26 x27 x28 x29).
#[export] Instance upd_m_profileEventToken : Setter m_profileEventToken := fun v s =>
  fields s (fun x0 x1 x2 x3 x4 x5 x6 x7 x8 x9 x10 x11 x12 x13 x14 x15 x16 x17
      x18 x19 x20 x21 x22 x23 x24 x25 x26 x27 x28 x29 =>
    MkCaptureEngine x0 x1 x2 x3 x4 x5 x6 x7 x8 x9 x10 x11 x12 x13 x14 x15 v
      x17 x18 x19 x20 x21 x22 x23 x24 x25 x26 x27 x28 x29).
#[export] Instance upd_m_streamDescriptionEventToken : Setter m_streamDescriptionEventToken := fun v s =>
  fields s (fun x0 x1 x2 x3 x4 x5 x6 x7 x8 x9 x10 x11 x12 x13 x14 x15 x16 x17
      x18 x19 x20 x21 x22 x23 x24 x25 x26 x27 x28 x29 =>
    MkCaptureEngine x0 x1 x2 x3 x4 x5 x6 x7 x8 x9 x10 x11 x12 x13 x14 x15 x16
      v x18 x19 x20 x21 x22 x23 x24 x25 x26 x27 x28 x29).
#[export] Instance upd_m_streamMetaDataEventToken : Setter m_streamMetaDataEventToken := fun v s =>
  fields s (fun x0 x1 x2 x3 x4 x5 x6 x7 x8 x9 x10 x11 x12 x13 x14 x15 x16 x17
      x18 x19 x20 x21 x22 x23 x24 x25 x26 x27 x28 x29 =>
    MkCaptureEngine x0 x1 x2 x3 x4 x5 x6 x7 x8 x9 x10 x11 x12 x13 x14 x15 x16
      x17 v x19 x20 x21 x22 x23 x24 x25 x26 x27 x28 x29).
#[export] Instance upd_m_streamSampleEventToken : Setter m_streamSampleEventToken := fun v s =>
  fields s (fun x0 x1 x2 x3 x4 x5 x6 x7 x8 x9 x10 x11 x12 x13 x14 x15 x16 x17
      x18 x19 x20 x21 x22 x23 x24 x25 x26 x27 x28 x29 =>
    MkCaptureEngine x0 x1 x2 x3 x4 x5 x6 x7 x8 x9 x10 x11 x12 x13 x14 x15 x16
      x17 x18 v x20 x21 x22 x23 x24 x25 x26 x27 x28 x29).
#[export] Instance upd_m_payloadEventToken : Setter m_payloadEventToken := fun v s =>
  fields s (fun x0 x1 x2 x3 x4 x5 x6 x7 x8 x9 x10 x11 x12 x13 x14 x15 x16 x17
      x18 x19 x20 x21 x22 x23 x24 x25 x26 x27 x28 x29 =>
    MkCaptureEngine x0 x1 x2 x3 x4 x5 x6 x7 x8 x9 x10 x11 x12 x13 x14 x15 x16
      x17 x18 x19 v x21 x22 x23 x24 x25 x26 x27 x28 x29).
#[export] Instance upd_m_audioSample : Setter m_audioSample := fun v s =>
  fields s (fun x0 x1 x2 x3 x4 x5 x6 x7 x8 x9 x10 x11 x12 x13 x14 x15 x16 x17
      x18 x19 x20 x21 x22 x23 x24 x25 x26 x27 x28 x29 =>
    MkCaptureEngine x0 x1 x2 x3 x4 x5 x6 x7 x8 x9 x10 x11 x12 x13 x14 x15 x16
      x17 x18 x19 x20 v x22 x23 x24 x25 x26 x27 x28 x29).
#[export] Instance upd_m_sharedVideoTexture : Setter m_sharedVideoTexture := fun v s =>
  fields s (fun x0 x1 x2 x3 x4 x5 x6 x7 x8 x9 x10 x11 x12 x13 x14 x15 x16 x17
      x18 x19 x20 x21 x22 x23 x24 x25 x26 x27 x28 x29 =>
    MkCaptureEngine x0 x1 x2 x3 x4 x5 x6 x7 x8 x9 x10 x11 x12 x13 x14 x15 x16
      x17 x18 x19 x20 x21 v x23 x24 x25 x26 x27 x28 x29).
#[export] Instance upd_m_appCoordinateSystem : Setter m_appCoordinateSystem := fun v s =>
  fields s (fun x0 x1 x2 x3 x4 x5 x6 x7 x8 x9 x10 x11 x12 x13 x14 x15 x16 x17
      x18 x19 x20 x21 x22 x23 x24 x25 x26 x27 x28 x29 =>
    MkCaptureEngine x0 x1 x2 x3 x4 x5 x6 x7 x8 x9 x10 x11 x12 x13 x14 x15 x16
      x17 x18 x19 x20 x21 x22 v x24 x25 x26 x27 x28 x29).
#[export] Instance upd_m_d3d11DeviceResources : Setter m_d3d11DeviceResources := fun v s =>
  fields s (fun x0 x1 x2 x3 x4 x5 x6 x7 x8 x9 x10 x11 x12 x13 x14 x15 x16 x17
      x18 x19 x20 x21 x22 x23 x24 x25 x26 x27 x28 x29 =>
    MkCaptureEngine x0 x1 x2 x3 x4 x5 x6 x7 x8 x9 x10 x11 x12 x13 x14 x15 x16
      x17 x18 x19 x20 x21 x22 x23 v x25 x26 x27 x28 x29).
#[export] Instance upd_subscriptions : Setter subscriptions := fun v s =>
  fields s (fun x0 x1 x2 x3 x4 x5 x6 x7 x8 x9 x10 x11 x12 x13 x14 x15 x16 x17
      x18 x19 x20 x21 x22 x23 x24 x25 x26 x27 x28 x29 =>
    MkCaptureEngine x0 x1 x2 x3 x4 x5 x6 x7 x8 x9 x10 x11 x12 x13 x14 x15 x16
      x17 x18 x19 x20 x21 x22 x23 x24 v x26 x27 x28 x29).
#[export] Instance upd_next_token : Setter next_token := fun v s =>
  fields s (fun x0 x1 x2 x3 x4 x5 x6 x7 x8 x9 x10 x11 x12 x13 x14 x15 x16 x17
      x18 x19 x20 x21 x22 x23 x24 x25 x26 x27 x28 x29 =>
    MkCaptureEngine x0 x1 x2 x3 x4 x5 x6 x7 x8 x9 x10 x11 x12 x13 x14 x15 x16
      x17 x18 x19 x20 x21 x22 x23 x24 x25 v x27 x28 x29).
#[export] Instance upd_next_obj : Setter next_obj := fun v s =>
  fields s (fun x0 x1 x2 x3 x4 x5 x6 x7 x8 x9 x10 x11 x12 x13 x14 x15 x16 x17
      x18 x19 x20 x21 x22 x23 x24 x25 x26 x27 x28 x29 =>
    MkCaptureEngine x0 x1 x2 x3 x4 x5 x6 x7 x8 x9 x10 x11 x12 x13 x14 x15 x16
      x17 x18 x19 x20 x21 x22 x23 x24 x25 x26 v x28 x29).
#[export] Instance upd_sink_log : Setter sink_log := fun v s =>
  fields s (fun x0 x1 x2 x3 x4 x5 x6 x7 x8 x9 x10 x11 x12 x13 x14 x15 x16 x17
      x18 x19 x20 x21 x22 x23 x24 x25 x26 x27 x28 x29 =>
    MkCaptureEngine x0 x1 x2 x3 x4 x5 x6 x7 x8 x9 x10 x11 x12 x13 x14 x15 x16
      x17 x18 x19 x20 x21 x22 x23 x24 x25 x26 x27 v x29).
#[export] Instance upd_calls : Setter calls := fun v s =>
  fields s (fun x0 x1 x2 x3 x4 x5 x6 x7 x8 x9 x10 x11 x12 x13 x14 x15 x16 x17
      x18 x19 x20 x21 x22 x23 x24 x25 x26 x27 x28 x29 =>
    MkCaptureEngine x0 x1 x2 x3 x4 x5 x6 x7 x8 x9 x10 x11 x12 x13 x14 x15 x16
      x17 x18 x19 x20 x21 x22 x23 x24 x25 x26 x27 x28 v).

Definition is_some {A : Type} (o : option A) : bool :=
  match o with Some _ => true | None => false end.

Definition log (c : ExternalCall) (s : CaptureEngine) : CaptureEngine :=
  s <| calls := calls s ++ [c] |>.

(* A new object: its identity, and the engine with the counter advanced. *)
Definition fresh (s : CaptureEngine) : ObjId * CaptureEngine :=
  (next_obj s, s <| next_obj := S (next_obj s) |>).

(* The constructor's member initialisers.  Both events are created
   signalled; the five tokens are value-initialised. *)
Definition CaptureEngine_new : CaptureEngine :=
  MkCaptureEngine false true true None None 0 VideoPreview None None None None
    None None None None None 0 0 0 0 0 None None None true [] 1 0%nat [] [].

(** ** The Module base class and the error macros *)

(** Modelled from the spec: [Module::Callback] (base class Plugin.Module, not
   in src) takes a notification for the one registered callback sink,
   "delivered synchronously from whichever context completed the triggering
   operation"; the sink is "set once at construction; not reassignable".
   [sink_log] is the list of what the engine has handed to it, each
   notification with the two operation handles as they were at that moment.
   What callback delivery does with a notification once the engine is marked
   shut down is the part of [Module_deliver], below. *)
Definition Callback (state : CALLBACK_STATE) (s : CaptureEngine) : CaptureEngine :=
  s <| sink_log := sink_log s ++
         [MkDelivered state (is_some (m_startPreviewOp s))
                      (is_some (m_stopPreviewOp s))] |>.

(** Modelled from the spec: [Module::Failed] (same base class) raises the
   "failure notification" on the same channel. *)
Definition Failed (s : CaptureEngine) : CaptureEngine :=
  Callback CallbackFailed s.

(** Modelled from the spec: [Module::Shutdown] (same base class) "marks the
   engine permanently shut down; afterward, all callback delivery from
   in-flight completions must check the shutdown flag and suppress
   notification".  The mark is the base class's own state ([ModuleState] and
   [Module_mark], below).  Of the engine's members, whose flag
   [m_isShutdown] is already set when it is called, it changes nothing. *)
Definition Module_Shutdown (s : CaptureEngine) : CaptureEngine := s.

(* ZeroMemory(&state, ...) followed by the two assignments every capture
   notification starts with. *)
Definition capture_state (t : CaptureStateType) : CAPTURE_STATE :=
  MkCaptureState t 0 0 None (Float4x4 0) (Float4x4 0).

(** Modelled from the spec: the error macros IFR, IFV, NULL_CHK_HR and
    NULL_CHK_R (not in src).  A busy call "fails immediately with a
    busy-error" and "performs no state change", and in the device resource
    manager "either both resources end up populated or neither does": IFR(hr)
    returns hr from the enclosing function when FAILED(hr), IFV(hr) returns
    from a void function when FAILED(hr), NULL_CHK_HR(p, hr) returns hr when
    p is null, and NULL_CHK_R(p) returns when p is null.  [s] is the engine
    at the point of the macro, [k] what follows it. *)
Definition IFR (hr : hresult) (s : CaptureEngine)
    (k : hresult * CaptureEngine) : hresult * CaptureEngine :=
  if FAILED hr then (hr, s) else k.

Definition IFV (hr : hresult) (s : CaptureEngine)
    (k : CaptureEngine) : CaptureEngine :=
  if FAILED hr then s else k.

(** ** Device resources *)

(* What the graphics platform answers during one CreateDeviceResources. *)
Record DeviceEnv : Type := MkDeviceEnv {
  QueryInterface_hr : hresult;
  GetAdapter_hr : hresult;
  CreateMediaDevice_hr : hresult;
  MFCreateDXGIDeviceManager_hr : hresult;
  ResetDevice_hr : hresult;
  resetToken : Z
}.

Definition CreateDeviceResources (env : DeviceEnv) (s : CaptureEngine)
  : hresult * CaptureEngine :=
  if is_some (m_mediaDevice s) && is_some (m_dxgiDeviceManager s)
  then (S_OK, s)
  else
    if negb (m_d3d11DeviceResources s) then (MF_E_UNEXPECTED, s) else
    IFR (QueryInterface_hr env) s (
    IFR (GetAdapter_hr env) s (
    IFR (CreateMediaDevice_hr env) s (
    IFR (MFCreateDXGIDeviceManager_hr env) s (
    IFR (ResetDevice_hr env) s (
      let (mediaDevice, s1) := fresh s in
      let (dxgiDeviceManager, s2) := fresh s1 in
      (S_OK, s2 <| m_mediaDevice := Some mediaDevice |>
                <| m_dxgiDeviceManager := Some dxgiDeviceManager |>
                <| m_resetToken := resetToken env |>)))))).

Definition ReleaseDeviceResources (s : CaptureEngine) : CaptureEngine :=
  let s1 := if is_some (m_audioSample s)
            then s <| m_audioSample := None |> else s in
  let s2 := if is_some (m_sharedVideoTexture s1)
            then s1 <| m_sharedVideoTexture := None |> else s1 in
  let s3 := if is_some (m_dxgiDeviceManager s2)
            then s2 <| m_dxgiDeviceManager := None |> else s2 in
  if is_some (m_mediaDevice s3)
  then s3 <| m_mediaDevice := None |> else s3.

(** ** The payload handler binding *)

(** Modelled from the spec: the [Media::PayloadHandler] runtime class (not in
   src) carries "five independently-tokened event subscriptions".  As for
   every WinRT event, registering a delegate returns a token no other live
   registration has and that is never 0, and revoking with a token removes
   the registration of that event that carries it, if there is one. *)
Definition event_add (h : HandlerRef) (ev : PayloadEvent) (s : CaptureEngine)
  : event_token * CaptureEngine :=
  let t := next_token s in
  (t, s <| subscriptions := subscriptions s ++ [MkSubscription h ev t] |>
        <| next_token := t + 1 |>).

Definition matches (h : HandlerRef) (ev : PayloadEvent) (t : event_token)
    (x : Subscription) : bool :=
  Nat.eqb (sub_handler x) h && PayloadEvent_eqb (sub_event x) ev
  && (sub_token x =? t).

Definition event_remove (h : HandlerRef) (ev : PayloadEvent) (t : event_token)
    (s : CaptureEngine) : CaptureEngine :=
  s <| subscriptions :=
         filter (fun x => negb (matches h ev t x)) (subscriptions s) |>.

Definition ResetPayloadHandler (s : CaptureEngine) : CaptureEngine :=
  match m_payloadHandler s with
  | None => s
  | Some h =>
      let s1 := event_remove h OnMediaProfile (m_profileEventToken s) s in
      let s2 := event_remove h OnStreamPayload (m_payloadEventToken s1) s1 in
      let s3 := event_remove h OnStreamSample (m_streamSampleEventToken s2) s2 in
      let s4 := event_remove h OnStreamMetadata (m_streamMetaDataEventToken s3) s3 in
      let s5 := event_remove h OnStreamDescription
                  (m_streamDescriptionEventToken s4) s4 in
      s5 <| m_payloadHandler := None |>
  end.

Definition Sink_put_PayloadHandler (value : option HandlerRef) (k : Sink) : Sink :=
  MkSink (sink_id k) (sink_profile k) value.

(* The setter [CaptureEngine::PayloadHandler(value)].  [None] is the null
   dereference the setter runs into when [value] is null: it calls
   OnMediaProfile on the handler it has just stored.  Of the five delegates
   it registers, four only log or do nothing; the fifth is [StreamPayload]
   below. *)
Definition put_PayloadHandler (value : option HandlerRef) (s : CaptureEngine)
  : option CaptureEngine :=
  let s1 := ResetPayloadHandler s in
  let s2 := s1 <| m_payloadHandler := value |> in
  let s3 := match m_mediaSink s2 with
            | Some k =>
                s2 <| m_mediaSink :=
                        Some (Sink_put_PayloadHandler (m_payloadHandler s2) k) |>
            | None => s2
            end in
  match m_payloadHandler s3 with
  | None => None
  | Some h =>
      let (t1, s4) := event_add h OnMediaProfile s3 in
      let s4 := s4 <| m_profileEventToken := t1 |> in
      let (t2, s5) := event_add h OnStreamDescription s4 in
      let s5 := s5 <| m_streamDescriptionEventToken := t2 |> in
      let (t3, s6) := event_add h OnStreamMetadata s5 in
      let s6 := s6 <| m_streamMetaDataEventToken := t3 |> in
      let (t4, s7) := event_add h OnStreamSample s6 in
      let s7 := s7 <| m_streamSampleEventToken := t4 |> in
      (* line 362: the payload registration's token also goes to
         m_streamSampleEventToken *)
      let (t5, s8) := event_add h OnStreamPayload s7 in
      Some (s8 <| m_streamSampleEventToken := t5 |>)
  end.

Definition put_AppCoordinateSystem (value : option SpatialCoordinateSystem)
    (s : CaptureEngine) : CaptureEngine :=
  s <| m_appCoordinateSystem := value |>.

(* The subscriptions a handler carries. *)
Definition subscriptions_on (h : HandlerRef) (s : CaptureEngine)
  : list Subscription :=
  filter (fun x => Nat.eqb (sub_handler x) h) (subscriptions s).

(** ** Coroutines *)

(* How a coroutine body ends: it runs to its end, or an awaited call fails
   and the hresult_error it throws leaves the body. *)
Inductive outcome : Type :=
| Done
| Threw (hr : hresult).

Definition co : Type := CaptureEngine -> outcome * CaptureEngine.

Definition co_seq (a b : co) : co := fun s =>
  match a s with
  | (Done, s1) => b s1
  | (Threw hr, s1) => (Threw hr, s1)
  end.

Notation "a ;; b" := (co_seq a b) (at level 61, right associativity).

Definition co_skip : co := fun s => (Done, s).

Definition co_if (c : bool) (a b : co) : co := fun s =>
  if c then a s else b s.

Definition co_do (f : CaptureEngine -> CaptureEngine) : co := fun s => (Done, f s).

(* if (c) { f } *)
Definition co_when (c : CaptureEngine -> bool)
    (f : CaptureEngine -> CaptureEngine) : co := fun s =>
  if c s then (Done, f s) else (Done, s).

(* check_hresult / a call whose failure throws, not recorded in [calls] *)
Definition co_check (hr : hresult) : co := fun s =>
  (if FAILED hr then Threw hr else Done, s).

(* co_await of a platform operation answering [hr]: the call is made, and a
   failed operation throws when its result is fetched. *)
Definition co_await (call : hresult -> ExternalCall) (hr : hresult) : co :=
  fun s => (if FAILED hr then Threw hr else Done, log (call hr) s).

(* try { body } catch (hresult_error const&) { Log(...); } *)
Definition co_try (a : co) : co := fun s =>
  match a s with
  | (_, s1) => (Done, s1)
  end.

(* What the capture platform answers during one run of a start or stop
   coroutine. *)
Record CoEnv : Type := MkCoEnv {
  GetFirstDeviceAsync_hr : hresult;
  SetDirectxDeviceManager_hr : hresult;
  IsVideoProfileSupported : bool;
  InitializeAsync_hr : hresult;
  VideoDeviceCharacteristic_is : VideoDeviceCharacteristic;
  SetMediaStreamProperties_hr : hresult;
  SetRecordStreamProperties_hr : hresult;
  (* GetMediaStreamProperties(m_streamType).as<VideoEncodingProperties>() *)
  negotiated_video : option (Z * Z);
  AddVideoEffect_record_hr : hresult;
  AddVideoEffect_preview_hr : hresult;
  AddAudioEffect_hr : hresult;
  StartToCustomSink_hr : hresult;
  GetPreviewFrame_hr : hresult;
  RemoveEffect_audio_hr : hresult;
  RemoveEffect_preview_hr : hresult;
  RemoveEffect_video_hr : hresult;
  CameraStreamState_Streaming : bool;
  StopAsync_hr : hresult
}.

Definition streams_identical (c : VideoDeviceCharacteristic) : bool :=
  match c with
  | AllStreamsIdentical | PreviewRecordStreamsIdentical => true
  | _ => false
  end.

Definition MediaStreamType_eqb (a b : MediaStreamType) : bool :=
  match a, b with
  | VideoPreview, VideoPreview | VideoRecord, VideoRecord
  | Audio, Audio | Photo, Photo => true
  | _, _ => false
  end.

(* One arm of RemoveMrcEffectsAsync: if the handle is set, await the removal
   and then clear the handle. *)
Definition remove_effect (handle : CaptureEngine -> option ObjId)
    (clear : CaptureEngine -> CaptureEngine) (hr : hresult) : co := fun s =>
  match handle s with
  | Some effect => (co_await (Call_RemoveEffectAsync effect) hr ;; co_do clear) s
  | None => (Done, s)
  end.

Definition RemoveMrcEffectsAsync (env : CoEnv) : co := fun s =>
  match m_mediaCapture s with
  | None => (Done, s)
  | Some _ =>
      if is_some (m_mrcAudioEffect s) || is_some (m_mrcPreviewEffect s)
         || is_some (m_mrcVideoEffect s)
      then
        (remove_effect m_mrcAudioEffect
           (fun s => s <| m_mrcAudioEffect := None |>)
           (RemoveEffect_audio_hr env) ;;
         remove_effect m_mrcPreviewEffect
           (fun s => s <| m_mrcPreviewEffect := None |>)
           (RemoveEffect_preview_hr env) ;;
         remove_effect m_mrcVideoEffect
           (fun s => s <| m_mrcVideoEffect := None |>)
           (RemoveEffect_video_hr env)) s
      else (Done, s)
  end.

(* An awaited Add...EffectAsync: the effect handle it returns is a new
   object, stored by [store] when the call succeeded. *)
Definition add_effect (call : hresult -> ExternalCall) (hr : hresult)
    (store : ObjId -> CaptureEngine -> CaptureEngine) : co :=
  co_await call hr ;;
  (fun s => let (effect, s1) := fresh s in (Done, store effect s1)).

Definition AddMrcEffectsAsync (enableAudio : bool) (env : CoEnv) : co := fun s =>
  match m_mediaCapture s with
  | None => (Done, s)
  | Some capture =>
      co_try
        (co_if (streams_identical (DeviceCharacteristic capture))
           (add_effect (Call_AddVideoEffectAsync VideoRecord)
              (AddVideoEffect_record_hr env)
              (fun e s => s <| m_mrcVideoEffect := Some e |>))
           (add_effect (Call_AddVideoEffectAsync VideoRecord)
              (AddVideoEffect_record_hr env)
              (fun e s => s <| m_mrcVideoEffect := Some e |>) ;;
            add_effect (Call_AddVideoEffectAsync VideoPreview)
              (AddVideoEffect_preview_hr env)
              (fun e s => s <| m_mrcPreviewEffect := Some e |>)) ;;
         co_if enableAudio
           (add_effect Call_AddAudioEffectAsync (AddAudioEffect_hr env)
              (fun e s => s <| m_mrcAudioEffect := Some e |>))
           co_skip) s
  end.

(* CreateMediaCaptureAsync.  The search through the known video profiles
   only chooses what is written into the initialisation settings' video
   profile and media description, which nothing in the engine reads back;
   the settings record keeps the fields that are read. *)
Definition CreateMediaCaptureAsync (enableAudio : bool) (width height : Z)
    (env : CoEnv) : co := fun s =>
  match m_mediaCapture s with
  | Some _ => (Done, s)
  | None =>
      (co_check (GetFirstDeviceAsync_hr env) ;;
       co_check (SetDirectxDeviceManager_hr env) ;;
       co_await Call_InitializeAsync (InitializeAsync_hr env) ;;
       (fun s =>
          let initSettings :=
            MkInitSettings enableAudio
              (if IsVideoProfileSupported env
               then SharedReadOnly else ExclusiveControl)
              (m_dxgiDeviceManager s) in
          let (mediaCapture, s1) := fresh s in
          (Done,
           s1 <| m_mediaCapture :=
                   Some (MkMediaCapture mediaCapture
                           (VideoDeviceCharacteristic_is env)) |>
              <| m_initSettings := Some initSettings |>))) s
  end.

Definition ReleaseMediaCaptureAsync (env : CoEnv) : co := fun s =>
  match m_mediaCapture s with
  | None => (Done, s)
  | Some _ =>
      (RemoveMrcEffectsAsync env ;;
       co_when (fun s => is_some (m_initSettings s))
         (fun s => s <| m_initSettings := None |>) ;;
       (fun s =>
          match m_mediaCapture s with
          | Some capture =>
              (Done, (log (Call_Close (capture_id capture)) s)
                       <| m_mediaCapture := None |>)
          | None => (Done, s)
          end)) s
  end.

(* MediaEncodingProfile::CreateMp4(HD720p) with the container dropped, the
   audio part kept or dropped, and the video size taken from the negotiated
   stream properties when there are any. *)
Definition encoding_profile (enableAudio : bool) (env : CoEnv)
  : MediaEncodingProfile :=
  match negotiated_video env with
  | Some (w, h) => MkProfile enableAudio w h
  | None => MkProfile enableAudio 1280 720
  end.

(* E_POINTER, for a member call on a null reference. *)
Definition E_POINTER : hresult := 0x80004003 - 0x100000000.

(* The start sequence, in the order of the source.  (The source holds the
   critical section across the first awaits; locks are not modelled, each
   body runs in one piece.  Setting the controller's desired optimization
   and building the encoding profile change nothing in the engine.) *)

(* if (m_mediaCapture == nullptr) create it, else remove the effects *)
Definition open_or_reuse_session (width height : Z) (enableAudio : bool)
    (env : CoEnv) : co := fun s =>
  match m_mediaCapture s with
  | None => CreateMediaCaptureAsync enableAudio width height env s
  | Some _ => RemoveMrcEffectsAsync env s
  end.

(* "override video controller media stream properties" *)
Definition set_stream_properties (env : CoEnv) : co := fun s =>
  match m_mediaCapture s, m_initSettings s with
  | Some capture, Some initSettings =>
      match SharingMode initSettings with
      | ExclusiveControl =>
          (co_await (Call_SetMediaStreamPropertiesAsync (m_streamType s))
             (SetMediaStreamProperties_hr env) ;;
           co_if (negb (MediaStreamType_eqb (m_streamType s) VideoPreview)
                  && negb (streams_identical (DeviceCharacteristic capture)))
             (co_await (Call_SetMediaStreamPropertiesAsync VideoRecord)
                (SetRecordStreamProperties_hr env))
             co_skip) s
      | SharedReadOnly => (Done, s)
      end
  | _, _ => (Threw E_POINTER, s)
  end.

(* Start{Record,Preview}ToCustomSinkAsync, and the preview frame probe *)
Definition start_stream (env : CoEnv) : co := fun s =>
  match m_streamType s with
  | VideoRecord =>
      co_await Call_StartRecordToCustomSinkAsync (StartToCustomSink_hr env) s
  | VideoPreview =>
      (co_await Call_StartPreviewToCustomSinkAsync (StartToCustomSink_hr env) ;;
       co_await Call_GetPreviewFrameAsync (GetPreviewFrame_hr env)) s
  | _ => (Done, s)
  end.

(* "store locals", bind the handler that is set, signal the start event *)
Definition store_sink (mediaSink : Sink) : co :=
  co_do (fun s => s <| m_mediaSink := Some mediaSink |>) ;;
  co_when (fun s => is_some (m_payloadHandler s))
    (fun s => s <| m_mediaSink :=
                     Some (Sink_put_PayloadHandler (m_payloadHandler s)
                             mediaSink) |>) ;;
  co_do (fun s => s <| m_startPreviewEventHandle := true |>).

(* if (!m_isShutdown) co_await calling_thread; *)
Definition resume_unless_shutdown : co :=
  co_when (fun s => negb (m_isShutdown s)) (log Call_ResumeOnCallingThread).

Definition StartPreviewCoroutine (width height : Z)
    (enableAudio enableMrc : bool) (env : CoEnv) : co :=
  open_or_reuse_session width height enableAudio env ;;
  set_stream_properties env ;;
  (fun s =>
     let (sink, s1) := fresh s in
     let mediaSink := MkSink sink (encoding_profile enableAudio env) None in
     (co_if enableMrc (AddMrcEffectsAsync enableAudio env) co_skip ;;
      start_stream env ;;
      store_sink mediaSink ;;
      resume_unless_shutdown) s1).

(* The stop sequence. *)

(* if the session is streaming, Stop{Record,Preview}Async *)
Definition stop_stream (env : CoEnv) : co := fun s =>
  if CameraStreamState_Streaming env
  then
    match m_streamType s with
    | VideoRecord => co_await Call_StopRecordAsync (StopAsync_hr env) s
    | VideoPreview => co_await Call_StopPreviewAsync (StopAsync_hr env) s
    | _ => (Done, s)
    end
  else (Done, s).

Definition StopPreviewCoroutine (env : CoEnv) : co :=
  co_do ResetPayloadHandler ;;
  co_when (fun s => is_some (m_mediaSink s))
    (fun s => s <| m_mediaSink := None |>) ;;
  (fun s =>
     match m_mediaCapture s with
     | Some _ => (stop_stream env ;; ReleaseMediaCaptureAsync env) s
     | None => (Done, s)
     end) ;;
  co_do (fun s => s <| m_stopPreviewEventHandle := true |>) ;;
  resume_unless_shutdown.

(** ** Start, stop and their completion handlers *)

Definition outstanding (s : CaptureEngine) : bool :=
  is_some (m_startPreviewOp s) || is_some (m_stopPreviewOp s).

(* StartPreview, up to the point where the coroutine is in flight and its
   Completed handler is attached. *)
Definition StartPreview (width height : Z) (enableAudio enableMrc : bool)
    (env : DeviceEnv) (s : CaptureEngine) : hresult * CaptureEngine :=
  let proceed :=
    let s1 := s <| m_startPreviewEventHandle := false |> in
    let (hr, s2) := CreateDeviceResources env s1 in
    IFR hr s2
      (S_OK,
       s2 <| m_startPreviewOp :=
               Some (MkAsyncAction
                       (CoStartPreview width height enableAudio enableMrc)
                       Started S_OK) |>) in
  if outstanding s then IFR E_ABORT s proceed else proceed.

Definition StopPreview (s : CaptureEngine) : hresult * CaptureEngine :=
  let proceed :=
    let s1 := s <| m_stopPreviewEventHandle := false |> in
    (S_OK,
     s1 <| m_stopPreviewOp :=
             Some (MkAsyncAction CoStopPreview Started S_OK) |>) in
  if outstanding s then IFR E_ABORT s proceed else proceed.

(* The lambda StartPreview passes to m_startPreviewOp.Completed. *)
Definition StartPreview_Completed (status : AsyncStatus) (s : CaptureEngine)
  : CaptureEngine :=
  let s1 := s <| m_startPreviewOp := None |> in
  match status with
  | Error => Failed s1
  | Completed => Callback (CallbackCapture (capture_state PreviewStarted)) s1
  | _ => s1
  end.

(* The lambda StopPreview passes to m_stopPreviewOp.Completed. *)
Definition StopPreview_Completed (status : AsyncStatus) (s : CaptureEngine)
  : CaptureEngine :=
  let s1 := s <| m_stopPreviewOp := None |> in
  match status with
  | Error => Failed s1
  | Completed => Callback (CallbackCapture (capture_state PreviewStopped)) s1
  | _ => s1
  end.

(** ** Running the operations in flight *)

Definition finished (o : outcome) (a : IAsyncAction) : IAsyncAction :=
  match o with
  | Done => MkAsyncAction (body a) Completed S_OK
  | Threw hr => MkAsyncAction (body a) Error hr
  end.

(* The background part of the start operation in flight: its coroutine body
   runs, and the operation's status becomes Completed or Error.  [None] when
   no start operation is waiting to run. *)
Definition run_start (env : CoEnv) (s : CaptureEngine) : option CaptureEngine :=
  match m_startPreviewOp s with
  | Some (MkAsyncAction (CoStartPreview w h a m) Started _ as op) =>
      let (o, s1) := StartPreviewCoroutine w h a m env s in
      Some (s1 <| m_startPreviewOp := Some (finished o op) |>)
  | _ => None
  end.

Definition run_stop (env : CoEnv) (s : CaptureEngine) : option CaptureEngine :=
  match m_stopPreviewOp s with
  | Some (MkAsyncAction CoStopPreview Started _ as op) =>
      let (o, s1) := StopPreviewCoroutine env s in
      Some (s1 <| m_stopPreviewOp := Some (finished o op) |>)
  | _ => None
  end.

(* The Completed handler of the start operation fires once the operation has
   left the Started state.  [None] when there is nothing to complete. *)
Definition complete_start (s : CaptureEngine) : option CaptureEngine :=
  match m_startPreviewOp s with
  | Some op =>
      match Status op with
      | Started => None
      | status => Some (StartPreview_Completed status s)
      end
  | None => None
  end.

Definition complete_stop (s : CaptureEngine) : option CaptureEngine :=
  match m_stopPreviewOp s with
  | Some op =>
      match Status op with
      | Started => None
      | status => Some (StopPreview_Completed status s)
      end
  | None => None
  end.

(** ** Shutdown *)

(* WaitForSingleObject(m_startPreviewEventHandle, INFINITE), entered when the
   start operation's status is Started.  The wait is over once the event is
   signalled, which the coroutine does as its last step; until then the
   coroutine runs.  [None] when the wait never ends: the body threw before
   it reached SetEvent.  (Locks are not modelled.  In the source the start
   sequence takes the critical section for its first stage, lines 523-533,
   and Shutdown holds it while it waits: a wait entered before the sequence
   is past that stage does not end either.  Here the sequence runs in one
   piece.) *)
Definition wait_start (env : CoEnv) (s : CaptureEngine) : option CaptureEngine :=
  match m_startPreviewOp s with
  | Some op =>
      match Status op with
      | Started =>
          if m_startPreviewEventHandle s then Some s else
          match run_start env s with
          | Some s1 => if m_startPreviewEventHandle s1 then Some s1 else None
          | None => None
          end
      | _ => Some s
      end
  | None => Some s
  end.

Definition wait_stop (env : CoEnv) (s : CaptureEngine) : option CaptureEngine :=
  match m_stopPreviewOp s with
  | Some op =>
      match Status op with
      | Started =>
          if m_stopPreviewEventHandle s then Some s else
          match run_stop env s with
          | Some s1 => if m_stopPreviewEventHandle s1 then Some s1 else None
          | None => None
          end
      | _ => Some s
      end
  | None => Some s
  end.

(* Shutdown.  The Completed handlers of the operations it waits for take the
   critical section Shutdown holds, so they run after it has returned
   ([complete_start], [complete_stop]).  [None]: Shutdown does not return. *)
Definition Shutdown (startEnv stopEnv : CoEnv) (s : CaptureEngine)
  : option CaptureEngine :=
  if m_isShutdown s then Some s else
  let s1 := s <| m_isShutdown := true |> in
  match wait_start startEnv s1 with
  | None => None
  | Some s2 =>
      let s3 := if is_some (m_mediaCapture s2) then snd (StopPreview s2) else s2 in
      match wait_stop stopEnv s3 with
      | None => None
      | Some s4 => Some (Module_Shutdown (ReleaseDeviceResources s4))
      end
  end.

(** ** The stream-payload handler *)

Record VideoEncodingProperties : Type := MkVideoProps {
  Width : Z;
  Height : Z
}.

(* A non-null [Media::Payload]. *)
Record Payload : Type := MkPayload {
  (* MediaStreamSample(): absent, or present with what its extended
     properties hold under MF_MT_MAJOR_TYPE *)
  MediaStreamSample : option (option guid);
  (* as<IStreamSample>(): absent, or the IMFSample it gives access to *)
  as_IStreamSample : option IMFSample;
  EncodingProperties : VideoEncodingProperties
}.

(* What the platform answers during one delivery. *)
Record PayloadEnv : Type := MkPayloadEnv {
  GetTotalLength_hr : hresult;
  MFCreateMemoryBuffer_hr : hresult;
  MFCreateSample_hr : hresult;
  AddBuffer_hr : hresult;
  CopySample_hr : hresult;
  device_env : DeviceEnv;
  SharedTexture_Create_hr : hresult;
  UpdateTransforms_hr : hresult;
  new_cameraToWorld : float4x4;
  new_cameraProjection : float4x4
}.

Definition majorType_of (p : Payload) : guid :=
  match MediaStreamSample p with
  | Some (Some type) => type
  | _ => GUID_NULL
  end.

(** Modelled from the spec: [CopySample] (Media.Functions, not in src) "copies
   the sample content into" the destination sample "in place": the
   destination keeps its identity and capacity and takes the content. *)
Definition copy_into (src dst : IMFSample) : IMFSample :=
  MkSample (sample_id dst) (MaxLength dst) (content src).

(** Modelled from the spec: [SharedTexture::Create] (not in src) is the GPU
   buffer provider's "allocate(device, deviceManager, width, height) ->
   {backing buffer, shader-visible handle, description}", reallocating "the
   Shared Video Texture to the new dimensions": a new texture object with a
   new frame texture, view and backing sample, described by the dimensions
   asked for. *)
Definition SharedTexture_Create (w h : Z) (s : CaptureEngine)
  : SharedTexture * CaptureEngine :=
  let (t, s1) := fresh s in
  let (tex, s2) := fresh s1 in
  let (srv, s3) := fresh s2 in
  let (buf, s4) := fresh s3 in
  (MkSharedTexture t (Some tex) w h (Some srv) (MkSample buf (w * h * 4) [])
     (Float4x4 0) (Float4x4 0), s4).

(** Modelled from the spec: [SharedTexture::UpdateTransforms] (not in src)
   "recomputes a camera-to-world matrix and a camera-projection matrix and
   stores them on the texture state". *)
Definition store_transforms (world proj : float4x4) (t : SharedTexture)
  : SharedTexture :=
  MkSharedTexture (texture_id t) (frameTexture t) (frameTextureDesc_Width t)
    (frameTextureDesc_Height t) (frameTextureSRV t) (mediaSample t) world proj.

Definition put_mediaSample (m : IMFSample) (t : SharedTexture) : SharedTexture :=
  MkSharedTexture (texture_id t) (frameTexture t) (frameTextureDesc_Width t)
    (frameTextureDesc_Height t) (frameTextureSRV t) m
    (cameraToWorldTransform t) (cameraProjectionMatrix t).

Definition needs_new_texture (videoProps : VideoEncodingProperties)
    (s : CaptureEngine) : bool :=
  match m_sharedVideoTexture s with
  | None => true
  | Some t =>
      negb (is_some (frameTexture t))
      || negb (frameTextureDesc_Width t =? Width videoProps)
      || negb (frameTextureDesc_Height t =? Height videoProps)
  end.

Definition audio_frame : CALLBACK_STATE :=
  CallbackCapture (capture_state PreviewAudioFrame).

Definition video_frame (t : SharedTexture) (world proj : float4x4)
  : CALLBACK_STATE :=
  CallbackCapture
    (MkCaptureState PreviewVideoFrame (frameTextureDesc_Width t)
       (frameTextureDesc_Height t) (frameTextureSRV t) world proj).

(* if (MFMediaType_Audio == majorType) { ... } *)
Definition audio_branch (src : IMFSample) (env : PayloadEnv)
    (s : CaptureEngine) : CaptureEngine :=
  let copy_and_notify (s : CaptureEngine) : CaptureEngine :=
    let s1 := log (Call_CopySample MFMediaType_Audio (CopySample_hr env)) s in
    IFV (CopySample_hr env) s1
      match m_audioSample s1 with
      | Some dst =>
          Callback audio_frame
            (s1 <| m_audioSample := Some (copy_into src dst) |>)
      | None => s1
      end in
  match m_audioSample s with
  | None =>
      IFV (GetTotalLength_hr env) s
        (let bufferSize := GetTotalLength src in
         let s1 := log (Call_MFCreateMemoryBuffer bufferSize
                          (MFCreateMemoryBuffer_hr env)) s in
         IFV (MFCreateMemoryBuffer_hr env) s1
           (IFV (MFCreateSample_hr env) s1
              (IFV (AddBuffer_hr env) s1
                 (let (dstSample, s2) := fresh s1 in
                  copy_and_notify
                    (s2 <| m_audioSample :=
                             Some (MkSample dstSample bufferSize []) |>)))))
  | Some _ => copy_and_notify s
  end.

(* else if (MFMediaType_Video == majorType) { ... } *)
Definition video_branch (videoProps : VideoEncodingProperties)
    (src : IMFSample) (env : PayloadEnv) (s : CaptureEngine) : CaptureEngine :=
  let copy_and_notify (bufferChanged : bool) (s : CaptureEngine)
    : CaptureEngine :=
    match m_sharedVideoTexture s with
    | None => s
    | Some t =>
        let s1 := log (Call_CopySample MFMediaType_Video (CopySample_hr env)) s in
        IFV (CopySample_hr env) s1
          (let t1 := put_mediaSample (copy_into src (mediaSample t)) t in
           let s2 := s1 <| m_sharedVideoTexture := Some t1 |> in
           match m_appCoordinateSystem s2 with
           | Some _ =>
               let s3 := log (Call_UpdateTransforms (UpdateTransforms_hr env)) s2 in
               if SUCCEEDED (UpdateTransforms_hr env)
               then
                 let t2 := store_transforms (new_cameraToWorld env)
                             (new_cameraProjection env) t1 in
                 Callback
                   (video_frame t2 (cameraToWorldTransform t2)
                      (cameraProjectionMatrix t2))
                   (s3 <| m_sharedVideoTexture := Some t2 |>)
               else
                 if bufferChanged
                 then Callback (video_frame t1 (Float4x4 0) (Float4x4 0)) s3
                 else s3
           | None =>
               if bufferChanged
               then Callback (video_frame t1 (Float4x4 0) (Float4x4 0)) s2
               else s2
           end)
    end in
  if needs_new_texture videoProps s
  then
    if negb (m_d3d11DeviceResources s) then s else
    let (hr, s1) := CreateDeviceResources (device_env env) s in
    IFV hr s1
      (let s2 := log (Call_SharedTexture_Create (Width videoProps)
                        (Height videoProps) (SharedTexture_Create_hr env)) s1 in
       IFV (SharedTexture_Create_hr env) s2
         (let (t, s3) :=
            SharedTexture_Create (Width videoProps) (Height videoProps) s2 in
          copy_and_notify true (s3 <| m_sharedVideoTexture := Some t |>)))
  else copy_and_notify false s.

Definition same_handler (sender : HandlerRef) (h : option HandlerRef) : bool :=
  match h with
  | Some h => Nat.eqb sender h
  | None => false
  end.

(* The delegate registered with OnStreamPayload, called with the handler that
   raised the event and the payload (None: a null payload). *)
Definition StreamPayload (sender : HandlerRef) (payload : option Payload)
    (env : PayloadEnv) (s : CaptureEngine) : CaptureEngine :=
  if m_isShutdown s then s else
  if negb (same_handler sender (m_payloadHandler s)) then s else
  match payload with
  | None => s
  | Some p =>
      let majorType := majorType_of p in
      match as_IStreamSample p with
      | None => s
      | Some src =>
          if guid_eqb MFMediaType_Audio majorType
          then audio_branch src env s
          else if guid_eqb MFMediaType_Video majorType
          then video_branch (EncodingProperties p) src env s
          else s
      end
  end.

(** ** Histories *)

(* What can happen to an engine, one step at a time: a call on its control
   surface, the background part of an operation in flight, the completion
   handler of a finished operation, or the delivery of a payload. *)
Inductive Action : Type :=
| DoStartPreview (width height : Z) (enableAudio enableMrc : bool)
    (env : DeviceEnv)
| DoStopPreview
| DoShutdown (startEnv stopEnv : CoEnv)
| DoPutPayloadHandler (value : option HandlerRef)
| DoPutAppCoordinateSystem (value : option SpatialCoordinateSystem)
| RunStart (env : CoEnv)
| RunStop (env : CoEnv)
| CompleteStart
| CompleteStop
| Deliver (sender : HandlerRef) (payload : option Payload) (env : PayloadEnv).

(* [None]: the action cannot happen in this state, or does not return. *)
Definition step (a : Action) (s : CaptureEngine) : option CaptureEngine :=
  match a with
  | DoStartPreview w h audio mrc env => Some (snd (StartPreview w h audio mrc env s))
  | DoStopPreview => Some (snd (StopPreview s))
  | DoShutdown startEnv stopEnv => Shutdown startEnv stopEnv s
  | DoPutPayloadHandler value => put_PayloadHandler value s
  | DoPutAppCoordinateSystem value => Some (put_AppCoordinateSystem value s)
  | RunStart env => run_start env s
  | RunStop env => run_stop env s
  | CompleteStart => complete_start s
  | CompleteStop => complete_stop s
  | Deliver sender payload env => Some (StreamPayload sender payload env s)
  end.

Fixpoint run (actions : list Action) (s : CaptureEngine) : option CaptureEngine :=
  match actions with
  | [] => Some s
  | a :: rest =>
      match step a s with
      | Some s1 => run rest s1
      | None => None
      end
  end.

(* The states an engine can be in: those a history leads to from a newly
   constructed engine. *)
Definition reachable (s : CaptureEngine) : Prop :=
  exists actions, run actions CaptureEngine_new = Some s.

(** ** What one step added *)

(* The platform calls and the notifications made between an earlier state
   [s] and a later state [s']: both lists only grow at the end. *)
Definition new_calls (s s' : CaptureEngine) : list ExternalCall :=
  skipn (length (calls s)) (calls s').

Definition new_notes (s s' : CaptureEngine) : list Delivered :=
  skipn (length (sink_log s)) (sink_log s').

Definition is_alloc (c : ExternalCall) : bool :=
  match c with
  | Call_SharedTexture_Create _ _ hr => SUCCEEDED hr
  | _ => false
  end.

Definition is_transform_update (c : ExternalCall) : bool :=
  match c with
  | Call_UpdateTransforms hr => SUCCEEDED hr
  | _ => false
  end.

Definition is_transform_failure (c : ExternalCall) : bool :=
  match c with
  | Call_UpdateTransforms hr => FAILED hr
  | _ => false
  end.

Definition is_video_copy (c : ExternalCall) : bool :=
  match c with
  | Call_CopySample MFMediaType_Video hr => SUCCEEDED hr
  | _ => false
  end.

Definition is_video_frame (d : Delivered) : bool :=
  match note d with
  | CallbackCapture c =>
      match stateType c with PreviewVideoFrame => true | _ => false end
  | CallbackFailed => false
  end.

(* A video-frame notification whose matrices are as ZeroMemory left them. *)
Definition is_video_frame_without_matrices (d : Delivered) : bool :=
  match note d with
  | CallbackCapture (MkCaptureState PreviewVideoFrame _ _ _
                       (Float4x4 O) (Float4x4 O)) => true
  | _ => false
  end.

(* The texture was (re)allocated / the transform was updated / updating the
   transform failed / the video sample was copied / video-frame-ready was
   raised between [s] and [s']. *)
Definition allocated (s s' : CaptureEngine) : bool :=
  existsb is_alloc (new_calls s s').
Definition transform_updated (s s' : CaptureEngine) : bool :=
  existsb is_transform_update (new_calls s s').
Definition transform_failed (s s' : CaptureEngine) : bool :=
  existsb is_transform_failure (new_calls s s').
Definition video_copied (s s' : CaptureEngine) : bool :=
  existsb is_video_copy (new_calls s s').
Definition video_frame_raised (s s' : CaptureEngine) : bool :=
  existsb is_video_frame (new_notes s s').

(* How many texture allocations / video-frame notifications a state has
   seen. *)
Definition allocations (s : CaptureEngine) : nat :=
  length (filter is_alloc (calls s)).
Definition video_frames (s : CaptureEngine) : nat :=
  length (filter is_video_frame (sink_log s)).

(* An observation of the engine has the same value in [s'] as in [s]; for a
   function that also returns a result, in the state it returns. *)
Definition unchanged {A : Type} (obs : CaptureEngine -> A)
    (s s' : CaptureEngine) : Prop :=
  obs s' = obs s.

Definition co_unchanged {A R : Type} (obs : CaptureEngine -> A)
    (s : CaptureEngine) (r : R * CaptureEngine) : Prop :=
  obs (snd r) = obs s.

(* The two operation handles. *)
Definition handles (s : CaptureEngine)
  : option IAsyncAction * option IAsyncAction :=
  (m_startPreviewOp s, m_stopPreviewOp s).

(* At most one of the two handles is set. *)
Definition at_most_one_operation (s : CaptureEngine) : Prop :=
  m_startPreviewOp s = None \/ m_stopPreviewOp s = None.

(* [P] holds of the state an operation ends in. *)
Definition holds_after (P : CaptureEngine -> Prop) (s' : CaptureEngine)
  : Prop :=
  P s'.

(* A coroutine that never changes an observation, however it ends. *)
Definition co_keeps {A : Type} (obs : CaptureEngine -> A) (c : co) : Prop :=
  forall s, co_unchanged obs s (c s).

(* What the invariant of the two operations is about. *)
Definition handles_and_log (s : CaptureEngine)
  : (option IAsyncAction * option IAsyncAction) * list Delivered :=
  (handles s, sink_log s).

(* The tokens the handler binding depends on: the payload token the engine
   holds, and the token the next registration gets. *)
Definition token_state (s : CaptureEngine) : event_token * event_token :=
  (m_payloadEventToken s, next_token s).

(* The token the engine holds for the payload event is not one a later
   registration can get. *)
Definition payload_token_stale (s : CaptureEngine) : Prop :=
  m_payloadEventToken s < next_token s.

(* What the start and stop sequences leave as it is. *)
Definition sequence_frame (s : CaptureEngine)
  : (option IAsyncAction * option IAsyncAction) * list Delivered
    * (event_token * event_token) :=
  (handles_and_log s, token_state s).

(* The terminal notifications of an operation: preview-started,
   preview-stopped and failure. *)
Definition terminal (d : Delivered) : bool :=
  match note d with
  | CallbackFailed => true
  | CallbackCapture c =>
      match stateType c with
      | PreviewStarted | PreviewStopped => true
      | _ => false
      end
  end.

(* A terminal notification reached the sink when no handle was set. *)
Definition raised_with_handles_clear (d : Delivered) : Prop :=
  terminal d = true ->
  start_outstanding d = false /\ stop_outstanding d = false.

Definition engine_invariant (s : CaptureEngine) : Prop :=
  at_most_one_operation s
  /\ Forall raised_with_handles_clear (sink_log s).

(* Between [s] and [s'] the handles were left alone and only frame
   notifications were raised. *)
Definition only_frames_raised (s s' : CaptureEngine) : Prop :=
  handles s' = handles s
  /\ exists added,
      sink_log s' = sink_log s ++ added
      /\ Forall (fun d => terminal d = false) added.

(** ** Effect removal, as a list of steps *)

(* The effect handles in the order RemoveMrcEffectsAsync visits them, each
   with what its removal answers on platform [env]. *)
Definition effect_handles (env : CoEnv) (s : CaptureEngine)
  : list (option ObjId * hresult) :=
  [(m_mrcAudioEffect s, RemoveEffect_audio_hr env);
   (m_mrcPreviewEffect s, RemoveEffect_preview_hr env);
   (m_mrcVideoEffect s, RemoveEffect_video_hr env)].

(* Removing in order and stopping at the first removal that fails: the
   removals attempted ... *)
Fixpoint removals_until_failure (l : list (option ObjId * hresult))
  : list ExternalCall :=
  match l with
  | [] => []
  | (None, _) :: rest => removals_until_failure rest
  | (Some effect, hr) :: rest =>
      Call_RemoveEffectAsync effect hr
      :: (if FAILED hr then [] else removals_until_failure rest)
  end.

(* ... the handles afterwards: cleared where the removal succeeded, kept
   from the failing one on ... *)
Fixpoint handles_after_removal (l : list (option ObjId * hresult))
  : list (option ObjId) :=
  match l with
  | [] => []
  | (None, _) :: rest => None :: handles_after_removal rest
  | (Some effect, hr) :: rest =>
      if FAILED hr then Some effect :: map fst rest
      else None :: handles_after_removal rest
  end.

(* ... and how the coroutine ends. *)
Fixpoint removal_outcome (l : list (option ObjId * hresult)) : outcome :=
  match l with
  | [] => Done
  | (None, _) :: rest => removal_outcome rest
  | (Some _, hr) :: rest => if FAILED hr then Threw hr else removal_outcome rest
  end.

(* Removing every installed effect whatever the other removals answer: what
   would be attempted. *)
Definition removals_of_all (l : list (option ObjId * hresult))
  : list ExternalCall :=
  flat_map (fun x => match fst x with
                     | Some effect => [Call_RemoveEffectAsync effect (snd x)]
                     | None => []
                     end) l.

Definition removes_until_failure (env : CoEnv) (s : CaptureEngine)
    (r : outcome * CaptureEngine) : Prop :=
  fst r = removal_outcome (effect_handles env s)
  /\ new_calls s (snd r) = removals_until_failure (effect_handles env s)
  /\ [m_mrcAudioEffect (snd r); m_mrcPreviewEffect (snd r);
      m_mrcVideoEffect (snd r)]
     = handles_after_removal (effect_handles env s).

(** ** Deliveries *)

(* A video payload of size [w] x [h] and an audio payload, each carrying
   sample [src]. *)
Definition video_payload (w h : Z) (src : IMFSample) : Payload :=
  MkPayload (Some (Some MFMediaType_Video)) (Some src) (MkVideoProps w h).

Definition audio_payload (src : IMFSample) : Payload :=
  MkPayload (Some (Some MFMediaType_Audio)) (Some src) (MkVideoProps 0 0).

Definition sample_of (bytes : list Byte.byte) : IMFSample :=
  MkSample 0%nat (Z.of_nat (length bytes)) bytes.

(* Deliveries by handler [h], one after the other, each a payload with what
   the platform answers during it. *)
Definition deliver (h : HandlerRef) (d : Payload * PayloadEnv)
    (s : CaptureEngine) : CaptureEngine :=
  StreamPayload h (Some (fst d)) (snd d) s.

Definition deliver_all (h : HandlerRef) (l : list (Payload * PayloadEnv))
    (s : CaptureEngine) : CaptureEngine :=
  fold_left (fun s d => deliver h d s) l s.

(* What one delivery did, counted. *)
Definition delivery_accounted (s s' : CaptureEngine) : Prop :=
  video_frame_raised s s'
  = video_copied s s' && (allocated s s' || transform_updated s s')
  /\ allocations s' = (allocations s + if allocated s s' then 1 else 0)%nat
  /\ video_frames s'
     = (video_frames s + if video_frame_raised s s' then 1 else 0)%nat.

(* A failed transform update after a reallocation: the frame is still
   raised, with the matrices not filled in. *)
Definition raised_despite_transform_failure (s s' : CaptureEngine) : Prop :=
  allocated s s' = true ->
  transform_failed s s' = true ->
  video_frame_raised s s' = true
  /\ existsb is_video_frame_without_matrices (new_notes s s') = true.

(* The texture fits frames of size [props]. *)
Definition texture_fits (props : VideoEncodingProperties) (s : CaptureEngine)
  : bool :=
  negb (needs_new_texture props s).

(* A delivery of a frame of size [props]: a texture that fits is kept, and a
   texture that was allocated fits. *)
Definition texture_follows (props : VideoEncodingProperties)
    (s s' : CaptureEngine) : Prop :=
  (texture_fits props s = true ->
   allocated s s' = false /\ texture_fits props s' = true)
  /\ (allocated s s' = true -> texture_fits props s' = true).

(* The four steps that allocate the audio sample buffer all succeed. *)
Definition audio_alloc_ok (env : PayloadEnv) : bool :=
  negb (FAILED (GetTotalLength_hr env))
  && negb (FAILED (MFCreateMemoryBuffer_hr env))
  && negb (FAILED (MFCreateSample_hr env))
  && negb (FAILED (AddBuffer_hr env)).

Definition copied_or_not (env : PayloadEnv) (src dst : IMFSample) : IMFSample :=
  if FAILED (CopySample_hr env) then dst else copy_into src dst.

(* What a delivery of audio sample [src] does to the audio sample buffer. *)
Definition audio_buffer_follows (src : IMFSample) (env : PayloadEnv)
    (s s' : CaptureEngine) : Prop :=
  m_audioSample s'
  = match m_audioSample s with
    | Some b => Some (copied_or_not env src b)
    | None =>
        if audio_alloc_ok env
        then Some (copied_or_not env src
                     (MkSample (next_obj s) (GetTotalLength src) []))
        else None
    end.

(* What any delivery leaves as it is. *)
Definition delivery_frame (s : CaptureEngine)
  : bool * option HandlerRef * option SpatialCoordinateSystem * bool :=
  (m_isShutdown s, m_payloadHandler s, m_appCoordinateSystem s,
   m_d3d11DeviceResources s).

(* During a delivery the device resources can be created, the texture
   created and the sample copied. *)
Definition delivery_succeeds (env : PayloadEnv) : bool :=
  negb (FAILED (QueryInterface_hr (device_env env)))
  && negb (FAILED (GetAdapter_hr (device_env env)))
  && negb (FAILED (CreateMediaDevice_hr (device_env env)))
  && negb (FAILED (MFCreateDXGIDeviceManager_hr (device_env env)))
  && negb (FAILED (ResetDevice_hr (device_env env)))
  && negb (FAILED (SharedTexture_Create_hr env))
  && negb (FAILED (CopySample_hr env)).

(* Video frames of one size, each a sample with what the platform answers
   while it is delivered. *)
Definition frames (w h : Z) (l : list (IMFSample * PayloadEnv))
  : list (Payload * PayloadEnv) :=
  map (fun d => (video_payload w h (fst d), snd d)) l.

(* Audio payloads, likewise. *)
Definition audio_payloads (l : list (IMFSample * PayloadEnv))
  : list (Payload * PayloadEnv) :=
  map (fun d => (audio_payload (fst d), snd d)) l.

(* The first frame of a stream of frames to an engine that is bound to
   handler [h], running, without a coordinate system and without a texture
   yet, on a platform where the delivery succeeds. *)
Definition first_frame_raised (s s' : CaptureEngine) : Prop :=
  allocated s s' = true /\ video_frame_raised s s' = true.

(** ** Sample environments, payloads and histories *)

(* A platform on which every call succeeds. *)
Definition device_ok : DeviceEnv := MkDeviceEnv S_OK S_OK S_OK S_OK S_OK 1.

Definition platform_ok : CoEnv :=
  MkCoEnv S_OK S_OK false S_OK AllStreamsIndependent S_OK S_OK
    (Some (1280, 720)) S_OK S_OK S_OK S_OK S_OK S_OK S_OK S_OK true S_OK.

Definition delivery_ok : PayloadEnv :=
  MkPayloadEnv S_OK S_OK S_OK S_OK S_OK device_ok S_OK S_OK
    (Float4x4 1) (Float4x4 2).

(* ... and deliveries during which one call fails. *)
Definition delivery_copy_fails : PayloadEnv :=
  MkPayloadEnv S_OK S_OK S_OK S_OK E_FAIL device_ok S_OK S_OK
    (Float4x4 1) (Float4x4 2).

Definition delivery_buffer_fails : PayloadEnv :=
  MkPayloadEnv S_OK E_FAIL S_OK S_OK S_OK device_ok S_OK S_OK
    (Float4x4 1) (Float4x4 2).

Definition delivery_transform_fails : PayloadEnv :=
  MkPayloadEnv S_OK S_OK S_OK S_OK S_OK device_ok S_OK E_FAIL
    (Float4x4 1) (Float4x4 2).

(* A platform on which removing the audio effect fails. *)
Definition platform_audio_removal_fails : CoEnv :=
  MkCoEnv S_OK S_OK false S_OK AllStreamsIndependent S_OK S_OK
    (Some (1280, 720)) S_OK S_OK S_OK S_OK S_OK E_FAIL S_OK S_OK true S_OK.

(* The state a history leads to, the history being one that does happen. *)
Definition after (actions : list Action) : CaptureEngine :=
  match run actions CaptureEngine_new with
  | Some s => s
  | None => CaptureEngine_new
  end.

(* A start has been accepted and is in flight. *)
Definition engine_starting : CaptureEngine :=
  after [DoStartPreview 1280 720 false false device_ok].

(* Shutdown of an engine that never started anything. *)
Definition engine_shut_down : CaptureEngine :=
  after [DoShutdown platform_ok platform_ok].

(* Handler 1 is bound. *)
Definition engine_bound : CaptureEngine :=
  after [DoPutPayloadHandler (Some 1%nat)].

(* A preview with audio and compositing is running: a session is open and
   the three effects are installed. *)
Definition engine_previewing_mrc : CaptureEngine :=
  after [DoStartPreview 1280 720 true true device_ok;
         RunStart platform_ok; CompleteStart].

(* A preview is running, Shutdown stops it and waits for the stop, and the
   stop's completion handler runs once Shutdown is over. *)
Definition shutdown_during_preview : list Action :=
  [DoStartPreview 1280 720 false false device_ok;
   RunStart platform_ok; CompleteStart;
   DoShutdown platform_ok platform_ok].

(* Handler 1 is bound and a coordinate system is set. *)
Definition engine_tracking : CaptureEngine :=
  after [DoPutPayloadHandler (Some 1%nat); DoPutAppCoordinateSystem (Some 7%nat)].

Definition frame_720p : Payload :=
  video_payload 1280 720 (sample_of []).

Definition two_bytes : IMFSample := sample_of [Byte.x01; Byte.x02].

Definition three_bytes : IMFSample := sample_of [Byte.x03; Byte.x04; Byte.x05].

(** ** What the sequences, the setters and the deliveries leave alone *)

(* The device resources: the media device, the DXGI device manager and the
   reset token stored with them. *)
Definition device_resources (s : CaptureEngine)
  : option ObjId * option ObjId * Z :=
  (m_mediaDevice s, m_dxgiDeviceManager s, m_resetToken s).

(* The two frame buffers. *)
Definition frame_buffers (s : CaptureEngine)
  : option IMFSample * option SharedTexture :=
  (m_audioSample s, m_sharedVideoTexture s).

(* The session and the settings it was initialised with. *)
Definition session (s : CaptureEngine)
  : option MediaCapture * option MediaCaptureInitializationSettings :=
  (m_mediaCapture s, m_initSettings s).

(* The sink and the handler it is to be bound to. *)
Definition binding (s : CaptureEngine) : option Sink * option HandlerRef :=
  (m_mediaSink s, m_payloadHandler s).

(* The two completion events. *)
Definition events (s : CaptureEngine) : bool * bool :=
  (m_startPreviewEventHandle s, m_stopPreviewEventHandle s).

(* The three effect handles. *)
Definition effects (s : CaptureEngine)
  : option ObjId * option ObjId * option ObjId :=
  (m_mrcAudioEffect s, m_mrcPreviewEffect s, m_mrcVideoEffect s).

(* What neither sequence writes. *)
Definition outside_sequences (s : CaptureEngine)
  : bool * bool * MediaStreamType * option SpatialCoordinateSystem
    * (option ObjId * option ObjId * Z)
    * (option IMFSample * option SharedTexture) :=
  (m_isShutdown s, m_d3d11DeviceResources s, m_streamType s,
   m_appCoordinateSystem s, device_resources s, frame_buffers s).

(* What the stages that only talk to the platform leave as it is. *)
Definition around_platform_calls (s : CaptureEngine) :=
  (outside_sequences s, session s, binding s, events s).

(* What opening or releasing a session leaves as it is. *)
Definition around_session (s : CaptureEngine) :=
  (outside_sequences s, binding s, events s).

(* What the start sequence and the stop sequence leave as it is. *)
Definition around_start (s : CaptureEngine) :=
  (outside_sequences s, m_payloadHandler s, m_stopPreviewEventHandle s).

Definition around_stop (s : CaptureEngine) :=
  (outside_sequences s, m_startPreviewEventHandle s).

(* What the calls of the control surface that start or end an operation
   leave as it is. *)
Definition beside_operations (s : CaptureEngine) :=
  (m_isShutdown s, m_d3d11DeviceResources s, m_streamType s,
   m_appCoordinateSystem s, frame_buffers s, session s, binding s, effects s).

(* What a delivery leaves as it is, besides [delivery_frame]. *)
Definition around_delivery (s : CaptureEngine) :=
  (m_streamType s, session s, m_mediaSink s, events s, effects s, handles s).


(* The action is a call of Shutdown. *)
Definition is_shutdown_call (a : Action) : bool :=
  match a with
  | DoShutdown _ _ => true
  | _ => false
  end.

(* What CreateDeviceResources promises: on failure nothing has changed, on
   success both resources are there and S_OK is returned. *)
Definition all_or_nothing (s : CaptureEngine) (r : hresult * CaptureEngine)
  : Prop :=
  if FAILED (fst r) then snd r = s
  else fst r = S_OK
       /\ is_some (m_mediaDevice (snd r)) = true
       /\ is_some (m_dxgiDeviceManager (snd r)) = true.

(* Everything ReleaseDeviceResources lets go of is gone. *)
Definition released (s : CaptureEngine) : Prop :=
  frame_buffers s = (None, None)
  /\ m_mediaDevice s = None /\ m_dxgiDeviceManager s = None.

(* A preview is running, handler 1 is bound and a first frame has been
   delivered: device resources, a texture and a session are there. *)
Definition preview_with_frame : list Action :=
  [DoPutPayloadHandler (Some 1%nat);
   DoStartPreview 1280 720 false false device_ok;
   RunStart platform_ok; CompleteStart;
   Deliver 1%nat (Some frame_720p) delivery_ok].

Definition engine_with_frame : CaptureEngine := after preview_with_frame.

(* A platform on which the session cannot be initialised. *)
Definition platform_initialize_fails : CoEnv :=
  MkCoEnv S_OK S_OK false E_FAIL AllStreamsIndependent S_OK S_OK
    (Some (1280, 720)) S_OK S_OK S_OK S_OK S_OK S_OK S_OK S_OK true S_OK.

(* A graphics platform on which the media device cannot be created. *)
Definition device_fails : DeviceEnv := MkDeviceEnv S_OK S_OK E_FAIL S_OK S_OK 1.
(** ** The base class's callback delivery *)










(** ** How the sequences end *)

(* How a sequence leaves its completion event: signalled when it has run to
   its end, as it found it when it threw. *)
Definition signals (event : CaptureEngine -> bool) (s : CaptureEngine)
    (r : outcome * CaptureEngine) : Prop :=
  match fst r with
  | Done => event (snd r) = true
  | Threw _ => event (snd r) = event s
  end.

(* [Q] holds of the state a sequence has ended in when it has run to its
   end, [R] when it threw. *)
Definition co_post (Q R : CaptureEngine -> Prop) (r : outcome * CaptureEngine)
  : Prop :=
  match fst r with
  | Done => Q (snd r)
  | Threw _ => R (snd r)
  end.

(* What a stop sequence that has run to its end leaves: no session, sink and
   handler unbound, the stop event signalled, and, where there was a
   session, no effect and no settings. *)
Definition stopped (had_session : bool) (s : CaptureEngine) : Prop :=
  m_mediaCapture s = None
  /\ binding s = (None, None)
  /\ m_stopPreviewEventHandle s = true
  /\ (had_session = true ->
      effects s = (None, None, None) /\ m_initSettings s = None).

(* What a stop sequence that threw leaves: sink and handler unbound all the
   same, and the session it found, still there. *)
Definition stop_failed (found : option MediaCapture) (s : CaptureEngine)
  : Prop :=
  binding s = (None, None)
  /\ m_mediaCapture s = found
  /\ is_some found = true.

(* The effects AddMrcEffectsAsync asks the session for, in order, each call
   with what the platform answers. *)
Definition additions (enableAudio : bool) (env : CoEnv)
    (capture : MediaCapture) : list ExternalCall :=
  Call_AddVideoEffectAsync VideoRecord (AddVideoEffect_record_hr env)
  :: (if streams_identical (DeviceCharacteristic capture) then []
      else [Call_AddVideoEffectAsync VideoPreview
              (AddVideoEffect_preview_hr env)])
  ++ (if enableAudio then [Call_AddAudioEffectAsync (AddAudioEffect_hr env)]
      else []).

Definition addition_failed (c : ExternalCall) : bool :=
  match c with
  | Call_AddVideoEffectAsync _ hr | Call_AddAudioEffectAsync hr => FAILED hr
  | _ => false
  end.

(* The calls up to and including the first that fails. *)
Fixpoint until_first_failure (l : list ExternalCall) : list ExternalCall :=
  match l with
  | [] => []
  | c :: rest =>
      c :: (if addition_failed c then [] else until_first_failure rest)
  end.

(* A platform on which the preview stream's effect cannot be added. *)
Definition platform_preview_effect_fails : CoEnv :=
  MkCoEnv S_OK S_OK false S_OK AllStreamsIndependent S_OK S_OK
    (Some (1280, 720)) S_OK E_FAIL S_OK S_OK S_OK S_OK S_OK S_OK true S_OK.

(* The sink is bound to the handler the engine holds. *)
Definition bound (s : CaptureEngine) : Prop :=
  forall k, m_mediaSink s = Some k -> sink_PayloadHandler k = m_payloadHandler s.

(* What a start sequence that has run to its end leaves: the start event
   signalled and a sink stored, bound to the handler the engine holds. *)
Definition started (s : CaptureEngine) : Prop :=
  m_startPreviewEventHandle s = true
  /\ is_some (m_mediaSink s) = true
  /\ bound s.

(** ** What a delivery raises *)

(* An audio payload from [sender] gets as far as the copy, and the copy
   succeeds: the engine is not shut down, [sender] is the handler it holds,
   the audio sample buffer is there or can be allocated, and CopySample
   succeeds. *)
Definition audio_copied (sender : HandlerRef) (env : PayloadEnv)
    (s : CaptureEngine) : bool :=
  negb (m_isShutdown s)
  && same_handler sender (m_payloadHandler s)
  && (is_some (m_audioSample s) || audio_alloc_ok env)
  && negb (FAILED (CopySample_hr env)).



(* What an audio delivery leaves alone, and what any other delivery does. *)
Definition video_side (s : CaptureEngine)
  : option SharedTexture * (option ObjId * option ObjId * Z) :=
  (m_sharedVideoTexture s, device_resources s).

Definition sides_apart (audio : bool) (s s' : CaptureEngine) : Prop :=
  if audio then video_side s' = video_side s
  else m_audioSample s' = m_audioSample s.

(* Handler 1 was bound and has been replaced by handler 2. *)
Definition engine_rebound : CaptureEngine :=
  after [DoPutPayloadHandler (Some 1%nat); DoPutPayloadHandler (Some 2%nat)].

(** ** How a call and an operation end *)

(* What a StartPreview that is not rejected as busy comes to.  When creating
   the device resources fails it returns that failure, and all it has done
   is reset the start event; otherwise it returns S_OK with the start
   operation in flight, the start event reset and both device resources
   there. *)
Definition start_outcome (width height : Z) (enableAudio enableMrc : bool)
    (s : CaptureEngine) (r : hresult * CaptureEngine) : Prop :=
  if FAILED (fst r)
  then snd r = s <| m_startPreviewEventHandle := false |>
  else fst r = S_OK
       /\ m_startPreviewOp (snd r)
          = Some (MkAsyncAction
                    (CoStartPreview width height enableAudio enableMrc)
                    Started S_OK)
       /\ m_startPreviewEventHandle (snd r) = false
       /\ is_some (m_mediaDevice (snd r)) = true
       /\ is_some (m_dxgiDeviceManager (snd r)) = true.


(** ** Choosing the video profile *)

(* A [MediaCaptureVideoProfileMediaDescription]: the subtype, the frame size
   (two uint32_t) and the frame rate (a double). *)
Record MediaCaptureVideoProfileMediaDescription : Type := MkMediaDescription {
  Subtype : String.string;
  description_Width : Z;
  description_Height : Z;
  FrameRate : PrimFloat.float
}.

(* A [MediaCaptureVideoProfile], with the descriptions it supports for the
   preview and for the record stream, in the order it enumerates them. *)
Record MediaCaptureVideoProfile : Type := MkVideoProfile {
  profile_Id : ObjId;
  SupportedPreviewMediaDescription
    : list MediaCaptureVideoProfileMediaDescription;
  SupportedRecordMediaDescription
    : list MediaCaptureVideoProfileMediaDescription
}.

(* The double 30.0. *)
Module FrameRates.
Import PrimFloat.
Definition thirty : PrimFloat.float := 30%float.
End FrameRates.

Section ChooseVideoProfile.
(* _wcsicmp, under the locale setlocale(LC_ALL, "") has selected, and the
   string MediaEncodingSubtypes::Nv12() returns. *)
Variable wcsicmp : String.string -> String.string -> Z.
Variable Nv12 : String.string.

(* m_streamType == VideoPreview ? profile.SupportedPreviewMediaDescription()
                                 : profile.SupportedRecordMediaDescription() *)
Definition descriptions_of (streamType : MediaStreamType)
    (profile : MediaCaptureVideoProfile)
  : list MediaCaptureVideoProfileMediaDescription :=
  if MediaStreamType_eqb streamType VideoPreview
  then SupportedPreviewMediaDescription profile
  else SupportedRecordMediaDescription profile.

(* bool match = ... : NV12 of the size asked for at 30 frames a second *)
Definition description_matches (width height : Z)
    (desc : MediaCaptureVideoProfileMediaDescription) : bool :=
  (wcsicmp (Subtype desc) Nv12 =? 0)
  && (description_Width desc =? width)
  && (description_Height desc =? height)
  && PrimFloat.eqb (FrameRate desc) FrameRates.thirty.

(* std::find_if over the descriptions of [profile], with what its predicate
   writes on the way: it stores the first profile and the first description
   it is ever called with as the defaults.  The result is the description
   found, if any, and the two defaults. *)
Fixpoint find_if_description (width height : Z)
    (profile : MediaCaptureVideoProfile)
    (descriptions : list MediaCaptureVideoProfileMediaDescription)
    (videoProfile : option MediaCaptureVideoProfile)
    (videoProfileMediaDescription
       : option MediaCaptureVideoProfileMediaDescription)
  : option MediaCaptureVideoProfileMediaDescription
    * (option MediaCaptureVideoProfile
       * option MediaCaptureVideoProfileMediaDescription) :=
  match descriptions with
  | [] => (None, (videoProfile, videoProfileMediaDescription))
  | desc :: rest =>
      let videoProfile :=
        match videoProfile with
        | None => Some profile
        | Some _ => videoProfile
        end in
      let videoProfileMediaDescription :=
        match videoProfileMediaDescription with
        | None => Some desc
        | Some _ => videoProfileMediaDescription
        end in
      if description_matches width height desc
      then (Some desc, (videoProfile, videoProfileMediaDescription))
      else find_if_description width height profile rest videoProfile
             videoProfileMediaDescription
  end.

(* for (auto const& profile : profiles) { ... if (found != end) { ...;
   break; } } *)
Fixpoint choose_among (streamType : MediaStreamType) (width height : Z)
    (profiles : list MediaCaptureVideoProfile)
    (videoProfile : option MediaCaptureVideoProfile)
    (videoProfileMediaDescription
       : option MediaCaptureVideoProfileMediaDescription)
  : option MediaCaptureVideoProfile
    * option MediaCaptureVideoProfileMediaDescription :=
  match profiles with
  | [] => (videoProfile, videoProfileMediaDescription)
  | profile :: rest =>
      match find_if_description width height profile
              (descriptions_of streamType profile) videoProfile
              videoProfileMediaDescription with
      | (Some found, _) => (Some profile, Some found)
      | (None, (videoProfile, videoProfileMediaDescription)) =>
          choose_among streamType width height rest videoProfile
            videoProfileMediaDescription
      end
  end.

(* The profile and the media description CreateMediaCaptureAsync writes into
   the initialisation settings (lines 718-777), from the known video
   profiles FindKnownVideoProfiles has returned. *)
Definition choose_video_profile (streamType : MediaStreamType)
    (width height : Z) (profiles : list MediaCaptureVideoProfile)
  : option MediaCaptureVideoProfile
    * option MediaCaptureVideoProfileMediaDescription :=
  choose_among streamType width height profiles None None.

(* Said without the loop: every description in the order the loop visits
   them, the first of them that matches, and the profiles that have a
   matching description or any description at all. *)
Definition all_descriptions (streamType : MediaStreamType)
    (profiles : list MediaCaptureVideoProfile)
  : list MediaCaptureVideoProfileMediaDescription :=
  flat_map (descriptions_of streamType) profiles.

Definition has_match (streamType : MediaStreamType) (width height : Z)
    (profile : MediaCaptureVideoProfile) : bool :=
  existsb (description_matches width height)
    (descriptions_of streamType profile).

Definition has_descriptions (streamType : MediaStreamType)
    (profile : MediaCaptureVideoProfile) : bool :=
  match descriptions_of streamType profile with
  | [] => false
  | _ :: _ => true
  end.

Definition first_match_or_default (streamType : MediaStreamType)
    (width height : Z) (profiles : list MediaCaptureVideoProfile)
  : option MediaCaptureVideoProfile
    * option MediaCaptureVideoProfileMediaDescription :=
  if existsb (description_matches width height)
       (all_descriptions streamType profiles)
  then (find (has_match streamType width height) profiles,
        find (description_matches width height)
          (all_descriptions streamType profiles))
  else (find (has_descriptions streamType) profiles,
        hd_error (all_descriptions streamType profiles)).

(* The two locals come in pairs: both null, or a profile of the list with
   one of its descriptions for the stream. *)
Definition well_paired (streamType : MediaStreamType)
    (profiles : list MediaCaptureVideoProfile)
    (r : option MediaCaptureVideoProfile
         * option MediaCaptureVideoProfileMediaDescription) : Prop :=
  match r with
  | (None, None) => True
  | (Some profile, Some desc) =>
      In profile profiles /\ In desc (descriptions_of streamType profile)
  | _ => False
  end.
End ChooseVideoProfile.

(* What the loop has in a local once it has been offered a default. *)
Definition or_default {A : Type} (stored offered : option A) : option A :=
  match stored with
  | None => offered
  | Some _ => stored
  end.

(* A comparison of strings that ignores the case of the ASCII letters, 0 for
   equal, and the subtype names of a camera. *)
Module Subtypes.
Import Ascii String.
Local Open Scope string_scope.

Definition lower (c : ascii) : ascii :=
  let n := Ascii.nat_of_ascii c in
  if (Nat.leb 65 n && Nat.leb n 90)%bool
  then Ascii.ascii_of_nat (n + 32) else c.

Fixpoint icmp (a b : string) : Z :=
  match a, b with
  | EmptyString, EmptyString => 0%Z
  | EmptyString, String _ _ => (-1)%Z
  | String _ _, EmptyString => 1%Z
  | String x a', String y b' =>
      if Ascii.eqb (lower x) (lower y) then icmp a' b'
      else if Nat.ltb (Ascii.nat_of_ascii (lower x))
                (Ascii.nat_of_ascii (lower y))
           then (-1)%Z else 1%Z
  end.

Definition NV12 : string := "NV12".
Definition nv12 : string := "nv12".
Definition YUY2 : string := "YUY2".
End Subtypes.

(* A camera with two known profiles: the first offers 640x480 only, the
   second 1280x720 in YUY2 and, under a lower-case name, in NV12. *)
Definition camera_profiles : list MediaCaptureVideoProfile :=
  [MkVideoProfile 0%nat
     [MkMediaDescription Subtypes.NV12 640 480 FrameRates.thirty] [];
   MkVideoProfile 1%nat
     [MkMediaDescription Subtypes.YUY2 1280 720 FrameRates.thirty;
      MkMediaDescription Subtypes.nv12 1280 720 FrameRates.thirty] []].
(** * Properties *)

(** ** Plumbing *)

Lemma skipn_length_app {A : Type} (l r : list A) :
  skipn (length l) (l ++ r) = r.
Proof. induction l as [|x l IH]; simpl; auto. Qed.

Lemma FAILED_SUCCEEDED (hr : hresult) : SUCCEEDED hr = negb (FAILED hr).
Proof.
  unfold SUCCEEDED, FAILED.
  destruct (Z.ltb_spec hr 0), (Z.leb_spec 0 hr); simpl; auto; lia.
Qed.

Lemma FAILED_E_ABORT : FAILED E_ABORT = true.
Proof. reflexivity. Qed.

(** ** Symbolic execution *)

(* Reduces field reads and field updates of an engine given by its
   constructor, evaluating arguments first so that nested updates are not
   duplicated. *)
Ltac record_cbv :=
  cbv beta iota zeta delta
    [
      set fields upd_m_isShutdown upd_m_startPreviewEventHandle
      upd_m_stopPreviewEventHandle upd_m_mediaDevice
      upd_m_dxgiDeviceManager upd_m_resetToken upd_m_streamType
      upd_m_startPreviewOp upd_m_stopPreviewOp upd_m_mediaCapture
      upd_m_initSettings upd_m_mrcAudioEffect upd_m_mrcVideoEffect
      upd_m_mrcPreviewEffect upd_m_mediaSink upd_m_payloadHandler
      upd_m_profileEventToken upd_m_streamDescriptionEventToken
      upd_m_streamMetaDataEventToken upd_m_streamSampleEventToken
      upd_m_payloadEventToken upd_m_audioSample upd_m_sharedVideoTexture
      upd_m_appCoordinateSystem upd_m_d3d11DeviceResources
      upd_subscriptions upd_next_token upd_next_obj upd_sink_log
      upd_calls m_isShutdown m_startPreviewEventHandle
      m_stopPreviewEventHandle m_mediaDevice m_dxgiDeviceManager
      m_resetToken m_streamType m_startPreviewOp m_stopPreviewOp
      m_mediaCapture m_initSettings m_mrcAudioEffect m_mrcVideoEffect
      m_mrcPreviewEffect m_mediaSink m_payloadHandler
      m_profileEventToken m_streamDescriptionEventToken
      m_streamMetaDataEventToken m_streamSampleEventToken
      m_payloadEventToken m_audioSample m_sharedVideoTexture
      m_appCoordinateSystem m_d3d11DeviceResources subscriptions
      next_token next_obj sink_log calls is_some fst snd
    ].

(* Case analysis on what decides the outermost conditional of the state a
   goal [P state] is about. *)
Ltac split_on x :=
  lazymatch x with
  | (if ?c then _ else _) => split_on c
  | (match ?y with _ => _ end) => split_on y
  | (?a || _)%bool => split_on a
  | (?a && _)%bool => split_on a
  | negb ?a => split_on a
  | FAILED S_OK => change x with false; cbv beta iota
  | _ => destruct x eqn:?; cbv beta iota zeta delta [orb andb negb]
  end.

Ltac head_step :=
  lazymatch goal with
  | |- ?P (if ?c then _ else _) => split_on c
  | |- ?P (match ?x with _ => _ end) => split_on x
  | |- ?P (_, if ?c then _ else _) => split_on c
  | |- ?P (_, match ?x with _ => _ end) => split_on x
  end.

(* Runs a goal [P (f ... s)] through every path of [f], leaving one goal
   [P state] per path, the state written out field by field. *)
Ltac exec_here := record_cbv; repeat head_step.

Ltac exec s := destruct s; exec_here.

(** ** Busy calls *)

(** C4: a StartPreview or a StopPreview made while a start or stop operation
    handle is set returns E_ABORT and leaves the engine exactly as it was:
    no event reset, no device resources, no coroutine, no handle. *)
Theorem busy_call_rejected_unchanged (s : CaptureEngine) :
  outstanding s = true ->
  (forall w h enableAudio enableMrc env,
      StartPreview w h enableAudio enableMrc env s = (E_ABORT, s))
  /\ StopPreview s = (E_ABORT, s).
Proof.
  intros Hbusy. split.
  - intros w h enableAudio enableMrc env.
    unfold StartPreview. rewrite Hbusy. unfold IFR.
    rewrite FAILED_E_ABORT. reflexivity.
  - unfold StopPreview. rewrite Hbusy. unfold IFR.
    rewrite FAILED_E_ABORT. reflexivity.
Qed.

Lemma busy_call_rejected_witness :
  outstanding engine_starting = true
  /\ StopPreview engine_starting = (E_ABORT, engine_starting).
Proof.
  split; [reflexivity|].
  exact (proj2 (busy_call_rejected_unchanged engine_starting eq_refl)).
Defined.

(** ** Start and stop after shutdown *)

Lemma StartPreview_shutdown_flag (b : bool) w h enableAudio enableMrc env
    (s : CaptureEngine) :
  StartPreview w h enableAudio enableMrc env (s <| m_isShutdown := b |>)
  = (fst (StartPreview w h enableAudio enableMrc env s),
     (snd (StartPreview w h enableAudio enableMrc env s))
       <| m_isShutdown := b |>).
Proof.
  unfold StartPreview, CreateDeviceResources, IFR, outstanding, fresh.
  destruct s; simpl.
  repeat match goal with
         | |- context [if ?c then _ else _] => destruct c; simpl
         end; reflexivity.
Qed.

(** C3, as the code has it: with the shutdown flag set, a StartPreview or
    StopPreview is rejected with E_ABORT and no state change when an operation
    handle is set, and otherwise goes ahead, because neither reads the flag:
    StopPreview resets the stop event and sets the stop handle, and
    StartPreview does what it does when the flag is clear. *)
Theorem shutdown_flag_not_read_by_start_stop (s : CaptureEngine) :
  m_isShutdown s = true ->
  (outstanding s = true ->
   StopPreview s = (E_ABORT, s)
   /\ forall w h enableAudio enableMrc env,
       StartPreview w h enableAudio enableMrc env s = (E_ABORT, s))
  /\ (outstanding s = false ->
      StopPreview s
      = (S_OK, s <| m_stopPreviewEventHandle := false |>
                 <| m_stopPreviewOp :=
                      Some (MkAsyncAction CoStopPreview Started S_OK) |>)
      /\ forall w h enableAudio enableMrc env,
          StartPreview w h enableAudio enableMrc env s
          = (fst (StartPreview w h enableAudio enableMrc env
                    (s <| m_isShutdown := false |>)),
             (snd (StartPreview w h enableAudio enableMrc env
                     (s <| m_isShutdown := false |>)))
               <| m_isShutdown := true |>)).
Proof.
  intros Hshut. split; intros Hbusy.
  - split.
    + unfold StopPreview, IFR. rewrite Hbusy, FAILED_E_ABORT. reflexivity.
    + intros. unfold StartPreview, IFR. rewrite Hbusy, FAILED_E_ABORT.
      reflexivity.
  - split.
    + unfold StopPreview. rewrite Hbusy. reflexivity.
    + intros w h enableAudio enableMrc env.
      rewrite <- StartPreview_shutdown_flag.
      f_equal. destruct s; simpl in *. subst. reflexivity.
Qed.

Lemma shutdown_flag_not_read_witness :
  m_isShutdown engine_shut_down = true
  /\ StopPreview engine_shut_down
     = (S_OK, engine_shut_down
                <| m_stopPreviewEventHandle := false |>
                <| m_stopPreviewOp :=
                     Some (MkAsyncAction CoStopPreview Started S_OK) |>).
Proof.
  split; [reflexivity|].
  exact (proj1 (proj2 (shutdown_flag_not_read_by_start_stop engine_shut_down
                         eq_refl) eq_refl)).
Defined.

(** C3 as stated fails: on an engine that has been shut down, StopPreview is
    accepted and sets the stop handle, which is what Shutdown itself relies
    on when it calls StopPreview after setting the flag. *)
Lemma stop_accepted_after_shutdown :
  ~ (forall s : CaptureEngine,
        m_isShutdown s = true ->
        fst (StopPreview s) <> S_OK \/ snd (StopPreview s) = s).
Proof.
  intros claim.
  destruct (claim engine_shut_down eq_refl) as [Hrejected | Hnoop].
  - apply Hrejected. reflexivity.
  - apply (f_equal m_stopPreviewOp) in Hnoop. discriminate Hnoop.
Qed.

(** ** Stopping when nothing was started *)




(** ** What the coroutines leave alone *)

Section Keeps.
Context {A : Type} (obs : CaptureEngine -> A).

Lemma co_keeps_seq (a b : co) :
  co_keeps obs a -> co_keeps obs b -> co_keeps obs (a ;; b).
Proof.
  intros Ha Hb s. unfold co_unchanged, co_seq.
  specialize (Ha s). unfold co_unchanged in Ha.
  destruct (a s) as [[|hr] s1]; simpl in *.
  - rewrite <- Ha. apply Hb.
  - exact Ha.
Qed.

Lemma co_keeps_if (c : bool) (a b : co) :
  co_keeps obs a -> co_keeps obs b -> co_keeps obs (co_if c a b).
Proof. intros Ha Hb s. unfold co_if. destruct c; [apply Ha | apply Hb]. Qed.

Lemma co_keeps_try (a : co) : co_keeps obs a -> co_keeps obs (co_try a).
Proof.
  intros Ha s. unfold co_unchanged, co_try.
  specialize (Ha s). unfold co_unchanged in Ha.
  destruct (a s) as [o s1]. exact Ha.
Qed.

Lemma co_keeps_skip : co_keeps obs co_skip.
Proof. intros s. reflexivity. Qed.

Lemma co_keeps_check (hr : hresult) : co_keeps obs (co_check hr).
Proof. intros s. reflexivity. Qed.

Lemma co_keeps_do (f : CaptureEngine -> CaptureEngine) :
  (forall s, unchanged obs s (f s)) -> co_keeps obs (co_do f).
Proof. intros Hf s. apply Hf. Qed.

Lemma co_keeps_when (c : CaptureEngine -> bool)
    (f : CaptureEngine -> CaptureEngine) :
  (forall s, unchanged obs s (f s)) -> co_keeps obs (co_when c f).
Proof.
  intros Hf s. unfold co_when. destruct (c s); [apply Hf | reflexivity].
Qed.
End Keeps.

Ltac unfold_engine :=
  unfold StreamPayload, audio_branch, video_branch, IFV,
    open_or_reuse_session, set_stream_properties, start_stream, store_sink,
    resume_unless_shutdown, stop_stream,
    CreateMediaCaptureAsync, ReleaseMediaCaptureAsync, AddMrcEffectsAsync,
    RemoveMrcEffectsAsync, add_effect, remove_effect,
    co_seq, co_if, co_do, co_when, co_await, co_check, co_try, co_skip,
    ResetPayloadHandler, event_remove, event_add, Sink_put_PayloadHandler,
    CreateDeviceResources, ReleaseDeviceResources, IFR,
    SharedTexture_Create, fresh, Callback, Failed, log, needs_new_texture.

(* A stage of a coroutine, run through all its paths. *)
Ltac keeps_by_exec :=
  let s := fresh "s" in
  intros s; unfold_engine; exec s; reflexivity.

Lemma RemoveMrcEffectsAsync_keeps env :
  co_keeps sequence_frame (RemoveMrcEffectsAsync env).
Proof. keeps_by_exec. Qed.

Lemma AddMrcEffectsAsync_keeps enableAudio env :
  co_keeps sequence_frame (AddMrcEffectsAsync enableAudio env).
Proof. keeps_by_exec. Qed.

Lemma open_or_reuse_session_keeps w h enableAudio env :
  co_keeps sequence_frame (open_or_reuse_session w h enableAudio env).
Proof. keeps_by_exec. Qed.

Lemma set_stream_properties_keeps env :
  co_keeps sequence_frame (set_stream_properties env).
Proof. keeps_by_exec. Qed.

Lemma start_stream_keeps env : co_keeps sequence_frame (start_stream env).
Proof. keeps_by_exec. Qed.

Lemma ResetPayloadHandler_unchanged s :
  unchanged sequence_frame s (ResetPayloadHandler s).
Proof. unfold_engine. exec s; reflexivity. Qed.

Ltac keeps_by_parts :=
  repeat first
    [ apply co_keeps_seq | apply co_keeps_if | apply co_keeps_try
    | apply co_keeps_skip | apply co_keeps_check
    | apply co_keeps_do; let s := fresh "s" in intros s
    | apply co_keeps_when; let s := fresh "s" in intros s ].

Lemma store_sink_keeps mediaSink :
  co_keeps sequence_frame (store_sink mediaSink).
Proof. unfold store_sink. keeps_by_parts; reflexivity. Qed.

Lemma resume_unless_shutdown_keeps :
  co_keeps sequence_frame resume_unless_shutdown.
Proof. unfold resume_unless_shutdown. keeps_by_parts; reflexivity. Qed.

Lemma StartPreviewCoroutine_keeps w h enableAudio enableMrc env :
  co_keeps sequence_frame (StartPreviewCoroutine w h enableAudio enableMrc env).
Proof.
  unfold StartPreviewCoroutine.
  apply co_keeps_seq; [apply open_or_reuse_session_keeps|].
  apply co_keeps_seq; [apply set_stream_properties_keeps|].
  intros s. unfold fresh.
  assert (Hrest : co_keeps sequence_frame
            (co_if enableMrc (AddMrcEffectsAsync enableAudio env) co_skip ;;
             start_stream env ;;
             store_sink (MkSink (next_obj s)
                           (encoding_profile enableAudio env) None) ;;
             resume_unless_shutdown)).
  { repeat first [ apply AddMrcEffectsAsync_keeps
                 | apply start_stream_keeps | apply store_sink_keeps
                 | apply resume_unless_shutdown_keeps
                 | apply co_keeps_seq | apply co_keeps_if
                 | apply co_keeps_skip ]. }
  unfold co_unchanged. rewrite (Hrest (s <| next_obj := S (next_obj s) |>)).
  reflexivity.
Qed.

Lemma stop_stream_keeps env : co_keeps sequence_frame (stop_stream env).
Proof. keeps_by_exec. Qed.

Lemma ReleaseMediaCaptureAsync_keeps env :
  co_keeps sequence_frame (ReleaseMediaCaptureAsync env).
Proof. keeps_by_exec. Qed.

Lemma StopPreviewCoroutine_keeps env :
  co_keeps sequence_frame (StopPreviewCoroutine env).
Proof.
  unfold StopPreviewCoroutine.
  apply co_keeps_seq;
    [apply co_keeps_do; exact ResetPayloadHandler_unchanged|].
  apply co_keeps_seq; [keeps_by_parts; reflexivity|].
  apply co_keeps_seq.
  - intros s. destruct (m_mediaCapture s).
    + apply co_keeps_seq;
        [apply stop_stream_keeps | apply ReleaseMediaCaptureAsync_keeps].
    + reflexivity.
  - apply co_keeps_seq; [keeps_by_parts; reflexivity|].
    apply resume_unless_shutdown_keeps.
Qed.

(** ** At most one operation, and handles cleared before notifications *)

Lemma sequence_frame_handles_and_log (s s' : CaptureEngine) :
  unchanged sequence_frame s s' -> unchanged handles_and_log s s'.
Proof. unfold unchanged, sequence_frame. congruence. Qed.

Lemma sequence_frame_tokens (s s' : CaptureEngine) :
  unchanged sequence_frame s s' -> unchanged token_state s s'.
Proof. unfold unchanged, sequence_frame. congruence. Qed.

Lemma engine_invariant_unchanged (s s' : CaptureEngine) :
  unchanged handles_and_log s s' -> engine_invariant s -> engine_invariant s'.
Proof.
  unfold unchanged, handles_and_log, handles, engine_invariant,
    at_most_one_operation.
  intros H. injection H as Hstart Hstop Hlog.
  rewrite Hstart, Hstop, Hlog. auto.
Qed.

Lemma CreateDeviceResources_unchanged env s :
  co_unchanged sequence_frame s (CreateDeviceResources env s).
Proof. unfold_engine. exec s; reflexivity. Qed.

Lemma ReleaseDeviceResources_unchanged s :
  unchanged sequence_frame s (ReleaseDeviceResources s).
Proof.
  unfold ReleaseDeviceResources, unchanged.
  repeat match goal with
         | |- context [if ?c then _ else _] => destruct c
         end; reflexivity.
Qed.

Lemma put_PayloadHandler_unchanged value s s' :
  put_PayloadHandler value s = Some s' -> unchanged handles_and_log s s'.
Proof.
  unfold put_PayloadHandler. intros H.
  pose proof (ResetPayloadHandler_unchanged s) as Hreset.
  destruct (ResetPayloadHandler s) as [].
  unfold event_add in H. simpl in H.
  apply sequence_frame_handles_and_log in Hreset.
  destruct value as [h|]; [|destruct m_mediaSink0; discriminate].
  destruct m_mediaSink0; simpl in H; injection H as <-; exact Hreset.
Qed.

Lemma StreamPayload_only_frames sender payload env s :
  only_frames_raised s (StreamPayload sender payload env s).
Proof.
  unfold_engine. exec s.
  all: split; [reflexivity|].
  all: first [ exists []; split; [symmetry; apply app_nil_r | constructor]
             | eexists [_]; split;
               [reflexivity | repeat constructor] ].
Qed.

Lemma engine_invariant_frames (s s' : CaptureEngine) :
  only_frames_raised s s' -> engine_invariant s -> engine_invariant s'.
Proof.
  unfold only_frames_raised, engine_invariant, at_most_one_operation, handles.
  intros [Hh (added & Hlog & Hadded)] [Hone Hclear].
  injection Hh as Hstart Hstop. rewrite Hstart, Hstop, Hlog. split; [exact Hone|].
  apply Forall_app. split; [exact Hclear|].
  eapply Forall_impl; [|exact Hadded].
  intros d Hd Hterm. congruence.
Qed.

Lemma not_outstanding (s : CaptureEngine) :
  outstanding s = false ->
  m_startPreviewOp s = None /\ m_stopPreviewOp s = None.
Proof.
  unfold outstanding. intros H. apply orb_false_iff in H.
  destruct (m_startPreviewOp s), (m_stopPreviewOp s), H; split;
    solve [reflexivity | discriminate].
Qed.

Lemma StartPreview_invariant w h enableAudio enableMrc env s :
  engine_invariant s ->
  engine_invariant (snd (StartPreview w h enableAudio enableMrc env s)).
Proof.
  intros Hinv. unfold StartPreview.
  destruct (outstanding s) eqn:Hbusy.
  - unfold IFR. rewrite FAILED_E_ABORT. exact Hinv.
  - destruct (not_outstanding s Hbusy) as [Hstart Hstop].
    pose proof (CreateDeviceResources_unchanged env
                  (s <| m_startPreviewEventHandle := false |>)) as Hdev.
    destruct (CreateDeviceResources env
                (s <| m_startPreviewEventHandle := false |>)) as [hr s2].
    unfold co_unchanged, sequence_frame, handles_and_log, handles in Hdev.
    simpl in Hdev. injection Hdev as Hs2start Hs2stop Hs2log _.
    unfold IFR. destruct (FAILED hr); simpl.
    + apply (engine_invariant_unchanged s); [|exact Hinv].
      unfold unchanged, handles_and_log, handles. congruence.
    + destruct Hinv as [_ Hclear]. split.
      * right. simpl. congruence.
      * simpl. rewrite Hs2log. exact Hclear.
Qed.

Lemma StopPreview_invariant s :
  engine_invariant s -> engine_invariant (snd (StopPreview s)).
Proof.
  intros Hinv. unfold StopPreview.
  destruct (outstanding s) eqn:Hbusy.
  - unfold IFR. rewrite FAILED_E_ABORT. exact Hinv.
  - destruct (not_outstanding s Hbusy) as [Hstart Hstop].
    destruct Hinv as [_ Hclear]. split.
    + left. exact Hstart.
    + exact Hclear.
Qed.

Lemma run_start_invariant env s s' :
  run_start env s = Some s' -> engine_invariant s -> engine_invariant s'.
Proof.
  unfold run_start. intros Hrun [Hone Hclear].
  destruct (m_startPreviewOp s) as [[[w h a m|] [| | |] e]|] eqn:Hop;
    try discriminate.
  pose proof (StartPreviewCoroutine_keeps w h a m env s) as Hkeep.
  destruct (StartPreviewCoroutine w h a m env s) as [o s1].
  unfold co_unchanged, sequence_frame, handles_and_log, handles in Hkeep.
  simpl in Hkeep. injection Hkeep as Hstart Hstop Hlog _.
  injection Hrun as <-.
  destruct Hone as [Hone|Hone]; [congruence|].
  split.
  - right. simpl. congruence.
  - simpl. rewrite Hlog. exact Hclear.
Qed.

Lemma run_stop_invariant env s s' :
  run_stop env s = Some s' -> engine_invariant s -> engine_invariant s'.
Proof.
  unfold run_stop. intros Hrun [Hone Hclear].
  destruct (m_stopPreviewOp s) as [[[w h a m|] [| | |] e]|] eqn:Hop;
    try discriminate.
  pose proof (StopPreviewCoroutine_keeps env s) as Hkeep.
  destruct (StopPreviewCoroutine env s) as [o s1].
  unfold co_unchanged, sequence_frame, handles_and_log, handles in Hkeep.
  simpl in Hkeep. injection Hkeep as Hstart Hstop Hlog _.
  injection Hrun as <-.
  destruct Hone as [Hone|Hone]; [|congruence].
  split.
  - left. simpl. congruence.
  - simpl. rewrite Hlog. exact Hclear.
Qed.

(* The state a Completed handler notifies in: its own handle has just been
   cleared, and the other one was not set. *)
Lemma Callback_clear state s :
  m_startPreviewOp s = None -> m_stopPreviewOp s = None ->
  Forall raised_with_handles_clear (sink_log s) ->
  engine_invariant (Callback state s).
Proof.
  intros Hstart Hstop Hclear. unfold Callback. split.
  - left. exact Hstart.
  - simpl. apply Forall_app. split; [exact Hclear|].
    constructor; [|constructor].
    intros _. simpl. rewrite Hstart, Hstop. auto.
Qed.

Lemma StartPreview_Completed_invariant status s :
  m_startPreviewOp s <> None ->
  engine_invariant s -> engine_invariant (StartPreview_Completed status s).
Proof.
  intros Hset [[Hone|Hone] Hclear]; [contradiction|].
  unfold StartPreview_Completed, Failed.
  destruct status; try (apply Callback_clear; auto).
  all: split; [left; reflexivity | exact Hclear].
Qed.

Lemma StopPreview_Completed_invariant status s :
  m_stopPreviewOp s <> None ->
  engine_invariant s -> engine_invariant (StopPreview_Completed status s).
Proof.
  intros Hset [[Hone|Hone] Hclear]; [|contradiction].
  unfold StopPreview_Completed, Failed.
  destruct status; try (apply Callback_clear; auto).
  all: split; [right; reflexivity | exact Hclear].
Qed.

Lemma wait_start_invariant env s s' :
  wait_start env s = Some s' -> engine_invariant s -> engine_invariant s'.
Proof.
  unfold wait_start. intros H Hinv.
  destruct (m_startPreviewOp s) as [op|]; [|injection H as <-; exact Hinv].
  destruct (Status op); try (injection H as <-; exact Hinv).
  destruct (m_startPreviewEventHandle s); [injection H as <-; exact Hinv|].
  destruct (run_start env s) as [s1|] eqn:Hrun; [|discriminate].
  destruct (m_startPreviewEventHandle s1); [|discriminate].
  injection H as <-. exact (run_start_invariant env s s1 Hrun Hinv).
Qed.

Lemma wait_stop_invariant env s s' :
  wait_stop env s = Some s' -> engine_invariant s -> engine_invariant s'.
Proof.
  unfold wait_stop. intros H Hinv.
  destruct (m_stopPreviewOp s) as [op|]; [|injection H as <-; exact Hinv].
  destruct (Status op); try (injection H as <-; exact Hinv).
  destruct (m_stopPreviewEventHandle s); [injection H as <-; exact Hinv|].
  destruct (run_stop env s) as [s1|] eqn:Hrun; [|discriminate].
  destruct (m_stopPreviewEventHandle s1); [|discriminate].
  injection H as <-. exact (run_stop_invariant env s s1 Hrun Hinv).
Qed.

Lemma Shutdown_invariant startEnv stopEnv s s' :
  Shutdown startEnv stopEnv s = Some s' ->
  engine_invariant s -> engine_invariant s'.
Proof.
  unfold Shutdown, Module_Shutdown. intros H Hinv.
  destruct (m_isShutdown s); [injection H as <-; exact Hinv|].
  destruct (wait_start startEnv (s <| m_isShutdown := true |>))
    as [s2|] eqn:Hwait; [|discriminate].
  apply wait_start_invariant in Hwait;
    [|apply (engine_invariant_unchanged s); [reflexivity | exact Hinv]].
  assert (Hs3 : engine_invariant
                  (if is_some (m_mediaCapture s2)
                   then snd (StopPreview s2) else s2)).
  { destruct (is_some (m_mediaCapture s2));
      [apply StopPreview_invariant|]; exact Hwait. }
  destruct (wait_stop stopEnv
              (if is_some (m_mediaCapture s2)
               then snd (StopPreview s2) else s2)) as [s4|] eqn:Hwait2;
    [|discriminate].
  apply wait_stop_invariant in Hwait2; [|exact Hs3].
  injection H as <-.
  exact (engine_invariant_unchanged s4 _
           (sequence_frame_handles_and_log _ _
              (ReleaseDeviceResources_unchanged s4)) Hwait2).
Qed.

Lemma step_invariant a s s' :
  step a s = Some s' -> engine_invariant s -> engine_invariant s'.
Proof.
  destruct a; unfold step; intros H Hinv.
  - injection H as <-. apply StartPreview_invariant. exact Hinv.
  - injection H as <-. apply StopPreview_invariant. exact Hinv.
  - exact (Shutdown_invariant _ _ _ _ H Hinv).
  - exact (engine_invariant_unchanged _ _
             (put_PayloadHandler_unchanged _ _ _ H) Hinv).
  - injection H as <-.
    apply (engine_invariant_unchanged s); [reflexivity | exact Hinv].
  - exact (run_start_invariant _ _ _ H Hinv).
  - exact (run_stop_invariant _ _ _ H Hinv).
  - unfold complete_start in H.
    destruct (m_startPreviewOp s) as [op|] eqn:Hop; [|discriminate].
    assert (Hset : m_startPreviewOp s <> None) by congruence.
    destruct (Status op); try discriminate; injection H as <-.
    + exact (StartPreview_Completed_invariant Completed s Hset Hinv).
    + exact (StartPreview_Completed_invariant Canceled s Hset Hinv).
    + exact (StartPreview_Completed_invariant Error s Hset Hinv).
  - unfold complete_stop in H.
    destruct (m_stopPreviewOp s) as [op|] eqn:Hop; [|discriminate].
    assert (Hset : m_stopPreviewOp s <> None) by congruence.
    destruct (Status op); try discriminate; injection H as <-.
    + exact (StopPreview_Completed_invariant Completed s Hset Hinv).
    + exact (StopPreview_Completed_invariant Canceled s Hset Hinv).
    + exact (StopPreview_Completed_invariant Error s Hset Hinv).
  - injection H as <-.
    exact (engine_invariant_frames _ _
             (StreamPayload_only_frames sender payload env s) Hinv).
Qed.

Lemma run_invariant actions s s' :
  run actions s = Some s' -> engine_invariant s -> engine_invariant s'.
Proof.
  revert s. induction actions as [|a rest IH]; simpl; intros s H Hinv.
  - injection H as <-. exact Hinv.
  - destruct (step a s) as [s1|] eqn:Hstep; [|discriminate].
    exact (IH s1 H (step_invariant a s s1 Hstep Hinv)).
Qed.

Lemma engine_invariant_new : engine_invariant CaptureEngine_new.
Proof. split; [left; reflexivity | constructor]. Qed.

(** C6: in every state an engine can reach, at most one of the start and
    stop operation handles is set, and every terminal notification the sink
    has received (preview-started, preview-stopped, failure) was raised at a
    moment when the handles were clear: a completion handler clears its own
    handle first and only then notifies. *)
Theorem at_most_one_operation_and_cleared_first (s : CaptureEngine) :
  reachable s ->
  at_most_one_operation s
  /\ Forall raised_with_handles_clear (sink_log s)
  /\ (forall status,
         m_startPreviewOp (StartPreview_Completed status s) = None
         /\ Forall (fun d => start_outstanding d = false)
              (new_notes s (StartPreview_Completed status s)))
  /\ (forall status,
         m_stopPreviewOp (StopPreview_Completed status s) = None
         /\ Forall (fun d => stop_outstanding d = false)
              (new_notes s (StopPreview_Completed status s))).
Proof.
  intros [actions Hrun].
  destruct (run_invariant actions _ _ Hrun engine_invariant_new)
    as [Hone Hclear].
  split; [exact Hone|]. split; [exact Hclear|].
  split; intros status.
  - unfold StartPreview_Completed, Failed, Callback, new_notes.
    destruct status; simpl; split; try reflexivity;
      rewrite ?skipn_length_app, ?skipn_all; repeat constructor.
  - unfold StopPreview_Completed, Failed, Callback, new_notes.
    destruct status; simpl; split; try reflexivity;
      rewrite ?skipn_length_app, ?skipn_all; repeat constructor.
Qed.

Lemma at_most_one_operation_witness :
  reachable engine_starting
  /\ at_most_one_operation engine_starting
  /\ Forall raised_with_handles_clear (sink_log engine_starting).
Proof.
  assert (H : reachable engine_starting).
  { exists [DoStartPreview 1280 720 false false device_ok]. reflexivity. }
  split; [exact H|].
  split; [exact (proj1 (at_most_one_operation_and_cleared_first _ H))
         | exact (proj1 (proj2 (at_most_one_operation_and_cleared_first _ H)))].
Defined.

(** ** Removing the effects *)

Lemma skipn_length_nil {A : Type} (l : list A) : skipn (length l) l = [].
Proof. apply skipn_all. Qed.

Ltac use_equations :=
  repeat match goal with
         | H : FAILED _ = _ |- _ => rewrite H
         end.

(** C9, as the code has it: with a session present, RemoveMrcEffectsAsync
    removes the installed effects in the order audio, preview-video,
    record-video and clears each handle after its removal succeeded; the
    first removal that fails ends the coroutine with that error, so the
    effects after it are not attempted and their handles, like the failing
    one's, stay set. *)
Theorem effects_removed_in_order_until_failure (env : CoEnv)
    (s : CaptureEngine) :
  m_mediaCapture s <> None ->
  removes_until_failure env s (RemoveMrcEffectsAsync env s).
Proof.
  intros Hsession. unfold_engine. exec s.
  all: cbn [m_mediaCapture] in Hsession;
    try (exfalso; apply Hsession; reflexivity).
  all: unfold removes_until_failure, effect_handles, new_calls; record_cbv.
  all: cbn [removals_until_failure handles_after_removal removal_outcome
              map fst].
  all: use_equations.
  all: rewrite <- ?app_assoc, ?skipn_length_app, ?skipn_length_nil.
  all: auto.
Qed.

Lemma effects_removed_until_failure_witness :
  m_mediaCapture engine_previewing_mrc <> None
  /\ removes_until_failure platform_audio_removal_fails engine_previewing_mrc
       (RemoveMrcEffectsAsync platform_audio_removal_fails
          engine_previewing_mrc).
Proof.
  assert (H : m_mediaCapture engine_previewing_mrc <> None)
    by (vm_compute; discriminate).
  split; [exact H|].
  exact (effects_removed_in_order_until_failure platform_audio_removal_fails
           engine_previewing_mrc H).
Defined.

(** C9 as stated fails: with the three effects installed and the removal of
    the audio effect failing, the removals of the preview and record effects
    are not attempted. *)
Lemma later_removals_skipped_after_failure :
  ~ (forall env s,
        m_mediaCapture s <> None ->
        is_some (m_mrcAudioEffect s) || is_some (m_mrcPreviewEffect s)
        || is_some (m_mrcVideoEffect s) = true ->
        new_calls s (snd (RemoveMrcEffectsAsync env s))
        = removals_of_all (effect_handles env s)).
Proof.
  intros claim.
  specialize (claim platform_audio_removal_fails engine_previewing_mrc).
  vm_compute in claim.
  assert (H := claim ltac:(discriminate) eq_refl).
  discriminate H.
Qed.

(** ** Payload deliveries *)

(* At the end of a path: the observations written out, the equations the
   path collected put to use. *)
Ltac account :=
  unfold new_calls, new_notes, allocations, video_frames; record_cbv;
  rewrite <- ?app_assoc, ?skipn_length_app, ?skipn_length_nil,
    ?filter_app, ?length_app;
  cbn [existsb filter app length is_alloc is_transform_update
         is_transform_failure is_video_copy is_video_frame
         is_video_frame_without_matrices note stateType video_frame
         audio_frame capture_state guid_eqb];
  rewrite ?FAILED_SUCCEEDED; use_equations;
  cbn [negb orb andb length app filter existsb].

Lemma StreamPayload_accounted sender payload env s :
  delivery_accounted s (StreamPayload sender payload env s).
Proof.
  unfold_engine. rewrite ?FAILED_SUCCEEDED. exec s.
  all: unfold delivery_accounted, video_frame_raised, video_copied,
         allocated, transform_updated; account.
  all: repeat split; try reflexivity; lia.
Qed.

(** C8: in a delivery in which the shared video texture was (re)allocated, a
    failure of UpdateTransforms does not keep video-frame-ready from being
    raised; the notification goes out with the matrices not filled in. *)
Theorem frame_raised_despite_transform_failure sender payload env s :
  allocated s (StreamPayload sender payload env s) = true ->
  transform_failed s (StreamPayload sender payload env s) = true ->
  video_frame_raised s (StreamPayload sender payload env s) = true
  /\ existsb is_video_frame_without_matrices
       (new_notes s (StreamPayload sender payload env s)) = true.
Proof.
  change (raised_despite_transform_failure s
            (StreamPayload sender payload env s)).
  unfold_engine. rewrite ?FAILED_SUCCEEDED. exec s.
  all: unfold raised_despite_transform_failure, video_frame_raised,
         allocated, transform_failed; account.
  all: intros Halloc Hfail; try discriminate; split; reflexivity.
Qed.

Lemma frame_raised_despite_transform_failure_witness :
  allocated engine_tracking
    (StreamPayload 1%nat (Some frame_720p) delivery_transform_fails
       engine_tracking) = true
  /\ transform_failed engine_tracking
       (StreamPayload 1%nat (Some frame_720p) delivery_transform_fails
          engine_tracking) = true
  /\ video_frame_raised engine_tracking
       (StreamPayload 1%nat (Some frame_720p) delivery_transform_fails
          engine_tracking) = true.
Proof.
  split; [reflexivity|]. split; [reflexivity|].
  exact (proj1 (frame_raised_despite_transform_failure 1%nat
                  (Some frame_720p) delivery_transform_fails engine_tracking
                  eq_refl eq_refl)).
Defined.

Lemma StreamPayload_texture_follows sender p env s :
  texture_follows (EncodingProperties p) s
    (StreamPayload sender (Some p) env s).
Proof.
  unfold_engine. rewrite ?FAILED_SUCCEEDED. exec s.
  all: unfold texture_follows, texture_fits, needs_new_texture, allocated;
    account.
  all: cbn [frameTexture frameTextureDesc_Width frameTextureDesc_Height
              put_mediaSample store_transforms is_some].
  all: repeat match goal with
              | H : _ = _ |- _ => rewrite H
              end.
  all: rewrite ?Z.eqb_refl; cbn [negb orb andb].
  all: split; intros; try split; try reflexivity; try discriminate; auto.
Qed.
Lemma StreamPayload_frame sender payload env s :
  unchanged delivery_frame s (StreamPayload sender payload env s).
Proof. unfold_engine. exec s; reflexivity. Qed.

Lemma StreamPayload_no_coordinate_system sender payload env s :
  m_appCoordinateSystem s = None ->
  transform_updated s (StreamPayload sender payload env s) = false.
Proof.
  intros Hcs.
  change (holds_after (fun s' => transform_updated s s' = false)
            (StreamPayload sender payload env s)).
  unfold_engine. rewrite ?FAILED_SUCCEEDED. exec s.
  all: simpl in Hcs; try discriminate.
  all: unfold holds_after, transform_updated; account; reflexivity.
Qed.

Lemma StreamPayload_first_frame h w hh src env s :
  m_isShutdown s = false ->
  m_payloadHandler s = Some h ->
  m_d3d11DeviceResources s = true ->
  texture_fits (MkVideoProps w hh) s = false ->
  delivery_succeeds env = true ->
  first_frame_raised s (deliver h (video_payload w hh src, env) s).
Proof.
  unfold delivery_succeeds, texture_fits, needs_new_texture, deliver,
    video_payload.
  intros Hshut Hhandler Hdev Hfit Hok.
  repeat (apply andb_prop in Hok; destruct Hok as [Hok ?]).
  repeat match goal with
         | H : negb _ = true |- _ => apply negb_true_iff in H
         end.
  apply negb_false_iff in Hfit.
  unfold_engine. rewrite ?FAILED_SUCCEEDED.
  cbn [fst snd].
  destruct s; simpl in Hshut, Hhandler, Hdev, Hfit; subst.

  record_cbv. change (FAILED S_OK) with false.
  cbn [majorType_of MediaStreamSample as_IStreamSample EncodingProperties
         guid_eqb Width Height same_handler].
  rewrite Nat.eqb_refl. cbn [negb].
  use_equations. cbn [negb].
  repeat head_step.
  all: try congruence.
  all: try (exfalso; simpl in Hfit; congruence).
  all: unfold first_frame_raised, allocated, video_frame_raised; account.
  all: try (split; reflexivity).
Qed.

(** ** Frames of one size *)

Lemma deliver_all_cons h d l s :
  deliver_all h (d :: l) s = deliver_all h l (deliver h d s).
Proof. reflexivity. Qed.

Lemma deliver_all_fitting h props l s :
  Forall (fun d => EncodingProperties (fst d) = props) l ->
  texture_fits props s = true ->
  allocations (deliver_all h l s) = allocations s
  /\ texture_fits props (deliver_all h l s) = true.
Proof.
  intros Hl. revert s. induction Hl as [|d l Hd Hl IH]; intros s Hfit.
  - split; [reflexivity | exact Hfit].
  - cbn [deliver_all fold_left]. fold (deliver_all h l (deliver h d s)).
    destruct (StreamPayload_texture_follows h (fst d) (snd d) s)
      as [Hkeep _].
    rewrite Hd in Hkeep. destruct (Hkeep Hfit) as [Hnone Hfit'].
    destruct (StreamPayload_accounted h (Some (fst d)) (snd d) s)
      as (_ & Hcount & _).
    rewrite Hnone in Hcount.
    destruct (IH (deliver h d s) Hfit') as [IHcount IHfit].
    split; [|exact IHfit].
    rewrite IHcount. unfold deliver. rewrite Hcount. lia.
Qed.

Lemma deliver_all_at_most_one_allocation h props l s :
  Forall (fun d => EncodingProperties (fst d) = props) l ->
  (allocations (deliver_all h l s) <= allocations s + 1)%nat.
Proof.
  intros Hl. revert s. induction Hl as [|d l Hd Hl IH]; intros s.
  - cbn. lia.
  - cbn [deliver_all fold_left]. fold (deliver_all h l (deliver h d s)).
    destruct (StreamPayload_texture_follows h (fst d) (snd d) s)
      as [_ Hnew].
    rewrite Hd in Hnew.
    destruct (StreamPayload_accounted h (Some (fst d)) (snd d) s)
      as (_ & Hcount & _).
    fold (deliver h d s) in Hnew, Hcount.
    destruct (allocated s (deliver h d s)).
    + destruct (deliver_all_fitting h props l (deliver h d s)
                  Hl (Hnew eq_refl)) as [Hrest _].
      lia.
    + specialize (IH (deliver h d s)). lia.
Qed.

Lemma deliver_all_quiet h props l s :
  Forall (fun d => EncodingProperties (fst d) = props) l ->
  m_appCoordinateSystem s = None ->
  texture_fits props s = true ->
  video_frames (deliver_all h l s) = video_frames s.
Proof.
  intros Hl. revert s. induction Hl as [|d l Hd Hl IH]; intros s Hcs Hfit.
  - reflexivity.
  - cbn [deliver_all fold_left]. fold (deliver_all h l (deliver h d s)).
    destruct (StreamPayload_texture_follows h (fst d) (snd d) s)
      as [Hkeep _].
    rewrite Hd in Hkeep. destruct (Hkeep Hfit) as [Hnone Hfit'].
    destruct (StreamPayload_accounted h (Some (fst d)) (snd d) s)
      as (Hraised & _ & Hcount).
    pose proof (StreamPayload_no_coordinate_system h (Some (fst d)) (snd d)
                  s Hcs) as Hupd.
    pose proof (StreamPayload_frame h (Some (fst d)) (snd d) s) as Hframe.
    fold (deliver h d s) in Hnone, Hfit', Hraised, Hcount, Hupd, Hframe.
    rewrite Hnone, Hupd, andb_false_r in Hraised.
    rewrite Hraised in Hcount.
    unfold unchanged, delivery_frame in Hframe.
    injection Hframe as _ _ Hcs' _.
    rewrite IH; [lia | congruence | exact Hfit'].
Qed.

Lemma frames_props w hh l :
  Forall (fun d => EncodingProperties (fst d) = MkVideoProps w hh)
    (frames w hh l).
Proof.
  unfold frames. apply Forall_forall. intros d Hd.
  apply in_map_iff in Hd. destruct Hd as (x & <- & _). reflexivity.
Qed.

(** C5, as the code has it.  (1) On every delivery, video-frame-ready is
    raised exactly when the sample was copied into the texture and, in that
    delivery, the texture was (re)allocated or the transform was updated.
    (2) Any number of frames of one size cause at most one texture
    allocation.  (3) With the engine running and bound, no coordinate system
    set and no texture yet, and a first frame during whose delivery the
    device resources, the texture creation and the copy succeed, that first
    frame brings the one allocation and the one notification, and the frames
    after it bring none. *)
Theorem frames_of_one_size_allocate_once :
  (forall sender payload env s,
      video_frame_raised s (StreamPayload sender payload env s)
      = video_copied s (StreamPayload sender payload env s)
        && (allocated s (StreamPayload sender payload env s)
            || transform_updated s (StreamPayload sender payload env s)))
  /\ (forall h w hh l s,
         (allocations (deliver_all h (frames w hh l) s)
          <= allocations s + 1)%nat)
  /\ (forall h w hh first rest s,
         m_isShutdown s = false ->
         m_payloadHandler s = Some h ->
         m_appCoordinateSystem s = None ->
         m_sharedVideoTexture s = None ->
         m_d3d11DeviceResources s = true ->
         delivery_succeeds (snd first) = true ->
         allocations (deliver_all h (frames w hh [first]) s)
         = S (allocations s)
         /\ video_frames (deliver_all h (frames w hh [first]) s)
            = S (video_frames s)
         /\ allocations (deliver_all h (frames w hh (first :: rest)) s)
            = S (allocations s)
         /\ video_frames (deliver_all h (frames w hh (first :: rest)) s)
            = S (video_frames s)).
Proof.
  split; [|split].
  - intros sender payload env s.
    exact (proj1 (StreamPayload_accounted sender payload env s)).
  - intros h w hh l s.
    exact (deliver_all_at_most_one_allocation h _ _ s (frames_props w hh l)).
  - intros h w hh [src env] rest s Hshut Hhandler Hcs Htex Hdev Hok.
    cbn [snd] in Hok.
    assert (Hfit : texture_fits (MkVideoProps w hh) s = false).
    { unfold texture_fits, needs_new_texture. rewrite Htex. reflexivity. }
    destruct (StreamPayload_first_frame h w hh src env s Hshut Hhandler Hdev
                Hfit Hok) as [Halloc Hraised].
    destruct (StreamPayload_accounted h (Some (video_payload w hh src)) env s)
      as (_ & Hcount & Hframes).
    destruct (StreamPayload_texture_follows h (video_payload w hh src) env s)
      as [_ Hnew].
    pose proof (StreamPayload_frame h (Some (video_payload w hh src)) env s)
      as Hframe.
    unfold deliver in Halloc, Hraised. cbn [fst snd] in Halloc, Hraised.
    rewrite Halloc in Hcount. rewrite Hraised in Hframes.
    specialize (Hnew Halloc). cbn [EncodingProperties video_payload] in Hnew.
    unfold unchanged, delivery_frame in Hframe.
    injection Hframe as _ _ Hcs' _.
    change (frames w hh [(src, env)])
      with [(video_payload w hh src, env)].
    change (frames w hh ((src, env) :: rest))
      with ((video_payload w hh src, env) :: frames w hh rest).
    rewrite !deliver_all_cons. unfold deliver at 1 2 3 4.
    cbn [deliver_all fold_left fst snd].
    destruct (deliver_all_fitting h _ _ _ (frames_props w hh rest) Hnew)
      as [Hrest _].
    rewrite Hrest.
    rewrite (deliver_all_quiet h _ _ _ (frames_props w hh rest));
      [|congruence|exact Hnew].
    repeat split; lia.
Qed.

Lemma frames_of_one_size_witness :
  m_isShutdown engine_bound = false
  /\ m_payloadHandler engine_bound = Some 1%nat
  /\ delivery_succeeds delivery_ok = true
  /\ video_frames
       (deliver_all 1%nat
          (frames 1280 720
             [(sample_of [], delivery_ok); (sample_of [], delivery_ok);
              (sample_of [], delivery_ok); (sample_of [], delivery_ok);
              (sample_of [], delivery_ok)]) engine_bound)
     = S (video_frames engine_bound).
Proof.
  split; [reflexivity|]. split; [reflexivity|]. split; [reflexivity|].
  exact (proj2 (proj2 (proj2
           (proj2 (proj2 frames_of_one_size_allocate_once) 1%nat 1280 720
              (sample_of [], delivery_ok)
              [(sample_of [], delivery_ok); (sample_of [], delivery_ok);
               (sample_of [], delivery_ok); (sample_of [], delivery_ok)]
              engine_bound eq_refl eq_refl eq_refl eq_refl eq_refl
              eq_refl)))).
Defined.

(** C5 as stated fails: when the texture has just been allocated and copying
    the sample into it fails, the handler returns before it notifies, so the
    delivery reallocated the texture and raised nothing. *)
Lemma reallocation_without_notification :
  ~ (forall sender payload env s,
        video_frame_raised s (StreamPayload sender payload env s)
        = allocated s (StreamPayload sender payload env s)
          || transform_updated s (StreamPayload sender payload env s)).
Proof.
  intros claim.
  specialize (claim 1%nat (Some frame_720p) delivery_copy_fails engine_bound).
  vm_compute in claim. discriminate claim.
Qed.

(** ** The audio sample buffer *)

Lemma StreamPayload_audio_buffer h src env s :
  m_isShutdown s = false ->
  m_payloadHandler s = Some h ->
  audio_buffer_follows src env s (deliver h (audio_payload src, env) s).
Proof.
  unfold deliver, audio_payload. intros Hshut Hhandler.
  unfold_engine. cbn [fst snd].
  destruct s; simpl in Hshut, Hhandler; subst.
  record_cbv.
  cbn [majorType_of MediaStreamSample as_IStreamSample guid_eqb same_handler].
  rewrite Nat.eqb_refl. cbn [negb].
  repeat head_step.
  all: unfold audio_buffer_follows, audio_alloc_ok, copied_or_not; record_cbv.
  all: use_equations; cbn [negb andb]; rewrite ?andb_false_r; reflexivity.
Qed.

Lemma copied_or_not_same_buffer env src b :
  sample_id (copied_or_not env src b) = sample_id b
  /\ MaxLength (copied_or_not env src b) = MaxLength b.
Proof.
  unfold copied_or_not, copy_into.
  destruct (FAILED (CopySample_hr env)); split; reflexivity.
Qed.

Lemma deliver_frame h d s :
  m_isShutdown (deliver h d s) = m_isShutdown s
  /\ m_payloadHandler (deliver h d s) = m_payloadHandler s.
Proof.
  pose proof (StreamPayload_frame h (Some (fst d)) (snd d) s) as Hframe.
  unfold unchanged, delivery_frame in Hframe.
  injection Hframe as Hshut Hhandler _ _. split; assumption.
Qed.

Lemma audio_payloads_cons x l :
  audio_payloads (x :: l) = (audio_payload (fst x), snd x) :: audio_payloads l.
Proof. reflexivity. Qed.

(* While the allocation fails there is no buffer. *)
Lemma deliver_audio_not_allocated h l s :
  m_isShutdown s = false ->
  m_payloadHandler s = Some h ->
  m_audioSample s = None ->
  Forall (fun d => audio_alloc_ok (snd d) = false) l ->
  m_isShutdown (deliver_all h (audio_payloads l) s) = false
  /\ m_payloadHandler (deliver_all h (audio_payloads l) s) = Some h
  /\ m_audioSample (deliver_all h (audio_payloads l) s) = None.
Proof.
  intros Hshut Hhandler Hnone Hl. revert s Hshut Hhandler Hnone.
  induction Hl as [|[src env] l Hd Hl IH]; intros s Hshut Hhandler Hnone.
  - auto.
  - rewrite audio_payloads_cons, deliver_all_cons. cbn [fst snd] in *.
    destruct (deliver_frame h (audio_payload src, env) s) as [Hshut' Hhandler'].
    pose proof (StreamPayload_audio_buffer h src env s Hshut Hhandler) as Hbuf.
    unfold audio_buffer_follows in Hbuf. rewrite Hnone, Hd in Hbuf.
    apply IH; congruence.
Qed.

(* Once there is a buffer, it is the buffer. *)
Lemma deliver_audio_same_buffer h l s b :
  m_isShutdown s = false ->
  m_payloadHandler s = Some h ->
  m_audioSample s = Some b ->
  m_isShutdown (deliver_all h (audio_payloads l) s) = false
  /\ m_payloadHandler (deliver_all h (audio_payloads l) s) = Some h
  /\ exists b',
      m_audioSample (deliver_all h (audio_payloads l) s) = Some b'
      /\ sample_id b' = sample_id b
      /\ MaxLength b' = MaxLength b.
Proof.
  revert s b. induction l as [|[src env] l IH]; intros s b Hshut Hhandler Hb.
  - split; [exact Hshut|]. split; [exact Hhandler|]. exists b. auto.
  - rewrite audio_payloads_cons, deliver_all_cons. cbn [fst snd].
    destruct (deliver_frame h (audio_payload src, env) s) as [Hshut' Hhandler'].
    pose proof (StreamPayload_audio_buffer h src env s Hshut Hhandler) as Hbuf.
    unfold audio_buffer_follows in Hbuf. rewrite Hb in Hbuf.
    destruct (copied_or_not_same_buffer env src b) as [Hid Hmax].
    destruct (IH (deliver h (audio_payload src, env) s)
                (copied_or_not env src b)) as (H1 & H2 & b' & H3 & H4 & H5);
      try congruence.
    split; [exact H1|]. split; [exact H2|].
    exists b'. split; [exact H3|]. split; congruence.
Qed.

(** C7, as the code has it: starting without an audio sample buffer, the
    deliveries during which an allocation step fails leave the engine
    without one; the first delivery during which the four allocation steps
    succeed allocates it, a new object sized to that payload's total length;
    and whatever audio payloads follow, the buffer is that same object with
    that same size, a successful copy replacing its content in place. *)
Theorem audio_buffer_allocated_once_then_reused h s pre src env :
  m_isShutdown s = false ->
  m_payloadHandler s = Some h ->
  m_audioSample s = None ->
  Forall (fun d => audio_alloc_ok (snd d) = false) pre ->
  audio_alloc_ok env = true ->
  m_audioSample (deliver_all h (audio_payloads pre) s) = None
  /\ exists b,
      m_audioSample (deliver_all h (audio_payloads (pre ++ [(src, env)])) s)
      = Some b
      /\ sample_id b = next_obj (deliver_all h (audio_payloads pre) s)
      /\ MaxLength b = GetTotalLength src
      /\ forall post,
          exists b',
            m_audioSample
              (deliver_all h (audio_payloads (pre ++ (src, env) :: post)) s)
            = Some b'
            /\ sample_id b' = sample_id b
            /\ MaxLength b' = MaxLength b
            /\ forall src' env',
                FAILED (CopySample_hr env') = false ->
                m_audioSample
                  (deliver_all h
                     (audio_payloads
                        (pre ++ (src, env) :: post ++ [(src', env')])) s)
                = Some (copy_into src' b').
Proof.
  intros Hshut Hhandler Hnone Hpre Hok.
  destruct (deliver_audio_not_allocated h pre s Hshut Hhandler Hnone Hpre)
    as (Hshut1 & Hhandler1 & Hnone1).
  split; [exact Hnone1|].
  assert (Hsplit : forall l,
             deliver_all h (audio_payloads (pre ++ l)) s
             = deliver_all h (audio_payloads l)
                 (deliver_all h (audio_payloads pre) s)).
  { intros l. unfold deliver_all, audio_payloads.
    rewrite map_app, fold_left_app. reflexivity. }
  set (s1 := deliver_all h (audio_payloads pre) s) in *.
  pose proof (StreamPayload_audio_buffer h src env s1 Hshut1 Hhandler1)
    as Hbuf.
  unfold audio_buffer_follows in Hbuf. rewrite Hnone1, Hok in Hbuf.
  destruct (deliver_frame h (audio_payload src, env) s1) as [Hshut2 Hhandler2].
  set (s2 := deliver h (audio_payload src, env) s1) in *.
  set (b := copied_or_not env src
              (MkSample (next_obj s1) (GetTotalLength src) [])) in *.
  destruct (copied_or_not_same_buffer env src
              (MkSample (next_obj s1) (GetTotalLength src) []))
    as [Hid Hmax].
  exists b. rewrite Hsplit.
  split; [exact Hbuf|]. split; [exact Hid|]. split; [exact Hmax|].
  intros post.
  destruct (deliver_audio_same_buffer h post s2 b) as (Hshut3 & Hhandler3 & b' & Hb' & Hid' & Hmax');
    try congruence.
  exists b'. rewrite Hsplit, audio_payloads_cons, deliver_all_cons.
  cbn [fst snd]. fold s2.
  split; [exact Hb'|]. split; [exact Hid'|]. split; [exact Hmax'|].
  intros src' env' Hcopy.
  rewrite Hsplit, audio_payloads_cons, deliver_all_cons. cbn [fst snd].
  fold s2.
  unfold audio_payloads. rewrite map_app. unfold deliver_all.
  rewrite fold_left_app. cbn [map fold_left fst snd].
  fold (audio_payloads post). fold (deliver_all h (audio_payloads post) s2).
  pose proof (StreamPayload_audio_buffer h src' env'
                (deliver_all h (audio_payloads post) s2) Hshut3 Hhandler3)
    as Hlast.
  unfold audio_buffer_follows, copied_or_not in Hlast.
  rewrite Hb', Hcopy in Hlast. exact Hlast.
Qed.

Lemma audio_buffer_allocated_once_witness :
  m_isShutdown engine_bound = false
  /\ m_payloadHandler engine_bound = Some 1%nat
  /\ m_audioSample engine_bound = None
  /\ audio_alloc_ok delivery_buffer_fails = false
  /\ audio_alloc_ok delivery_ok = true
  /\ m_audioSample
       (deliver_all 1%nat
          (audio_payloads [(two_bytes, delivery_buffer_fails)]) engine_bound)
     = None.
Proof.
  repeat (split; [reflexivity|]).
  exact (proj1 (audio_buffer_allocated_once_then_reused 1%nat engine_bound
                  [(two_bytes, delivery_buffer_fails)] three_bytes
                  delivery_ok eq_refl eq_refl eq_refl
                  (Forall_cons (two_bytes, delivery_buffer_fails)
                     (eq_refl : audio_alloc_ok
                                  (snd (two_bytes, delivery_buffer_fails))
                                = false)
                     (Forall_nil _)) eq_refl)).
Defined.

(** C7 as stated fails: when creating the memory buffer fails during the
    first audio delivery, that delivery allocates nothing, and the buffer a
    later delivery allocates is sized to that later payload. *)
Lemma audio_buffer_not_allocated_on_first_delivery :
  ~ (forall h src env s,
        m_isShutdown s = false ->
        m_payloadHandler s = Some h ->
        m_audioSample s = None ->
        exists b,
          m_audioSample (deliver h (audio_payload src, env) s) = Some b
          /\ MaxLength b = GetTotalLength src).
Proof.
  intros claim.
  destruct (claim 1%nat two_bytes delivery_buffer_fails engine_bound
              eq_refl eq_refl eq_refl) as (b & Hb & _).
  vm_compute in Hb. discriminate Hb.
Qed.

(** ** Replacing the payload handler *)

(* What ResetPayloadHandler leaves alone, and what it may remove. *)
Lemma ResetPayloadHandler_tokens s :
  holds_after
    (fun r =>
       next_token r = next_token s
       /\ m_payloadEventToken r = m_payloadEventToken s
       /\ m_payloadHandler r = None)
    (ResetPayloadHandler s).
Proof. unfold_engine. exec s; unfold holds_after; auto. Qed.

Lemma In_filter_kept {A : Type} (f : A -> bool) (x : A) (l : list A) :
  In x l -> f x = true -> In x (filter f l).
Proof. intros Hin Hf. apply filter_In. auto. Qed.

(* Binding a handler: its five registrations are added last, under five
   consecutive tokens, and the payload registration's token ends up in
   m_streamSampleEventToken. *)
Lemma put_PayloadHandler_registers a s s1 :
  put_PayloadHandler (Some a) s = Some s1 ->
  m_payloadHandler s1 = Some a
  /\ subscriptions s1
     = subscriptions (ResetPayloadHandler s)
       ++ [MkSubscription a OnMediaProfile
             (next_token (ResetPayloadHandler s));
           MkSubscription a OnStreamDescription
             (next_token (ResetPayloadHandler s) + 1);
           MkSubscription a OnStreamMetadata
             (next_token (ResetPayloadHandler s) + 1 + 1);
           MkSubscription a OnStreamSample
             (next_token (ResetPayloadHandler s) + 1 + 1 + 1);
           MkSubscription a OnStreamPayload
             (next_token (ResetPayloadHandler s) + 1 + 1 + 1 + 1)]
  /\ m_streamSampleEventToken s1
     = next_token (ResetPayloadHandler s) + 1 + 1 + 1 + 1
  /\ m_payloadEventToken s1 = m_payloadEventToken (ResetPayloadHandler s)
  /\ next_token s1 = next_token (ResetPayloadHandler s) + 1 + 1 + 1 + 1 + 1.
Proof.
  intros H. unfold put_PayloadHandler in H. cbv zeta in H.
  set (r := ResetPayloadHandler s) in *.
  change (m_mediaSink (r <| m_payloadHandler := Some a |>))
    with (m_mediaSink r) in H.
  destruct (m_mediaSink r); clearbody r; destruct r;
    unfold event_add in H; revert H; record_cbv; intros H;
    injection H as <-; record_cbv; rewrite <- ?app_assoc; auto.
Qed.

Lemma not_matches h ev t x :
  sub_event x <> ev \/ sub_token x <> t ->
  negb (matches h ev t x) = true.
Proof.
  unfold matches. intros [Hev | Htok].
  - destruct (sub_event x), ev; try contradiction;
      cbn [PayloadEvent_eqb]; rewrite andb_false_r; reflexivity.
  - apply Z.eqb_neq in Htok. rewrite Htok, andb_false_r. reflexivity.
Qed.

(* Revoking with the tokens the engine holds after a binding keeps the
   stream-sample and the stream-payload registration. *)
Lemma ResetPayloadHandler_keeps_two a s s1 :
  m_payloadEventToken s < next_token s ->
  put_PayloadHandler (Some a) s = Some s1 ->
  In (MkSubscription a OnStreamSample (next_token s + 3))
    (subscriptions (ResetPayloadHandler s1))
  /\ In (MkSubscription a OnStreamPayload (next_token s + 4))
       (subscriptions (ResetPayloadHandler s1)).
Proof.
  intros Hfresh H.
  destruct (put_PayloadHandler_registers a s s1 H)
    as (Hbound & Hsubs & Hsample & Hpayload & _).
  pose proof (ResetPayloadHandler_tokens s) as (Hnext & Hpayload0 & _).
  rewrite Hnext in Hsubs, Hsample. rewrite Hpayload0 in Hpayload.
  set (t := next_token s) in *. set (p := m_payloadEventToken s) in *.
  clearbody t p. clear H Hnext Hpayload0.
  unfold ResetPayloadHandler, event_remove.
  destruct s1; simpl in Hbound, Hsubs, Hsample, Hpayload; subst.
  record_cbv.
  split.
  all: repeat (apply In_filter_kept;
               [|apply not_matches; cbn [sub_event sub_token];
                 first [left; discriminate | right; lia]]).
  all: apply in_or_app; right; simpl;
    replace (t + 1 + 1 + 1) with (t + 3) by lia;
    replace (t + 3 + 1) with (t + 4) by lia; auto 10.
Qed.

(* The registrations a handler is left with are still there after the next
   handler is bound: replacing handler [a] leaves its stream-sample and
   stream-payload delegates registered, whatever the state the engine was
   in when [a] was bound. *)
Lemma replaced_handler_keeps_sample_and_payload a b s s1 s2 :
  m_payloadEventToken s < next_token s ->
  put_PayloadHandler (Some a) s = Some s1 ->
  put_PayloadHandler (Some b) s1 = Some s2 ->
  In (MkSubscription a OnStreamSample (next_token s + 3)) (subscriptions s2)
  /\ In (MkSubscription a OnStreamPayload (next_token s + 4))
       (subscriptions s2).
Proof.
  intros Hfresh Ha Hb.
  destruct (ResetPayloadHandler_keeps_two a s s1 Hfresh Ha) as [H1 H2].
  destruct (put_PayloadHandler_registers b s1 s2 Hb) as (_ & Hsubs & _).
  rewrite Hsubs. split; apply in_or_app; left; assumption.
Qed.

(** ** The payload token is never assigned *)

Lemma payload_token_stale_unchanged (s s' : CaptureEngine) :
  unchanged token_state s s' -> payload_token_stale s -> payload_token_stale s'.
Proof.
  unfold unchanged, token_state, payload_token_stale.
  intros H. injection H as Hp Hn. rewrite Hp, Hn. auto.
Qed.

Lemma StartPreview_tokens w h enableAudio enableMrc env s :
  co_unchanged token_state s (StartPreview w h enableAudio enableMrc env s).
Proof. unfold StartPreview, outstanding. unfold_engine. exec s; reflexivity. Qed.

Lemma StopPreview_tokens s : co_unchanged token_state s (StopPreview s).
Proof. unfold StopPreview, outstanding. unfold_engine. exec s; reflexivity. Qed.

Lemma StreamPayload_tokens sender payload env s :
  unchanged token_state s (StreamPayload sender payload env s).
Proof. unfold_engine. exec s; reflexivity. Qed.

Lemma run_start_tokens env s s' :
  run_start env s = Some s' -> unchanged token_state s s'.
Proof.
  unfold run_start. intros Hrun.
  destruct (m_startPreviewOp s) as [[[w h a m|] [| | |] e]|];
    try discriminate.
  pose proof (StartPreviewCoroutine_keeps w h a m env s) as Hkeep.
  destruct (StartPreviewCoroutine w h a m env s) as [o s1].
  injection Hrun as <-.
  apply sequence_frame_tokens in Hkeep. exact Hkeep.
Qed.

Lemma run_stop_tokens env s s' :
  run_stop env s = Some s' -> unchanged token_state s s'.
Proof.
  unfold run_stop. intros Hrun.
  destruct (m_stopPreviewOp s) as [[[w h a m|] [| | |] e]|];
    try discriminate.
  pose proof (StopPreviewCoroutine_keeps env s) as Hkeep.
  destruct (StopPreviewCoroutine env s) as [o s1].
  injection Hrun as <-.
  apply sequence_frame_tokens in Hkeep. exact Hkeep.
Qed.

Lemma wait_start_tokens env s s' :
  wait_start env s = Some s' -> unchanged token_state s s'.
Proof.
  unfold wait_start. intros H.
  destruct (m_startPreviewOp s) as [op|]; [|injection H as <-; reflexivity].
  destruct (Status op); try (injection H as <-; reflexivity).
  destruct (m_startPreviewEventHandle s); [injection H as <-; reflexivity|].
  destruct (run_start env s) as [s1|] eqn:Hrun; [|discriminate].
  destruct (m_startPreviewEventHandle s1); [|discriminate].
  injection H as <-. exact (run_start_tokens env s s1 Hrun).
Qed.

Lemma wait_stop_tokens env s s' :
  wait_stop env s = Some s' -> unchanged token_state s s'.
Proof.
  unfold wait_stop. intros H.
  destruct (m_stopPreviewOp s) as [op|]; [|injection H as <-; reflexivity].
  destruct (Status op); try (injection H as <-; reflexivity).
  destruct (m_stopPreviewEventHandle s); [injection H as <-; reflexivity|].
  destruct (run_stop env s) as [s1|] eqn:Hrun; [|discriminate].
  destruct (m_stopPreviewEventHandle s1); [|discriminate].
  injection H as <-. exact (run_stop_tokens env s s1 Hrun).
Qed.

Lemma Shutdown_tokens startEnv stopEnv s s' :
  Shutdown startEnv stopEnv s = Some s' -> unchanged token_state s s'.
Proof.
  unfold Shutdown, Module_Shutdown. intros H.
  destruct (m_isShutdown s); [injection H as <-; reflexivity|].
  destruct (wait_start startEnv (s <| m_isShutdown := true |>))
    as [s2|] eqn:Hwait; [|discriminate].
  apply wait_start_tokens in Hwait.
  assert (Hs3 : unchanged token_state s2
                  (if is_some (m_mediaCapture s2)
                   then snd (StopPreview s2) else s2)).
  { destruct (is_some (m_mediaCapture s2));
      [apply StopPreview_tokens | reflexivity]. }
  destruct (wait_stop stopEnv
              (if is_some (m_mediaCapture s2)
               then snd (StopPreview s2) else s2)) as [s4|] eqn:Hwait2;
    [|discriminate].
  apply wait_stop_tokens in Hwait2.
  injection H as <-.
  pose proof (sequence_frame_tokens _ _
                (ReleaseDeviceResources_unchanged s4)) as Hrelease.
  unfold unchanged in *.
  change (token_state (s <| m_isShutdown := true |>))
    with (token_state s) in Hwait.
  congruence.
Qed.

Lemma put_PayloadHandler_stale value s s' :
  put_PayloadHandler value s = Some s' ->
  payload_token_stale s -> payload_token_stale s'.
Proof.
  destruct value as [a|].
  - intros H Hstale.
    destruct (put_PayloadHandler_registers a s s' H)
      as (_ & _ & _ & Hpayload & Hnext).
    pose proof (ResetPayloadHandler_tokens s) as (Hnext0 & Hpayload0 & _).
    unfold payload_token_stale in *. lia.
  - unfold put_PayloadHandler. cbv zeta.
    set (r := ResetPayloadHandler s).
    change (m_mediaSink (r <| m_payloadHandler := None |>))
      with (m_mediaSink r).
    destruct (m_mediaSink r); discriminate.
Qed.

Lemma step_payload_token_stale a s s' :
  step a s = Some s' -> payload_token_stale s -> payload_token_stale s'.
Proof.
  destruct a; unfold step; intros H.
  - injection H as <-. apply payload_token_stale_unchanged.
    apply StartPreview_tokens.
  - injection H as <-. apply payload_token_stale_unchanged.
    apply StopPreview_tokens.
  - apply payload_token_stale_unchanged.
    exact (Shutdown_tokens _ _ _ _ H).
  - exact (put_PayloadHandler_stale _ _ _ H).
  - injection H as <-. apply payload_token_stale_unchanged. reflexivity.
  - apply payload_token_stale_unchanged. exact (run_start_tokens _ _ _ H).
  - apply payload_token_stale_unchanged. exact (run_stop_tokens _ _ _ H).
  - unfold complete_start in H.
    destruct (m_startPreviewOp s) as [op|]; [|discriminate].
    destruct (Status op); try discriminate; injection H as <-;
      apply payload_token_stale_unchanged; reflexivity.
  - unfold complete_stop in H.
    destruct (m_stopPreviewOp s) as [op|]; [|discriminate].
    destruct (Status op); try discriminate; injection H as <-;
      apply payload_token_stale_unchanged; reflexivity.
  - injection H as <-. apply payload_token_stale_unchanged.
    apply StreamPayload_tokens.
Qed.

Lemma reachable_payload_token_stale s : reachable s -> payload_token_stale s.
Proof.
  intros [actions Hrun].
  assert (Hnew : payload_token_stale CaptureEngine_new)
    by (unfold payload_token_stale; simpl; lia).
  revert Hrun Hnew. generalize CaptureEngine_new as s0.
  induction actions as [|a rest IH]; simpl; intros s0 Hrun Hs0.
  - injection Hrun as <-. exact Hs0.
  - destruct (step a s0) as [s1|] eqn:Hstep; [|discriminate].
    exact (IH s1 Hrun (step_payload_token_stale a s0 s1 Hstep Hs0)).
Qed.

(* The same in every state an engine can reach: replacing handler [a] by
   any handler leaves [a]'s stream-sample and stream-payload delegates
   registered. *)
Lemma replaced_handler_keeps_two_in_general a b s s1 s2 :
  reachable s ->
  put_PayloadHandler (Some a) s = Some s1 ->
  put_PayloadHandler (Some b) s1 = Some s2 ->
  In (MkSubscription a OnStreamSample (next_token s + 3)) (subscriptions s2)
  /\ In (MkSubscription a OnStreamPayload (next_token s + 4))
       (subscriptions s2).
Proof.
  intros Hs. apply replaced_handler_keeps_sample_and_payload.
  exact (reachable_payload_token_stale s Hs).
Qed.

(** C1 fails on the code: binding handler 1 and then handler 2 on a new
    engine leaves the stream-sample and stream-payload delegates registered
    on handler 1.  The setter stores the payload registration's token in
    m_streamSampleEventToken and never assigns m_payloadEventToken, so
    ResetPayloadHandler revokes the payload event with token 0 and the sample
    event with the payload's token, and neither matches.  Handler 2 does get
    its five registrations. *)
Theorem replaced_handler_keeps_two_subscriptions :
  exists s1 s2,
    put_PayloadHandler (Some 1%nat) CaptureEngine_new = Some s1
    /\ put_PayloadHandler (Some 2%nat) s1 = Some s2
    /\ map sub_event (subscriptions_on 1%nat s1)
       = [OnMediaProfile; OnStreamDescription; OnStreamMetadata;
          OnStreamSample; OnStreamPayload]
    /\ m_payloadEventToken s1 = 0
    /\ m_streamSampleEventToken s1 = 5
    /\ subscriptions_on 1%nat s2
       = [MkSubscription 1%nat OnStreamSample 4;
          MkSubscription 1%nat OnStreamPayload 5]
    /\ map sub_event (subscriptions_on 2%nat s2)
       = [OnMediaProfile; OnStreamDescription; OnStreamMetadata;
          OnStreamSample; OnStreamPayload].
Proof.
  eexists _, _. split; [vm_compute; reflexivity|].
  split; [vm_compute; reflexivity|].
  repeat split.
Qed.

(** ** What the sequences leave alone, field by field *)

Ltac unfold_observations :=
  unfold co_unchanged, unchanged, around_platform_calls, around_session,
    around_start, around_stop, beside_operations, around_delivery,
    outside_sequences, session, binding, events, effects, device_resources,
    frame_buffers, delivery_frame, sequence_frame, handles_and_log, handles,
    token_state in *.

(* An observation that is part of one a lemma already covers. *)
Ltac keeps_from H :=
  let s := fresh "s" in
  intros s; generalize (H s); unfold_observations; congruence.


Lemma AddMrcEffectsAsync_around enableAudio env :
  co_keeps around_platform_calls (AddMrcEffectsAsync enableAudio env).
Proof. keeps_by_exec. Qed.

Lemma set_stream_properties_around env :
  co_keeps around_platform_calls (set_stream_properties env).
Proof. keeps_by_exec. Qed.

Lemma start_stream_around env :
  co_keeps around_platform_calls (start_stream env).
Proof. keeps_by_exec. Qed.

Lemma stop_stream_around env :
  co_keeps around_platform_calls (stop_stream env).
Proof. keeps_by_exec. Qed.

Lemma resume_unless_shutdown_around :
  co_keeps around_platform_calls resume_unless_shutdown.
Proof. keeps_by_exec. Qed.

Lemma open_or_reuse_session_around w h enableAudio env :
  co_keeps around_session (open_or_reuse_session w h enableAudio env).
Proof. keeps_by_exec. Qed.

Lemma ReleaseMediaCaptureAsync_around env :
  co_keeps around_session (ReleaseMediaCaptureAsync env).
Proof. keeps_by_exec. Qed.

Lemma store_sink_around mediaSink :
  co_keeps (fun s => (outside_sequences s, session s, m_payloadHandler s,
                      m_stopPreviewEventHandle s, effects s))
    (store_sink mediaSink).
Proof. keeps_by_exec. Qed.

Section SequenceKeeps.
Context {A : Type} (obs : CaptureEngine -> A).
Hypothesis obs_next_obj : forall s n, obs (s <| next_obj := n |>) = obs s.

(* The start sequence from the point where it has a session. *)
Lemma start_after_session_keeps enableAudio enableMrc env :
  co_keeps obs (set_stream_properties env) ->
  co_keeps obs (AddMrcEffectsAsync enableAudio env) ->
  co_keeps obs (start_stream env) ->
  (forall k, co_keeps obs (store_sink k)) ->
  co_keeps obs resume_unless_shutdown ->
  co_keeps obs
    (set_stream_properties env ;;
     (fun s =>
        let (sink, s1) := fresh s in
        let mediaSink := MkSink sink (encoding_profile enableAudio env) None in
        (co_if enableMrc (AddMrcEffectsAsync enableAudio env) co_skip ;;
         start_stream env ;;
         store_sink mediaSink ;;
         resume_unless_shutdown) s1)).
Proof.
  intros Hprops Hadd Hstream Hstore Hresume.
  apply co_keeps_seq; [exact Hprops|].
  intros s. unfold fresh.
  assert (Hrest : co_keeps obs
            (co_if enableMrc (AddMrcEffectsAsync enableAudio env) co_skip ;;
             start_stream env ;;
             store_sink (MkSink (next_obj s)
                           (encoding_profile enableAudio env) None) ;;
             resume_unless_shutdown)).
  { repeat first [ exact Hadd | exact Hstream | apply Hstore | exact Hresume
                 | apply co_keeps_seq | apply co_keeps_if
                 | apply co_keeps_skip ]. }
  unfold co_unchanged. rewrite (Hrest (s <| next_obj := S (next_obj s) |>)).
  apply obs_next_obj.
Qed.

Lemma StartPreviewCoroutine_keeps_by_stage w h enableAudio enableMrc env :
  co_keeps obs (open_or_reuse_session w h enableAudio env) ->
  co_keeps obs (set_stream_properties env) ->
  co_keeps obs (AddMrcEffectsAsync enableAudio env) ->
  co_keeps obs (start_stream env) ->
  (forall k, co_keeps obs (store_sink k)) ->
  co_keeps obs resume_unless_shutdown ->
  co_keeps obs (StartPreviewCoroutine w h enableAudio enableMrc env).
Proof.
  intros Hopen Hprops Hadd Hstream Hstore Hresume.
  unfold StartPreviewCoroutine.
  apply co_keeps_seq; [exact Hopen|].
  apply start_after_session_keeps; assumption.
Qed.
End SequenceKeeps.

Lemma StartPreviewCoroutine_around w h enableAudio enableMrc env :
  co_keeps around_start (StartPreviewCoroutine w h enableAudio enableMrc env).
Proof.
  apply StartPreviewCoroutine_keeps_by_stage.
  - reflexivity.
  - keeps_from (open_or_reuse_session_around w h enableAudio env).
  - keeps_from (set_stream_properties_around env).
  - keeps_from (AddMrcEffectsAsync_around enableAudio env).
  - keeps_from (start_stream_around env).
  - intros k. keeps_from (store_sink_around k).
  - keeps_from resume_unless_shutdown_around.
Qed.

Lemma ResetPayloadHandler_around s :
  unchanged (fun s => (outside_sequences s, session s, m_mediaSink s,
                       events s, effects s))
    s (ResetPayloadHandler s).
Proof. unfold_engine. exec s; reflexivity. Qed.

Lemma StopPreviewCoroutine_around env :
  co_keeps around_stop (StopPreviewCoroutine env).
Proof.
  unfold StopPreviewCoroutine.
  apply co_keeps_seq.
  { apply co_keeps_do. intros s.
    generalize (ResetPayloadHandler_around s). unfold_observations.
    congruence. }
  apply co_keeps_seq; [keeps_by_parts; reflexivity|].
  apply co_keeps_seq.
  - intros s. destruct (m_mediaCapture s).
    + apply co_keeps_seq.
      * keeps_from (stop_stream_around env).
      * keeps_from (ReleaseMediaCaptureAsync_around env).
    + reflexivity.
  - apply co_keeps_seq; [keeps_by_parts; reflexivity|].
    keeps_from resume_unless_shutdown_around.
Qed.

(** ** Device resources *)

Lemma CreateDeviceResources_all_or_nothing env s :
  all_or_nothing s (CreateDeviceResources env s).
Proof.
  unfold_engine. exec s.
  all: unfold all_or_nothing; record_cbv; use_equations;
    try (change (FAILED S_OK) with false);
    try (change (FAILED MF_E_UNEXPECTED) with true); cbv beta iota; auto.
Qed.

(* CreateDeviceResources writes nothing but the device resources and the
   counter of new objects. *)
Lemma CreateDeviceResources_beside env s :
  co_unchanged (fun s => (beside_operations s, events s, handles s,
                          sink_log s, calls s))
    s (CreateDeviceResources env s).
Proof. unfold_engine. exec s; reflexivity. Qed.

Lemma ReleaseDeviceResources_eq s :
  ReleaseDeviceResources s
  = s <| m_audioSample := None |> <| m_sharedVideoTexture := None |>
      <| m_dxgiDeviceManager := None |> <| m_mediaDevice := None |>.
Proof.
  destruct s as [? ? ? device manager ? ? ? ? ? ? ? ? ? ? ? ? ? ? ? ? sample
                 texture ? ? ? ? ? ? ?].
  destruct device, manager, sample, texture; reflexivity.
Qed.
(** ** What the calls of the control surface leave alone *)

Lemma StartPreview_beside w h enableAudio enableMrc env s :
  co_unchanged (fun s => (beside_operations s, m_stopPreviewEventHandle s))
    s (StartPreview w h enableAudio enableMrc env s).
Proof. unfold StartPreview, outstanding. unfold_engine. exec s; reflexivity. Qed.

Lemma StopPreview_beside s :
  co_unchanged (fun s => (beside_operations s, device_resources s,
                          m_startPreviewEventHandle s))
    s (StopPreview s).
Proof. unfold StopPreview, outstanding. unfold_engine. exec s; reflexivity. Qed.

Lemma put_PayloadHandler_around value s s' :
  put_PayloadHandler value s = Some s' ->
  unchanged (fun s => (outside_sequences s, session s, events s, effects s,
                       is_some (m_mediaSink s)))
    s s'.
Proof.
  unfold put_PayloadHandler. intros H.
  pose proof (ResetPayloadHandler_around s) as Hreset.
  destruct (ResetPayloadHandler s)
    as [? ? ? ? ? ? ? ? ? ? ? ? ? ? sink ? ? ? ? ? ? ? ? ? ? ? ? ? ? ?].
  unfold event_add in H. simpl in H.
  assert (Hsink : is_some sink = is_some (m_mediaSink s)).
  { unfold unchanged in Hreset. simpl in Hreset. congruence. }
  destruct value as [h|]; [|destruct sink; discriminate].
  destruct sink; simpl in H; injection H as <-;
    revert Hreset Hsink; unfold_observations; simpl; congruence.
Qed.

Lemma StreamPayload_around sender payload env s :
  unchanged around_delivery s (StreamPayload sender payload env s).
Proof. unfold_engine. exec s; reflexivity. Qed.

Lemma run_start_around env s s' :
  run_start env s = Some s' ->
  unchanged around_start s s' /\ is_some (m_startPreviewOp s') = true
  /\ m_stopPreviewOp s' = m_stopPreviewOp s.
Proof.
  unfold run_start. intros Hrun.
  destruct (m_startPreviewOp s) as [[[w h a m|] [| | |] e]|];
    try discriminate.
  pose proof (StartPreviewCoroutine_around w h a m env s) as Hkeep.
  pose proof (StartPreviewCoroutine_keeps w h a m env s) as Hops.
  destruct (StartPreviewCoroutine w h a m env s) as [o s1].
  injection Hrun as <-.
  revert Hops. unfold_observations. simpl. intros Hops.
  split; [exact Hkeep|]. split; [reflexivity | congruence].
Qed.

Lemma run_stop_around env s s' :
  run_stop env s = Some s' ->
  unchanged around_stop s s' /\ m_startPreviewOp s' = m_startPreviewOp s.
Proof.
  unfold run_stop. intros Hrun.
  destruct (m_stopPreviewOp s) as [[[w h a m|] [| | |] e]|];
    try discriminate.
  pose proof (StopPreviewCoroutine_around env s) as Hkeep.
  pose proof (StopPreviewCoroutine_keeps env s) as Hops.
  destruct (StopPreviewCoroutine env s) as [o s1].
  injection Hrun as <-.
  revert Hops. unfold_observations. simpl. intros Hops.
  split; [exact Hkeep | congruence].
Qed.

(* What a wait of Shutdown comes back with: the state it was entered in, or
   the state the operation it waited for has left. *)
Lemma wait_start_cases env s s' :
  wait_start env s = Some s' -> s' = s \/ run_start env s = Some s'.
Proof.
  unfold wait_start. intros H.
  destruct (m_startPreviewOp s) as [op|]; [|injection H as <-; auto].
  destruct (Status op); try (injection H as <-; auto).
  destruct (m_startPreviewEventHandle s); [injection H as <-; auto|].
  destruct (run_start env s) as [s1|]; [|discriminate].
  destruct (m_startPreviewEventHandle s1); [|discriminate].
  injection H as <-. auto.
Qed.

Lemma wait_stop_cases env s s' :
  wait_stop env s = Some s' -> s' = s \/ run_stop env s = Some s'.
Proof.
  unfold wait_stop. intros H.
  destruct (m_stopPreviewOp s) as [op|]; [|injection H as <-; auto].
  destruct (Status op); try (injection H as <-; auto).
  destruct (m_stopPreviewEventHandle s); [injection H as <-; auto|].
  destruct (run_stop env s) as [s1|]; [|discriminate].
  destruct (m_stopPreviewEventHandle s1); [|discriminate].
  injection H as <-. auto.
Qed.

Lemma wait_start_around env s s' :
  wait_start env s = Some s' -> unchanged around_start s s'.
Proof.
  intros H. destruct (wait_start_cases env s s' H) as [-> | Hrun].
  - reflexivity.
  - exact (proj1 (run_start_around env s s' Hrun)).
Qed.

Lemma wait_stop_around env s s' :
  wait_stop env s = Some s' -> unchanged around_stop s s'.
Proof.
  intros H. destruct (wait_stop_cases env s s' H) as [-> | Hrun].
  - reflexivity.
  - exact (proj1 (run_stop_around env s s' Hrun)).
Qed.

(** ** Shutdown *)

(* A Shutdown that finds the flag clear and returns: it waited for the
   start, stopped the session if there was one, waited for the stop and
   released the device resources. *)
Lemma Shutdown_first startEnv stopEnv s s' :
  m_isShutdown s = false ->
  Shutdown startEnv stopEnv s = Some s' ->
  exists s2 s4,
    wait_start startEnv (s <| m_isShutdown := true |>) = Some s2
    /\ wait_stop stopEnv
         (if is_some (m_mediaCapture s2) then snd (StopPreview s2) else s2)
       = Some s4
    /\ s' = ReleaseDeviceResources s4.
Proof.
  unfold Shutdown, Module_Shutdown. intros Hflag H. rewrite Hflag in H.
  destruct (wait_start startEnv (s <| m_isShutdown := true |>))
    as [s2|] eqn:Hstart; [|discriminate].
  destruct (wait_stop stopEnv
              (if is_some (m_mediaCapture s2)
               then snd (StopPreview s2) else s2)) as [s4|] eqn:Hstop;
    [|discriminate].
  injection H as <-. exists s2, s4. auto.
Qed.

Lemma Shutdown_outside startEnv stopEnv s s' :
  m_isShutdown s = false ->
  Shutdown startEnv stopEnv s = Some s' ->
  exists s4,
    s' = ReleaseDeviceResources s4
    /\ outside_sequences s4 = outside_sequences (s <| m_isShutdown := true |>).
Proof.
  intros Hflag H.
  destruct (Shutdown_first _ _ _ _ Hflag H) as (s2 & s4 & Hstart & Hstop & ->).
  exists s4. split; [reflexivity|].
  apply wait_start_around in Hstart. apply wait_stop_around in Hstop.
  assert (Hs3 : outside_sequences
                  (if is_some (m_mediaCapture s2)
                   then snd (StopPreview s2) else s2)
                = outside_sequences s2).
  { destruct (is_some (m_mediaCapture s2)); [|reflexivity].
    generalize (StopPreview_beside s2). unfold_observations. congruence. }
  revert Hstart Hstop Hs3. unfold unchanged, around_start, around_stop.
  congruence.
Qed.

Lemma Shutdown_sets_flag startEnv stopEnv s s' :
  Shutdown startEnv stopEnv s = Some s' -> m_isShutdown s' = true.
Proof.
  intros H. destruct (m_isShutdown s) eqn:Hflag.
  - unfold Shutdown in H. rewrite Hflag in H. injection H as <-. exact Hflag.
  - destruct (Shutdown_outside _ _ _ _ Hflag H) as (s4 & -> & Hout).
    rewrite ReleaseDeviceResources_eq. simpl.
    revert Hout. unfold outside_sequences. simpl. congruence.
Qed.
(** ** Completions after shutdown *)

(* Nothing but Shutdown sets the shutdown flag. *)
Lemma step_keeps_shutdown_flag a s s' :
  step a s = Some s' ->
  is_shutdown_call a = false ->
  m_isShutdown s' = m_isShutdown s.
Proof.
  destruct a as [w h enableAudio enableMrc env | | startEnv stopEnv | value
                 | value | env | env | | | sender payload env];
    unfold step, is_shutdown_call; intros H Hcall; try discriminate.
  - injection H as <-.
    generalize (StartPreview_beside w h enableAudio enableMrc env s).
    unfold_observations. congruence.
  - injection H as <-. generalize (StopPreview_beside s).
    unfold_observations. congruence.
  - generalize (put_PayloadHandler_around _ _ _ H).
    unfold_observations. congruence.
  - injection H as <-. reflexivity.
  - generalize (proj1 (run_start_around _ _ _ H)).
    unfold_observations. congruence.
  - generalize (proj1 (run_stop_around _ _ _ H)).
    unfold_observations. congruence.
  - unfold complete_start in H.
    destruct (m_startPreviewOp s) as [op|]; [|discriminate].
    destruct (Status op); try discriminate; injection H as <-; reflexivity.
  - unfold complete_stop in H.
    destruct (m_stopPreviewOp s) as [op|]; [|discriminate].
    destruct (Status op); try discriminate; injection H as <-; reflexivity.
  - injection H as <-. generalize (StreamPayload_frame sender payload env s).
    unfold_observations. congruence.
Qed.









(** X1: CreateDeviceResources is all or nothing, and ensures rather than
    creates: when it fails the engine is exactly as before (neither resource
    and no reset token stored); when it succeeds it returns S_OK with both
    the media device and the device manager present; and once it has
    succeeded, a further call returns S_OK and changes nothing, whatever the
    platform would answer. *)
Theorem CreateDeviceResources_ensures env s :
  all_or_nothing s (CreateDeviceResources env s)
  /\ (FAILED (fst (CreateDeviceResources env s)) = false ->
      forall env',
        CreateDeviceResources env' (snd (CreateDeviceResources env s))
        = (S_OK, snd (CreateDeviceResources env s))).
Proof.
  pose proof (CreateDeviceResources_all_or_nothing env s) as Hall.
  split; [exact Hall|].
  intros Hok env'. unfold all_or_nothing in Hall. rewrite Hok in Hall.
  destruct Hall as (_ & Hdevice & Hmanager).
  destruct (CreateDeviceResources env s) as [hr s1]. simpl in *.
  unfold CreateDeviceResources. rewrite Hdevice, Hmanager. reflexivity.
Qed.

(** X2: a Shutdown that finds the flag clear and returns leaves the flag
    set and nothing of what ReleaseDeviceResources lets go of: no audio
    sample buffer, no shared video texture, no device manager and no media
    device, whatever the operations it waited for did. *)
Theorem Shutdown_releases startEnv stopEnv s s' :
  m_isShutdown s = false ->
  Shutdown startEnv stopEnv s = Some s' ->
  m_isShutdown s' = true /\ released s'.
Proof.
  intros Hflag H. split; [exact (Shutdown_sets_flag _ _ _ _ H)|].
  destruct (Shutdown_first _ _ _ _ Hflag H) as (s2 & s4 & _ & _ & ->).
  rewrite ReleaseDeviceResources_eq. unfold released, frame_buffers.
  simpl. auto.
Qed.

Lemma Shutdown_releases_witness :
  m_isShutdown engine_with_frame = false
  /\ is_some (m_sharedVideoTexture engine_with_frame) = true
  /\ is_some (m_mediaDevice engine_with_frame) = true
  /\ m_isShutdown (after (preview_with_frame
                           ++ [DoShutdown platform_ok platform_ok])) = true
  /\ released (after (preview_with_frame
                        ++ [DoShutdown platform_ok platform_ok])).
Proof.
  split; [reflexivity|]. split; [reflexivity|]. split; [reflexivity|].
  exact (Shutdown_releases platform_ok platform_ok engine_with_frame
           (after (preview_with_frame ++ [DoShutdown platform_ok platform_ok]))
           eq_refl ltac:(vm_compute; reflexivity)).
Defined.

(** X3: Shutdown is idempotent: once a Shutdown has returned, a further
    Shutdown returns at once and changes nothing, on whatever platform. *)
Theorem Shutdown_twice startEnv stopEnv startEnv' stopEnv' s s' :
  Shutdown startEnv stopEnv s = Some s' ->
  Shutdown startEnv' stopEnv' s' = Some s'.
Proof.
  intros H. unfold Shutdown.
  rewrite (Shutdown_sets_flag _ _ _ _ H). reflexivity.
Qed.

Lemma Shutdown_twice_witness :
  Shutdown platform_initialize_fails platform_audio_removal_fails
    (after (preview_with_frame ++ [DoShutdown platform_ok platform_ok]))
  = Some (after (preview_with_frame ++ [DoShutdown platform_ok platform_ok])).
Proof.
  exact (Shutdown_twice platform_ok platform_ok platform_initialize_fails
           platform_audio_removal_fails engine_with_frame
           (after (preview_with_frame ++ [DoShutdown platform_ok platform_ok]))
           ltac:(vm_compute; reflexivity)).
Defined.

(** ** The shutdown flag over a history *)

Lemma step_shutdown_flag a s s' :
  step a s = Some s' ->
  m_isShutdown s' = m_isShutdown s || is_shutdown_call a.
Proof.
  intros H. destruct (is_shutdown_call a) eqn:Hcall.
  - rewrite orb_true_r. destruct a; try discriminate.
    exact (Shutdown_sets_flag _ _ _ _ H).
  - rewrite orb_false_r. exact (step_keeps_shutdown_flag a s s' H Hcall).
Qed.

(** X4: over any history the shutdown flag is set by Shutdown and by
    nothing else, and nothing clears it: the flag at the end is set exactly
    when it was set at the beginning or the history contains a Shutdown
    (that returned). *)
Theorem shutdown_flag_set_by_Shutdown_only actions s s' :
  run actions s = Some s' ->
  m_isShutdown s' = m_isShutdown s || existsb is_shutdown_call actions.
Proof.
  revert s. induction actions as [|a rest IH]; simpl; intros s H.
  - injection H as <-. rewrite orb_false_r. reflexivity.
  - destruct (step a s) as [s1|] eqn:Hstep; [|discriminate].
    rewrite (IH s1 H), (step_shutdown_flag a s s1 Hstep).
    symmetry. apply orb_assoc.
Qed.

Lemma shutdown_flag_witness :
  m_isShutdown (after (shutdown_during_preview ++ [CompleteStop; DoStopPreview]))
  = m_isShutdown CaptureEngine_new
    || existsb is_shutdown_call
         (shutdown_during_preview ++ [CompleteStop; DoStopPreview]).
Proof.
  exact (shutdown_flag_set_by_Shutdown_only
           (shutdown_during_preview ++ [CompleteStop; DoStopPreview])
           CaptureEngine_new
           (after (shutdown_during_preview ++ [CompleteStop; DoStopPreview]))
           ltac:(vm_compute; reflexivity)).
Defined.
(** ** The completion events *)

Lemma signals_from (event : CaptureEngine -> bool) (s s0 : CaptureEngine)
    (r : outcome * CaptureEngine) :
  event s0 = event s -> signals event s0 r -> signals event s r.
Proof. unfold signals. intros H. destruct (fst r); congruence. Qed.

Lemma signals_seq (event : CaptureEngine -> bool) (a b : co) :
  co_keeps event a ->
  (forall s, signals event s (b s)) ->
  forall s, signals event s ((a ;; b) s).
Proof.
  intros Ha Hb s. unfold co_seq.
  specialize (Ha s). unfold co_unchanged in Ha.
  destruct (a s) as [[|hr] s1]; simpl in Ha.
  - specialize (Hb s1). unfold signals in *.
    destruct (fst (b s1)); congruence.
  - exact Ha.
Qed.

(* A sequence that ends as [b] ends, after a part that leaves [obs] alone:
   [Q] when it has run to its end, [obs] as it was when it threw. *)
Lemma co_post_seq {A : Type} (obs : CaptureEngine -> A)
    (Q : CaptureEngine -> Prop) (a b : co) :
  co_keeps obs a ->
  (forall s, co_post Q (fun s' => obs s' = obs s) (b s)) ->
  forall s, co_post Q (fun s' => obs s' = obs s) ((a ;; b) s).
Proof.
  intros Ha Hb s. unfold co_seq.
  specialize (Ha s). unfold co_unchanged in Ha.
  destruct (a s) as [[|hr] s1]; simpl in Ha.
  - specialize (Hb s1). unfold co_post in *.
    destruct (fst (b s1)); congruence.
  - exact Ha.
Qed.

Lemma store_sink_signals mediaSink s :
  signals m_startPreviewEventHandle s
    ((store_sink mediaSink ;; resume_unless_shutdown) s).
Proof. unfold_engine. exec s; reflexivity. Qed.

Lemma store_sink_started mediaSink s :
  sink_PayloadHandler mediaSink = None ->
  co_post started (fun s' => binding s' = binding s)
    ((store_sink mediaSink ;; resume_unless_shutdown) s).
Proof.
  intros Hnew. unfold_engine. exec s.
  all: unfold co_post, started, bound; record_cbv.
  all: repeat split; try reflexivity.
  all: intros k Hk; injection Hk as <-; simpl; auto.
Qed.

Lemma start_event_signalled_at_the_end w h enableAudio enableMrc env s :
  signals m_startPreviewEventHandle s
    (StartPreviewCoroutine w h enableAudio enableMrc env s).
Proof.
  unfold StartPreviewCoroutine.
  apply signals_seq;
    [keeps_from (open_or_reuse_session_around w h enableAudio env)|].
  apply signals_seq; [keeps_from (set_stream_properties_around env)|].
  intros s0. unfold fresh. cbv beta iota.
  apply (signals_from _ _ (s0 <| next_obj := S (next_obj s0) |>));
    [reflexivity|].
  generalize (s0 <| next_obj := S (next_obj s0) |>).
  generalize (MkSink (next_obj s0) (encoding_profile enableAudio env) None).
  intros mediaSink. apply signals_seq.
  { apply co_keeps_if; [|apply co_keeps_skip].
    keeps_from (AddMrcEffectsAsync_around enableAudio env). }
  apply signals_seq; [keeps_from (start_stream_around env)|].
  apply store_sink_signals.
Qed.

(* A start sequence stores its sink at the end: one that has run to its end
   has stored a sink bound to the handler; one that threw has left sink and
   handler as they were. *)
Lemma StartPreviewCoroutine_started w h enableAudio enableMrc env s :
  co_post started (fun s' => binding s' = binding s)
    (StartPreviewCoroutine w h enableAudio enableMrc env s).
Proof.
  unfold StartPreviewCoroutine.
  apply co_post_seq;
    [keeps_from (open_or_reuse_session_around w h enableAudio env)|].
  apply co_post_seq; [keeps_from (set_stream_properties_around env)|].
  intros s0. unfold fresh. cbv beta iota.
  change (binding s0) with (binding (s0 <| next_obj := S (next_obj s0) |>)).
  generalize (s0 <| next_obj := S (next_obj s0) |>).
  apply co_post_seq.
  { apply co_keeps_if; [|apply co_keeps_skip].
    keeps_from (AddMrcEffectsAsync_around enableAudio env). }
  apply co_post_seq; [keeps_from (start_stream_around env)|].
  intros s1. apply store_sink_started. reflexivity.
Qed.

(** X5: the start sequence signals the start-complete event and stores its
    sink only at its end (lines 614-621), and nothing catches what the
    awaits before throw.  A sequence that has run to its end leaves the
    event signalled and a sink stored that is bound to the handler the
    engine holds; one that threw leaves the event as it found it, which for
    a sequence StartPreview has just launched is unsignalled, and sink and
    handler as they were. *)
Theorem start_sequence_signals_at_the_end_only w h enableAudio enableMrc env
    s :
  signals m_startPreviewEventHandle s
    (StartPreviewCoroutine w h enableAudio enableMrc env s)
  /\ co_post started (fun s' => binding s' = binding s)
       (StartPreviewCoroutine w h enableAudio enableMrc env s).
Proof.
  split.
  - apply start_event_signalled_at_the_end.
  - apply StartPreviewCoroutine_started.
Qed.

Lemma stop_tail_signals s :
  signals m_stopPreviewEventHandle s
    ((co_do (fun s => s <| m_stopPreviewEventHandle := true |>) ;;
      resume_unless_shutdown) s).
Proof. unfold_engine. exec s; reflexivity. Qed.

(** X6: likewise the stop sequence signals the stop-complete event only
    when it has run to its end (line 661): when stopping the stream or
    removing an effect throws, the event stays as the sequence found it. *)
Theorem stop_event_signalled_at_the_end_only env s :
  signals m_stopPreviewEventHandle s (StopPreviewCoroutine env s).
Proof.
  unfold StopPreviewCoroutine.
  apply signals_seq.
  { apply co_keeps_do. intros s0.
    generalize (ResetPayloadHandler_around s0). unfold_observations.
    congruence. }
  apply signals_seq; [keeps_by_parts; reflexivity|].
  apply signals_seq; [|exact stop_tail_signals].
  intros s0. destruct (m_mediaCapture s0); [|reflexivity].
  apply co_keeps_seq.
  - keeps_from (stop_stream_around env).
  - keeps_from (ReleaseMediaCaptureAsync_around env).
Qed.
(** ** A start whose sequence fails *)

(** X7: when the sequence of a start operation in flight throws, the
    operation ends with status Error and carries what was thrown, and the
    start-complete event, which StartPreview had reset, is still
    unsignalled: a failed start never signals it. *)
Theorem failed_start_leaves_event_reset env s s' w h enableAudio enableMrc
    e hr :
  m_startPreviewOp s
  = Some (MkAsyncAction (CoStartPreview w h enableAudio enableMrc) Started e) ->
  m_startPreviewEventHandle s = false ->
  fst (StartPreviewCoroutine w h enableAudio enableMrc env s) = Threw hr ->
  run_start env s = Some s' ->
  m_startPreviewEventHandle s' = false
  /\ m_startPreviewOp s'
     = Some (MkAsyncAction (CoStartPreview w h enableAudio enableMrc) Error hr).
Proof.
  intros Hop Hevent Hthrew Hrun.
  unfold run_start in Hrun. rewrite Hop in Hrun.
  pose proof (start_event_signalled_at_the_end w h enableAudio enableMrc env s)
    as Hsignal.
  unfold signals in Hsignal. rewrite Hthrew in Hsignal.
  destruct (StartPreviewCoroutine w h enableAudio enableMrc env s) as [o s1].
  simpl in Hthrew, Hsignal. subst o. injection Hrun as <-.
  split; [simpl; congruence | reflexivity].
Qed.

Lemma failed_start_witness :
  m_startPreviewEventHandle
    (after [DoStartPreview 1280 720 false false device_ok;
            RunStart platform_initialize_fails]) = false
  /\ m_startPreviewOp
       (after [DoStartPreview 1280 720 false false device_ok;
               RunStart platform_initialize_fails])
     = Some (MkAsyncAction (CoStartPreview 1280 720 false false) Error E_FAIL).
Proof.
  exact (failed_start_leaves_event_reset platform_initialize_fails
           engine_starting
           (after [DoStartPreview 1280 720 false false device_ok;
                   RunStart platform_initialize_fails])
           1280 720 false false S_OK E_FAIL
           ltac:(vm_compute; reflexivity) ltac:(vm_compute; reflexivity)
           ltac:(vm_compute; reflexivity) ltac:(vm_compute; reflexivity)).
Defined.

(** ** A start on an engine that has a session *)

Lemma co_seq_run (a b : co) s :
  (a ;; b) s
  = match a s with
    | (Done, s1) => b s1
    | (Threw hr, s1) => (Threw hr, s1)
    end.
Proof. reflexivity. Qed.


(** ** The stop sequence *)

Lemma co_seq_do (f : CaptureEngine -> CaptureEngine) (b : co) s :
  (co_do f ;; b) s = b (f s).
Proof. reflexivity. Qed.

Lemma co_seq_when (c : CaptureEngine -> bool)
    (f : CaptureEngine -> CaptureEngine) (b : co) s :
  (co_when c f ;; b) s = b (if c s then f s else s).
Proof. unfold co_seq, co_when. destruct (c s); reflexivity. Qed.

(* Releasing a session: when it has run to its end the session, its
   settings and the effects are gone; when removing an effect threw the
   session is still there. *)
Lemma ReleaseMediaCaptureAsync_post env s capture :
  m_mediaCapture s = Some capture ->
  binding s = (None, None) ->
  co_post
    (fun s' =>
       m_mediaCapture s' = None /\ binding s' = (None, None)
       /\ effects s' = (None, None, None) /\ m_initSettings s' = None)
    (stop_failed (Some capture))
    (ReleaseMediaCaptureAsync env s).
Proof.
  intros Hsession Hbinding. unfold_engine.
  destruct s. unfold binding in Hbinding. simpl in Hsession, Hbinding.
  injection Hbinding as -> ->. subst. exec_here.
  all: unfold co_post, stop_failed, binding, effects; record_cbv.
  all: try discriminate; auto.
Qed.

(* Signalling the stop event and resuming. *)
Lemma stop_tail_post s :
  co_post
    (fun s' =>
       m_stopPreviewEventHandle s' = true
       /\ (session s', binding s', effects s')
          = (session s, binding s, effects s))
    (fun _ => False)
    ((co_do (fun s => s <| m_stopPreviewEventHandle := true |>) ;;
      resume_unless_shutdown) s).
Proof. unfold_engine. exec s; split; reflexivity. Qed.

(* The first two statements of the stop sequence: handler and sink are
   unbound, session and effects are as they were. *)
Lemma stop_unbinds s :
  let s1 := ResetPayloadHandler s in
  let s2 := if is_some (m_mediaSink s1)
            then s1 <| m_mediaSink := None |> else s1 in
  binding s2 = (None, None)
  /\ session s2 = session s /\ effects s2 = effects s.
Proof.
  intros s1 s2.
  pose proof (ResetPayloadHandler_around s) as Hreset.
  pose proof (ResetPayloadHandler_tokens s) as (_ & _ & Hhandler).
  fold s1 in Hreset, Hhandler.
  revert Hreset. unfold_observations.
  subst s2. destruct (m_mediaSink s1) eqn:Hsink; simpl; intros Hreset.
  - rewrite Hhandler. split; [reflexivity|]. split; congruence.
  - rewrite Hsink, Hhandler. split; [reflexivity|]. split; congruence.
Qed.

Lemma StopPreviewCoroutine_post env s :
  co_post (stopped (is_some (m_mediaCapture s)))
    (stop_failed (m_mediaCapture s)) (StopPreviewCoroutine env s).
Proof.
  unfold StopPreviewCoroutine. rewrite co_seq_do, co_seq_when.
  destruct (stop_unbinds s) as (Hbinding & Hsession & Heffects).
  cbv zeta in Hbinding, Hsession, Heffects.
  set (s2 := if is_some (m_mediaSink (ResetPayloadHandler s))
             then (ResetPayloadHandler s) <| m_mediaSink := None |>
             else ResetPayloadHandler s) in *.
  assert (Hcapture : m_mediaCapture s2 = m_mediaCapture s)
    by (revert Hsession; unfold session; congruence).
  rewrite <- Hcapture. clearbody s2. clear Hsession Heffects Hcapture s.
  rewrite co_seq_run. cbv beta.
  destruct (m_mediaCapture s2) as [capture|] eqn:Hcap.
  - rewrite co_seq_run.
    pose proof (stop_stream_around env s2) as Hstream.
    destruct (stop_stream env s2) as [[|hr] s3].
    + assert (Hcap3 : m_mediaCapture s3 = Some capture)
        by (revert Hstream; unfold_observations; simpl; congruence).
      assert (Hbinding3 : binding s3 = (None, None))
        by (revert Hstream; unfold_observations; simpl; congruence).
      pose proof (ReleaseMediaCaptureAsync_post env s3 capture Hcap3 Hbinding3)
        as Hrelease.
      destruct (ReleaseMediaCaptureAsync env s3) as [[|hr] s4].
      * unfold co_post in Hrelease. simpl in Hrelease.
        destruct Hrelease as (Hc4 & Hb4 & He4 & Hi4).
        pose proof (stop_tail_post s4) as Htail.
        unfold co_post in *.
        destruct ((co_do (fun s => s <| m_stopPreviewEventHandle := true |>) ;;
                   resume_unless_shutdown) s4) as [[|hr] s5];
          simpl in *; [|contradiction].
        destruct Htail as (Hevent & Hsame).
        unfold stopped, session, binding, effects in *.
        split; [congruence|]. split; [congruence|]. split; [exact Hevent|].
        intros _. split; congruence.
      * exact Hrelease.
    + unfold co_post, stop_failed. simpl.
      revert Hstream. unfold_observations. simpl. intros Hstream.
      repeat split; congruence.
  - pose proof (stop_tail_post s2) as Htail.
    unfold co_post in *.
    destruct ((co_do (fun s => s <| m_stopPreviewEventHandle := true |>) ;;
               resume_unless_shutdown) s2) as [[|hr] s5];
      simpl in *; [|contradiction].
    destruct Htail as (Hevent & Hsame).
    unfold stopped, session, binding, effects in *.
    split; [congruence|]. split; [congruence|]. split; [exact Hevent|].
    discriminate.
Qed.

(** X9: a stop sequence that has run to its end has let go of everything
    a start had set up: the session is gone, handler and sink are unbound,
    the stop event is signalled and, where there was a session, its
    settings and the three effect handles are cleared.  The device
    resources and the frame buffers are not touched: they stay until
    Shutdown. *)
Theorem stop_sequence_releases_session env s :
  fst (StopPreviewCoroutine env s) = Done ->
  stopped (is_some (m_mediaCapture s)) (snd (StopPreviewCoroutine env s))
  /\ outside_sequences (snd (StopPreviewCoroutine env s))
     = outside_sequences s.
Proof.
  intros Hdone. split.
  - pose proof (StopPreviewCoroutine_post env s) as Hpost.
    unfold co_post in Hpost. rewrite Hdone in Hpost. exact Hpost.
  - generalize (StopPreviewCoroutine_around env s).
    unfold_observations. congruence.
Qed.

Lemma stop_sequence_releases_witness :
  is_some (m_mediaCapture engine_previewing_mrc) = true
  /\ effects engine_previewing_mrc = (Some 6%nat, Some 5%nat, Some 4%nat)
  /\ stopped true (snd (StopPreviewCoroutine platform_ok engine_previewing_mrc))
  /\ is_some (m_mediaDevice
                (snd (StopPreviewCoroutine platform_ok engine_previewing_mrc)))
     = true.
Proof.
  split; [reflexivity|]. split; [vm_compute; reflexivity|].
  split.
  - exact (proj1 (stop_sequence_releases_session platform_ok
                    engine_previewing_mrc ltac:(vm_compute; reflexivity))).
  - vm_compute. reflexivity.
Defined.

(** X10: a stop sequence that throws (stopping the stream or removing an
    effect failed) has unbound handler and sink all the same, since that is
    done first, and has not closed the session it found: there was a
    session, and it is still stored. *)
Theorem failed_stop_keeps_session env s hr :
  fst (StopPreviewCoroutine env s) = Threw hr ->
  stop_failed (m_mediaCapture s) (snd (StopPreviewCoroutine env s)).
Proof.
  intros Hthrew.
  pose proof (StopPreviewCoroutine_post env s) as Hpost.
  unfold co_post in Hpost. rewrite Hthrew in Hpost. exact Hpost.
Qed.

Lemma failed_stop_keeps_session_witness :
  fst (StopPreviewCoroutine platform_audio_removal_fails
         engine_previewing_mrc) = Threw E_FAIL
  /\ stop_failed (m_mediaCapture engine_previewing_mrc)
       (snd (StopPreviewCoroutine platform_audio_removal_fails
               engine_previewing_mrc)).
Proof.
  split; [vm_compute; reflexivity|].
  exact (failed_stop_keeps_session platform_audio_removal_fails
           engine_previewing_mrc E_FAIL ltac:(vm_compute; reflexivity)).
Defined.
(** ** Adding the effects *)

(** X11: AddMrcEffectsAsync is best effort.  On an engine with a session it
    never throws; it asks for the record stream's video effect, then (unless
    the device's streams are identical) the preview stream's, then (when
    audio is enabled) the audio effect, and the first of these that fails
    ends the additions: the ones after it are not attempted.  The session
    and its settings are as they were. *)
Theorem effects_added_until_first_failure enableAudio env s capture :
  m_mediaCapture s = Some capture ->
  fst (AddMrcEffectsAsync enableAudio env s) = Done
  /\ new_calls s (snd (AddMrcEffectsAsync enableAudio env s))
     = until_first_failure (additions enableAudio env capture)
  /\ session (snd (AddMrcEffectsAsync enableAudio env s)) = session s.
Proof.
  intros Hsession.
  assert (Hpost : co_post
            (fun s' => new_calls s s'
                       = until_first_failure
                           (additions enableAudio env capture)
                       /\ session s' = session s)
            (fun _ => False) (AddMrcEffectsAsync enableAudio env s)).
  { unfold_engine. destruct s. simpl in Hsession. subst. exec_here.
    all: unfold co_post, additions, new_calls, session; record_cbv.
    all: cbn [DeviceCharacteristic].
    all: rewrite <- ?app_assoc, ?skipn_length_app, ?skipn_length_nil.
    all: repeat match goal with
                | H : _ = _ |- _ => rewrite H
                end.
    all: cbn [app until_first_failure addition_failed].
    all: use_equations; auto. }
  unfold co_post in Hpost.
  destruct (AddMrcEffectsAsync enableAudio env s) as [[|hr] s1];
    simpl in *; [|contradiction].
  destruct Hpost. auto.
Qed.

Lemma effects_added_witness :
  new_calls engine_previewing_mrc
    (snd (AddMrcEffectsAsync true platform_preview_effect_fails
            engine_previewing_mrc))
  = [Call_AddVideoEffectAsync VideoRecord S_OK;
     Call_AddVideoEffectAsync VideoPreview E_FAIL].
Proof.
  exact (proj1 (proj2 (effects_added_until_first_failure true
                         platform_preview_effect_fails engine_previewing_mrc
                         (MkMediaCapture 2%nat AllStreamsIndependent)
                         ltac:(vm_compute; reflexivity)))).
Defined.
(** ** Deliveries that are ignored *)

(** X12: once a handler has been replaced, what it still delivers is
    ignored: a stream-payload event whose sender is not the handler the
    engine holds leaves the engine exactly as it is, whatever the payload. *)
Theorem replaced_handler_is_ignored a b payload env s s1 :
  put_PayloadHandler (Some b) s = Some s1 ->
  a <> b ->
  StreamPayload a payload env s1 = s1.
Proof.
  intros Hput Hother.
  destruct (put_PayloadHandler_registers b s s1 Hput) as (Hhandler & _).
  unfold StreamPayload. rewrite Hhandler.
  destruct (m_isShutdown s1); [reflexivity|].
  unfold same_handler. destruct (Nat.eqb_spec a b); [contradiction|].
  reflexivity.
Qed.

Lemma replaced_handler_is_ignored_witness :
  StreamPayload 1%nat (Some frame_720p) delivery_ok engine_rebound
  = engine_rebound.
Proof.
  exact (replaced_handler_is_ignored 1%nat 2%nat (Some frame_720p)
           delivery_ok engine_bound engine_rebound
           ltac:(vm_compute; reflexivity) ltac:(discriminate)).
Defined.

(** X13: after a Shutdown that has returned, deliveries change nothing: no
    buffer is allocated again, no sample is copied and no frame
    notification is raised, however many payloads arrive. *)
Theorem deliveries_after_Shutdown_are_ignored startEnv stopEnv s s' h l :
  Shutdown startEnv stopEnv s = Some s' ->
  deliver_all h l s' = s'.
Proof.
  intros Hshutdown.
  pose proof (Shutdown_sets_flag _ _ _ _ Hshutdown) as Hflag.
  induction l as [|d l IH]; [reflexivity|].
  rewrite deliver_all_cons.
  assert (Hignored : deliver h d s' = s').
  { unfold deliver, StreamPayload. rewrite Hflag. reflexivity. }
  rewrite Hignored. exact IH.
Qed.

Lemma deliveries_after_Shutdown_witness :
  deliver_all 1%nat
    [(frame_720p, delivery_ok); (audio_payload two_bytes, delivery_ok)]
    (after (preview_with_frame ++ [DoShutdown platform_ok platform_ok]))
  = after (preview_with_frame ++ [DoShutdown platform_ok platform_ok]).
Proof.
  exact (deliveries_after_Shutdown_are_ignored platform_ok platform_ok
           engine_with_frame
           (after (preview_with_frame ++ [DoShutdown platform_ok platform_ok]))
           1%nat
           [(frame_720p, delivery_ok); (audio_payload two_bytes, delivery_ok)]
           ltac:(vm_compute; reflexivity)).
Defined.

(** ** What a delivery raises *)

(** X14: an audio payload raises audio-frame-ready exactly when its sample
    has been copied: the engine is not shut down, the sender is the handler
    the engine holds, the audio sample buffer is there or its allocation
    succeeds, and CopySample succeeds.  Then exactly one notification is
    raised, with no size, pointer or matrix filled in; otherwise none is. *)
Theorem audio_frame_raised_iff_copied sender src env s :
  map note (new_notes s (StreamPayload sender (Some (audio_payload src)) env s))
  = if audio_copied sender env s then [audio_frame] else [].
Proof.
  change (holds_after
            (fun s' => map note (new_notes s s')
                       = if audio_copied sender env s
                         then [audio_frame] else [])
            (StreamPayload sender (Some (audio_payload src)) env s)).
  unfold_engine. unfold audio_payload, majorType_of.
  cbn [MediaStreamSample as_IStreamSample guid_eqb].
  exec s.
  all: unfold holds_after, audio_copied, audio_alloc_ok, new_notes; record_cbv.
  all: rewrite <- ?app_assoc, ?skipn_length_app, ?skipn_length_nil.
  all: use_equations.
  all: repeat match goal with
              | H : same_handler _ _ = _ |- _ => rewrite H
              | H : negb _ = _ |- _ => rewrite H
              end.
  all: cbn [negb andb orb map note]; rewrite ?andb_false_r; reflexivity.
Qed.


(** X16: the two kinds of payload keep to their own buffers.  A delivery of
    an audio payload leaves the shared video texture and the device
    resources as they are; a delivery of any other payload leaves the audio
    sample buffer as it is. *)
Theorem audio_and_video_keep_apart sender p env s :
  sides_apart (guid_eqb MFMediaType_Audio (majorType_of p)) s
    (StreamPayload sender (Some p) env s).
Proof.
  unfold_engine. exec s.
  all: unfold sides_apart, video_side, device_resources; record_cbv.
  all: repeat match goal with
              | H : guid_eqb _ _ = _ |- _ => rewrite H
              end.
  all: try reflexivity.
  all: destruct (guid_eqb MFMediaType_Audio (majorType_of p)); reflexivity.
Qed.
(** ** Invariants of a history *)

Section HistoryInvariant.
Variable Inv : CaptureEngine -> Prop.
Hypothesis Inv_StartPreview :
  forall w h enableAudio enableMrc env s,
    Inv s -> Inv (snd (StartPreview w h enableAudio enableMrc env s)).
Hypothesis Inv_StopPreview : forall s, Inv s -> Inv (snd (StopPreview s)).
Hypothesis Inv_put_PayloadHandler :
  forall value s s', put_PayloadHandler value s = Some s' -> Inv s -> Inv s'.
Hypothesis Inv_put_AppCoordinateSystem :
  forall value s, Inv s -> Inv (put_AppCoordinateSystem value s).
Hypothesis Inv_run_start :
  forall env s s', run_start env s = Some s' -> Inv s -> Inv s'.
Hypothesis Inv_run_stop :
  forall env s s', run_stop env s = Some s' -> Inv s -> Inv s'.
Hypothesis Inv_StartPreview_Completed :
  forall status s, Inv s -> Inv (StartPreview_Completed status s).
Hypothesis Inv_StopPreview_Completed :
  forall status s, Inv s -> Inv (StopPreview_Completed status s).
Hypothesis Inv_StreamPayload :
  forall sender payload env s,
    Inv s -> Inv (StreamPayload sender payload env s).
Hypothesis Inv_flag : forall s, Inv s -> Inv (s <| m_isShutdown := true |>).
Hypothesis Inv_ReleaseDeviceResources :
  forall s, Inv s -> Inv (ReleaseDeviceResources s).

Lemma Shutdown_preserves startEnv stopEnv s s' :
  Shutdown startEnv stopEnv s = Some s' -> Inv s -> Inv s'.
Proof.
  intros H Hinv. destruct (m_isShutdown s) eqn:Hflag.
  - unfold Shutdown in H. rewrite Hflag in H. injection H as <-. exact Hinv.
  - destruct (Shutdown_first _ _ _ _ Hflag H)
      as (s2 & s4 & Hstart & Hstop & ->).
    apply Inv_ReleaseDeviceResources.
    assert (Hs2 : Inv s2).
    { destruct (wait_start_cases _ _ _ Hstart) as [-> | Hrun].
      - apply Inv_flag. exact Hinv.
      - apply (Inv_run_start _ _ _ Hrun). apply Inv_flag. exact Hinv. }
    assert (Hs3 : Inv (if is_some (m_mediaCapture s2)
                       then snd (StopPreview s2) else s2)).
    { destruct (is_some (m_mediaCapture s2));
        [apply Inv_StopPreview|]; exact Hs2. }
    destruct (wait_stop_cases _ _ _ Hstop) as [-> | Hrun].
    + exact Hs3.
    + exact (Inv_run_stop _ _ _ Hrun Hs3).
Qed.

Lemma step_preserves a s s' : step a s = Some s' -> Inv s -> Inv s'.
Proof.
  destruct a as [w h enableAudio enableMrc env | | startEnv stopEnv | value
                 | value | env | env | | | sender payload env];
    unfold step; intros H Hinv.
  - injection H as <-. apply Inv_StartPreview. exact Hinv.
  - injection H as <-. apply Inv_StopPreview. exact Hinv.
  - exact (Shutdown_preserves _ _ _ _ H Hinv).
  - exact (Inv_put_PayloadHandler _ _ _ H Hinv).
  - injection H as <-. apply Inv_put_AppCoordinateSystem. exact Hinv.
  - exact (Inv_run_start _ _ _ H Hinv).
  - exact (Inv_run_stop _ _ _ H Hinv).
  - unfold complete_start in H.
    destruct (m_startPreviewOp s) as [op|]; [|discriminate].
    destruct (Status op); try discriminate; injection H as <-.
    + exact (Inv_StartPreview_Completed Completed s Hinv).
    + exact (Inv_StartPreview_Completed Canceled s Hinv).
    + exact (Inv_StartPreview_Completed Error s Hinv).
  - unfold complete_stop in H.
    destruct (m_stopPreviewOp s) as [op|]; [|discriminate].
    destruct (Status op); try discriminate; injection H as <-.
    + exact (Inv_StopPreview_Completed Completed s Hinv).
    + exact (Inv_StopPreview_Completed Canceled s Hinv).
    + exact (Inv_StopPreview_Completed Error s Hinv).
  - injection H as <-. apply Inv_StreamPayload. exact Hinv.
Qed.

Lemma run_preserves actions s s' :
  run actions s = Some s' -> Inv s -> Inv s'.
Proof.
  revert s. induction actions as [|a rest IH]; simpl; intros s H Hinv.
  - injection H as <-. exact Hinv.
  - destruct (step a s) as [s1|] eqn:Hstep; [|discriminate].
    exact (IH s1 H (step_preserves a s s1 Hstep Hinv)).
Qed.
End HistoryInvariant.

(** ** The device resources come in pairs *)





(** ** The sink is bound to the handler *)

Lemma bound_unchanged s s' : binding s' = binding s -> bound s -> bound s'.
Proof.
  unfold binding, bound. intros H. injection H as -> ->. auto.
Qed.

Lemma put_PayloadHandler_bound value s s' :
  put_PayloadHandler value s = Some s' -> bound s'.
Proof.
  unfold put_PayloadHandler. intros H.
  destruct (ResetPayloadHandler s)
    as [? ? ? ? ? ? ? ? ? ? ? ? ? ? sink ? ? ? ? ? ? ? ? ? ? ? ? ? ? ?].
  unfold event_add in H. simpl in H.
  destruct value as [h|]; [|destruct sink; discriminate].
  destruct sink; simpl in H; injection H as <-;
    unfold bound; simpl; intros k Hk; try discriminate;
    injection Hk as <-; reflexivity.
Qed.

Lemma run_start_bound env s s' :
  run_start env s = Some s' -> bound s -> bound s'.
Proof.
  unfold run_start. intros Hrun Hinv.
  destruct (m_startPreviewOp s) as [[[w h a m|] [| | |] e]|];
    try discriminate.
  pose proof (StartPreviewCoroutine_started w h a m env s) as Hpost.
  unfold co_post in Hpost.
  destruct (StartPreviewCoroutine w h a m env s) as [[|hr] s1];
    injection Hrun as <-; simpl in Hpost.
  - destruct Hpost as (_ & _ & Hbound). exact Hbound.
  - apply (bound_unchanged s); [exact Hpost | exact Hinv].
Qed.

Lemma run_stop_bound env s s' : run_stop env s = Some s' -> bound s'.
Proof.
  unfold run_stop. intros Hrun.
  destruct (m_stopPreviewOp s) as [[[w h a m|] [| | |] e]|];
    try discriminate.
  pose proof (StopPreviewCoroutine_post env s) as Hpost.
  unfold co_post, stopped, stop_failed, binding in Hpost.
  destruct (StopPreviewCoroutine env s) as [[|hr] s1];
    injection Hrun as <-; simpl in Hpost; unfold bound; simpl.
  - destruct Hpost as (_ & Hbinding & _). injection Hbinding as -> _.
    discriminate.
  - destruct Hpost as (Hbinding & _). injection Hbinding as -> _.
    discriminate.
Qed.

(** X18: in every state an engine can reach, the sink it holds is bound to
    the handler it holds: the setter rebinds the sink it finds, the start
    sequence binds the sink it stores, and the stop sequence lets go of
    both together. *)
Theorem sink_bound_to_the_handler s : reachable s -> bound s.
Proof.
  intros [actions Hrun].
  refine (run_preserves bound _ _ _ _ _ _ _ _ _ _ _
            actions CaptureEngine_new s Hrun _).
  - intros w h enableAudio enableMrc env s0. apply bound_unchanged.
    generalize (StartPreview_beside w h enableAudio enableMrc env s0).
    unfold_observations. congruence.
  - intros s0. apply bound_unchanged.
    generalize (StopPreview_beside s0). unfold_observations. congruence.
  - intros value s0 s1 Hput _. exact (put_PayloadHandler_bound _ _ _ Hput).
  - intros value s0. apply bound_unchanged. reflexivity.
  - exact run_start_bound.
  - intros env s0 s1 Hstep _. exact (run_stop_bound _ _ _ Hstep).
  - intros status s0. apply bound_unchanged. destruct status; reflexivity.
  - intros status s0. apply bound_unchanged. destruct status; reflexivity.
  - intros sender payload env s0. apply bound_unchanged.
    generalize (StreamPayload_around sender payload env s0)
               (StreamPayload_frame sender payload env s0).
    unfold_observations. congruence.
  - intros s0. apply bound_unchanged. reflexivity.
  - intros s0. apply bound_unchanged.
    rewrite ReleaseDeviceResources_eq. reflexivity.
  - intros k Hk. discriminate.
Qed.

Lemma sink_bound_witness :
  bound engine_with_frame
  /\ option_map sink_PayloadHandler (m_mediaSink engine_with_frame)
     = Some (Some 1%nat).
Proof.
  split; [|vm_compute; reflexivity].
  exact (sink_bound_to_the_handler engine_with_frame
           (ex_intro
              (fun actions =>
                 run actions CaptureEngine_new = Some engine_with_frame)
              preview_with_frame ltac:(vm_compute; reflexivity))).
Defined.

(** ** How a call and an operation end *)

(** X19: a StartPreview that is not rejected as busy comes to one of two
    ends.  When the device resources cannot be created it returns that
    failure with no operation in flight, and all it has changed is the
    start event, which it had already reset.  Otherwise it returns S_OK
    with the start operation in flight, the start event reset and both
    device resources there. *)
Theorem StartPreview_outcome w h enableAudio enableMrc env s :
  outstanding s = false ->
  start_outcome w h enableAudio enableMrc s
    (StartPreview w h enableAudio enableMrc env s).
Proof.
  intros Hidle. destruct (not_outstanding s Hidle) as [Hstart Hstop].
  unfold StartPreview. rewrite Hidle. clear Hidle.
  unfold_engine. destruct s. simpl in Hstart, Hstop. subst. exec_here.
  all: try discriminate.
  all: unfold start_outcome; record_cbv; use_equations;
    try (change (FAILED S_OK) with false);
    try (change (FAILED MF_E_UNEXPECTED) with true); cbv beta iota; auto 6.
Qed.

Lemma StartPreview_outcome_witness :
  fst (StartPreview 1280 720 false false device_fails CaptureEngine_new)
  = E_FAIL
  /\ start_outcome 1280 720 false false CaptureEngine_new
       (StartPreview 1280 720 false false device_fails CaptureEngine_new).
Proof.
  split; [reflexivity|].
  exact (StartPreview_outcome 1280 720 false false device_fails
           CaptureEngine_new eq_refl).
Defined.


(** ** Choosing the video profile *)

Lemma find_app {A : Type} (f : A -> bool) (l r : list A) :
  find f (l ++ r)
  = match find f l with
    | Some x => Some x
    | None => find f r
    end.
Proof.
  induction l as [|x l IH]; simpl; [reflexivity|].
  destruct (f x); [reflexivity | exact IH].
Qed.

Lemma find_existsb {A : Type} (f : A -> bool) (l : list A) :
  existsb f l = match find f l with Some _ => true | None => false end.
Proof.
  induction l as [|x l IH]; simpl; [reflexivity|].
  destruct (f x); [reflexivity | exact IH].
Qed.

Section ChooseVideoProfileProperties.
Variable wcsicmp : String.string -> String.string -> Z.
Variable Nv12 : String.string.
Variable streamType : MediaStreamType.
Variables width height : Z.

(* std::find_if finds the first description that matches, and leaves in the
   two locals what they held, or else the profile and its first
   description. *)
Lemma find_if_description_spec profile descriptions videoProfile description :
  find_if_description wcsicmp Nv12 width height profile descriptions
    videoProfile description
  = (find (description_matches wcsicmp Nv12 width height) descriptions,
     (match descriptions with
      | [] => videoProfile
      | _ :: _ => or_default videoProfile (Some profile)
      end,
      match descriptions with
      | [] => description
      | desc :: _ => or_default description (Some desc)
      end)).
Proof.
  revert videoProfile description.
  induction descriptions as [|desc rest IH]; intros videoProfile description;
    simpl; [reflexivity|].
  destruct (description_matches wcsicmp Nv12 width height desc).
  - destruct videoProfile, description; reflexivity.
  - rewrite IH. destruct rest, videoProfile, description; reflexivity.
Qed.

Lemma choose_among_spec profiles videoProfile description :
  choose_among wcsicmp Nv12 streamType width height profiles videoProfile
    description
  = if existsb (description_matches wcsicmp Nv12 width height)
         (all_descriptions streamType profiles)
    then (find (has_match wcsicmp Nv12 streamType width height) profiles,
          find (description_matches wcsicmp Nv12 width height)
            (all_descriptions streamType profiles))
    else (or_default videoProfile
            (find (has_descriptions streamType) profiles),
          or_default description
            (hd_error (all_descriptions streamType profiles))).
Proof.
  revert videoProfile description.
  induction profiles as [|profile rest IH]; intros videoProfile description.
  - simpl. destruct videoProfile, description; reflexivity.
  - cbn [choose_among all_descriptions flat_map find].
    fold (all_descriptions streamType rest).
    rewrite find_if_description_spec, existsb_app, find_app.
    unfold has_match at 1, has_descriptions at 1.
    rewrite (find_existsb _ (descriptions_of streamType profile)).
    destruct (find (description_matches wcsicmp Nv12 width height)
                (descriptions_of streamType profile)) as [found|] eqn:Hfound.
    + reflexivity.
    + rewrite IH. cbn [orb].
      destruct (existsb (description_matches wcsicmp Nv12 width height)
                  (all_descriptions streamType rest)); [reflexivity|].
      destruct (descriptions_of streamType profile) as [|desc others];
        [reflexivity|].
      destruct videoProfile, description; reflexivity.
Qed.

(** X21: the loop over the known video profiles chooses the first
    description, in the order it enumerates them, that is NV12 (compared
    without regard to case), of the size asked for and at 30 frames a
    second, together with the first profile that has such a description.
    When no description matches it falls back to the first profile that has
    any description for the stream and to the first description there is;
    when there is none at all it leaves both null. *)
Theorem choose_video_profile_first_match_or_default profiles :
  choose_video_profile wcsicmp Nv12 streamType width height profiles
  = first_match_or_default wcsicmp Nv12 streamType width height profiles.
Proof.
  unfold choose_video_profile, first_match_or_default.
  rewrite choose_among_spec. reflexivity.
Qed.

Lemma find_if_description_paired all_profiles profile descriptions r :
  In profile all_profiles ->
  incl descriptions (descriptions_of streamType profile) ->
  well_paired streamType all_profiles r ->
  well_paired streamType all_profiles
    (snd (find_if_description wcsicmp Nv12 width height profile descriptions
            (fst r) (snd r)))
  /\ forall found,
      fst (find_if_description wcsicmp Nv12 width height profile descriptions
             (fst r) (snd r)) = Some found ->
      In found (descriptions_of streamType profile).
Proof.
  intros Hprofile. revert r.
  induction descriptions as [|desc rest IH]; intros r Hincl Hpaired.
  - simpl. destruct r as [videoProfile description].
    split; [exact Hpaired | discriminate].
  - assert (Hdesc : In desc (descriptions_of streamType profile))
      by (apply Hincl; left; reflexivity).
    assert (Hrest : incl rest (descriptions_of streamType profile))
      by (intros x Hx; apply Hincl; right; exact Hx).
    assert (Hnext : well_paired streamType all_profiles
                      (match fst r with
                       | None => Some profile
                       | Some _ => fst r
                       end,
                       match snd r with
                       | None => Some desc
                       | Some _ => snd r
                       end)).
    { destruct r as [[p|] [d|]]; simpl in *; auto; contradiction. }
    simpl.
    destruct (description_matches wcsicmp Nv12 width height desc).
    + simpl. split; [exact Hnext|].
      intros found Hfound. injection Hfound as <-. exact Hdesc.
    + exact (IH _ Hrest Hnext).
Qed.

Lemma choose_among_paired all_profiles profiles r :
  incl profiles all_profiles ->
  well_paired streamType all_profiles r ->
  well_paired streamType all_profiles
    (choose_among wcsicmp Nv12 streamType width height profiles
       (fst r) (snd r)).
Proof.
  revert r. induction profiles as [|profile rest IH]; intros r Hincl Hpaired.
  - destruct r. exact Hpaired.
  - assert (Hprofile : In profile all_profiles)
      by (apply Hincl; left; reflexivity).
    assert (Hrest : incl rest all_profiles)
      by (intros x Hx; apply Hincl; right; exact Hx).
    destruct (find_if_description_paired all_profiles profile
                (descriptions_of streamType profile) r Hprofile
                (incl_refl _) Hpaired) as [Hnext Hfound].
    simpl.
    destruct (find_if_description wcsicmp Nv12 width height profile
                (descriptions_of streamType profile) (fst r) (snd r))
      as [[found|] [videoProfile description]]; simpl in *.
    + split; [exact Hprofile | exact (Hfound found eq_refl)].
    + exact (IH (videoProfile, description) Hrest Hnext).
Qed.

(** X22: the profile and the media description the loop hands to the
    initialisation settings belong together: either both are null, or the
    profile is one of the known profiles and the description is one of the
    descriptions that profile supports for the stream.  The defaults are
    stored together and a match replaces both. *)
Theorem chosen_description_belongs_to_chosen_profile profiles :
  well_paired streamType profiles
    (choose_video_profile wcsicmp Nv12 streamType width height profiles).
Proof.
  exact (choose_among_paired profiles profiles (None, None) (incl_refl _) I).
Qed.
End ChooseVideoProfileProperties.

(* On the sample camera a request for 1280x720 finds the lower-case nv12
   description of the second profile; a request for 1920x1080 falls back to
   the first profile and its first description. *)
Lemma choose_video_profile_examples :
  choose_video_profile Subtypes.icmp Subtypes.NV12 VideoPreview 1280 720
    camera_profiles
  = (nth_error camera_profiles 1,
     Some (MkMediaDescription Subtypes.nv12 1280 720 FrameRates.thirty))
  /\ choose_video_profile Subtypes.icmp Subtypes.NV12 VideoPreview 1920 1080
       camera_profiles
     = (nth_error camera_profiles 0,
        Some (MkMediaDescription Subtypes.NV12 640 480 FrameRates.thirty))
  /\ choose_video_profile Subtypes.icmp Subtypes.NV12 VideoRecord 1280 720
       camera_profiles
     = (None, None).
Proof. repeat split; vm_compute; reflexivity. Qed.
